(** * Straw: the .hic contact-matrix reader of CoolBox (strawC_src/straw.cpp)

    A shallow embedding of the local-file path of [straw] and [getSize] and
    of the functions they call, followed by the properties of the reader.

    Conventions of the embedding.
    - [int], [long] and [short] are values of [Z]; additions and
      multiplications of [int] wrap around at 32 bits, written out with
      [wrap].  A division by zero has no result ([Fault DivisionByZero]),
      and neither has a loop [for (int r = lo; r <= hi; r++)] whose bound is
      [INT_MAX], which cannot end ([Fault Overflow]).
    - An [istream] over a file or over a byte buffer is the list of the bytes
      that are still to be read.  A fixed-width read that finds too few bytes
      leaves its local variable indeterminate in the source, which goes on
      with it; the embedding stops there with [Fault StreamFailure].  The
      global [version] is the one variable that keeps a value, see
      [readHeader].
    - [std::string] is [string]; [std::vector] is [list]; [std::map] is an
      association list read with first-match lookup; [std::set<int>] is a
      strictly increasing list, which is also the order its iterator yields.
    - [float] and [double] are [spec_float] values of the formats (24, 128) and
      (53, 1024).
    - What the source prints on [cerr] is collected, line by line, in a log.
    - zlib's [inflate] is a parameter of the development; the transport of the
      [http] path (libcurl) is not embedded. *)

From Stdlib Require Import ZArith List Lia Bool String Ascii.
From Stdlib Require Import Sorting.Sorted.
From Stdlib Require Import Strings.Byte.
From Stdlib Require Import Numbers.DecimalString.
From Stdlib Require Numbers.DecimalPos.
From Stdlib Require Import Floats.SpecFloat.
Import ListNotations.

Local Open Scope Z_scope.

(** ** Results of fallible code *)

Inductive fault : Type :=
| StreamFailure      (* a read found fewer bytes than it asked for *)
| Uninitialised      (* a local variable is read before any assignment *)
| OutOfBounds        (* operator[] of a vector outside its size *)
| DivisionByZero     (* integer division by zero, or INT_MIN / -1 *)
| Overflow           (* the counter of a loop is incremented at INT_MAX *)
| Thrown (what : string) (* a C++ exception leaves the function *)
| NotEmbedded.       (* the http transport, which is not part of the embedding *)

Inductive result (A : Type) : Type :=
| Ok (a : A)
| Fault (f : fault).

Arguments Ok {A} a.
Arguments Fault {A} f.

Definition bind {A B : Type} (r : result A) (k : A -> result B) : result B :=
  match r with
  | Ok a => k a
  | Fault f => Fault f
  end.

Notation "x <- r ;; k" := (bind r (fun x => k))
  (at level 61, r at next level, right associativity).
Notation "' p <- r ;; k" := (bind r (fun x => let p := x in k))
  (at level 61, p pattern, r at next level, right associativity).

(** ** Machine integers *)

Definition wrap (w : Z) (z : Z) : Z :=
  (z + 2 ^ (w - 1)) mod 2 ^ w - 2 ^ (w - 1).

Definition INT_MIN : Z := - 2 ^ 31.
Definition INT_MAX : Z := 2 ^ 31 - 1.

Definition is_int (z : Z) : Prop := INT_MIN <= z <= INT_MAX.

Definition int_add (a b : Z) : Z := wrap 32 (a + b).
Definition int_sub (a b : Z) : Z := wrap 32 (a - b).
Definition int_mul (a b : Z) : Z := wrap 32 (a * b).

(** [a / b] on [int]: truncation toward zero. *)
Definition int_div (a b : Z) : result Z :=
  if (b =? 0) || ((a =? INT_MIN) && (b =? -1)) then Fault DivisionByZero
  else Ok (Z.quot a b).

(** The values [lo, lo+1, ..., hi]. *)
Definition int_range (lo hi : Z) : list Z :=
  map (fun k => lo + Z.of_nat k) (seq 0 (Z.to_nat (hi - lo + 1))).

(** [for (int r = lo; r <= hi; r++)]: the values that [r] takes in the body
    of the loop.  With [hi = INT_MAX] the test [r <= hi] holds for every
    [int] and [r++] is evaluated at [INT_MAX]: the loop has no end. *)
Definition loop_range (lo hi : Z) : result (list Z) :=
  if hi =? INT_MAX then Fault Overflow else Ok (int_range lo hi).

(** ** std::set<int> *)

Fixpoint set_insert (x : Z) (s : list Z) : list Z :=
  match s with
  | [] => [x]
  | y :: t =>
      if x <? y then x :: s
      else if x =? y then s
      else y :: set_insert x t
  end.

(** ** BlockSelector: getBlockNumbersForRegionFromBinPosition *)

(** The body of the two nested loops: every [r * blockColumnCount + c] for
    [r] in [rows] and [c] in [cols] is inserted into [blocksSet]. *)
Definition insert_blocks (blockColumnCount : Z) (rows cols : list Z)
    (blocksSet : list Z) : list Z :=
  fold_left
    (fun acc r =>
       fold_left
         (fun acc' c => set_insert (int_add (int_mul r blockColumnCount) c) acc')
         cols acc)
    rows blocksSet.

(** The two nested loops [for (r = row1; r <= row2; r++)] and
    [for (c = col1; c <= col2; c++)]; the inner loop is entered when the
    outer one has a value to run with. *)
Definition block_loops (blockColumnCount row1 row2 col1 col2 : Z)
    (blocksSet : list Z) : result (list Z) :=
  rows <- loop_range row1 row2 ;;
  match rows with
  | [] => Ok blocksSet
  | _ :: _ =>
      cols <- loop_range col1 col2 ;;
      Ok (insert_blocks blockColumnCount rows cols blocksSet)
  end.

Definition getBlockNumbersForRegionFromBinPosition
    (regionIndices : Z * Z * Z * Z) (blockBinCount blockColumnCount : Z)
    (intra : bool) : result (list Z) :=
  let '(ri0, ri1, ri2, ri3) := regionIndices in
  col1 <- int_div ri0 blockBinCount ;;
  col2 <- int_div (int_add ri1 1) blockBinCount ;;
  row1 <- int_div ri2 blockBinCount ;;
  row2 <- int_div (int_add ri3 1) blockBinCount ;;
  blocksSet <- block_loops blockColumnCount row1 row2 col1 col2 [] ;;
  if intra
  then block_loops blockColumnCount col1 col2 row1 row2 blocksSet
  else Ok blocksSet.

(** ** Streams of bytes *)

Definition stream : Type := list byte.

Definition byte_val (b : byte) : Z := Z.of_N (Byte.to_N b).

(** The unsigned value of a little-endian byte sequence. *)
Fixpoint le_unsigned (bs : list byte) : Z :=
  match bs with
  | [] => 0
  | b :: rest => byte_val b + 256 * le_unsigned rest
  end.

(** Two's complement reading of an unsigned [w]-bit value. *)
Definition to_signed (w u : Z) : Z :=
  if u <? 2 ^ (w - 1) then u else u - 2 ^ w.

(** [fin.read(buf, n)] *)
Definition read_bytes (n : nat) (fin : stream) : result (list byte * stream) :=
  if (List.length fin <? n)%nat then Fault StreamFailure
  else Ok (firstn n fin, skipn n fin).

Definition read_signed (n : nat) (fin : stream) : result (Z * stream) :=
  '(bs, fin) <- read_bytes n fin ;;
  Ok (to_signed (8 * Z.of_nat n) (le_unsigned bs), fin).

Definition read_char : stream -> result (Z * stream) := read_signed 1.
Definition read_short : stream -> result (Z * stream) := read_signed 2.
Definition read_int : stream -> result (Z * stream) := read_signed 4.
Definition read_long : stream -> result (Z * stream) := read_signed 8.

(** [getline(fin, str, '\0')]: the characters up to the next NUL, which is
    consumed, or up to the end of the stream. *)
Fixpoint getline (fin : stream) : string * stream :=
  match fin with
  | [] => (EmptyString, [])
  | b :: rest =>
      if Byte.eqb b x00 then (EmptyString, rest)
      else let '(str, rest') := getline rest in
           (String (ascii_of_byte b) str, rest')
  end.

(** [fin.seekg(pos, ios::beg)] on the file [file]. *)
Definition seekg (file : list byte) (pos : Z) : result stream :=
  if pos <? 0 then Fault StreamFailure
  else Ok (skipn (Z.to_nat pos) file).

(** ** Floating-point values *)

Definition float32 (x : spec_float) : Prop := valid_binary 24 128 x = true.

(** The value of an IEEE 754 bit pattern with [mw] mantissa bits and [ew]
    exponent bits. *)
Definition decode_ieee (mw ew : Z) (bits : Z) : spec_float :=
  let m := bits mod 2 ^ mw in
  let e := (bits / 2 ^ mw) mod 2 ^ ew in
  let s := Z.odd (bits / 2 ^ (mw + ew)) in
  if e =? 0 then
    match m with
    | Zpos p => S754_finite s p (2 - 2 ^ (ew - 1) - mw)
    | _ => S754_zero s
    end
  else if e =? 2 ^ ew - 1 then
    if m =? 0 then S754_infinity s else S754_nan
  else
    match m + 2 ^ mw with
    | Zpos p => S754_finite s p (e - (2 ^ (ew - 1) - 1) - mw)
    | _ => S754_nan
    end.

Definition read_float (fin : stream) : result (spec_float * stream) :=
  '(bs, fin) <- read_bytes 4 fin ;;
  Ok (decode_ieee 23 8 (le_unsigned bs), fin).

Definition read_double (fin : stream) : result (spec_float * stream) :=
  '(bs, fin) <- read_bytes 8 fin ;;
  Ok (decode_ieee 52 11 (le_unsigned bs), fin).

(** [isnan] *)
Definition isnan (x : spec_float) : bool :=
  match x with
  | S754_nan => true
  | _ => false
  end.

(** The conversion of a [short] to [float] (always exact). *)
Definition float_of_short (c : Z) : spec_float := binary_normalize 24 128 c 0 false.

(** The conversions between [float] and [double]. *)
Definition double_of_float (x : spec_float) : spec_float :=
  match x with
  | S754_finite s m e => binary_round 53 1024 s m e
  | _ => x
  end.

Definition float_of_double (x : spec_float) : spec_float :=
  match x with
  | S754_finite s m e => binary_round 24 128 s m e
  | _ => x
  end.

(** ** The data model (straw.h) *)

Record indexEntry : Type := { size : Z; position : Z }.

Record contactRecord : Type := { binX : Z; binY : Z; counts : spec_float }.

Record chromosome : Type := { name : string; index : Z; length : Z }.

(** [std::map]: [m[k] = v] and lookup. *)
Definition map_set {K V : Type} (k : K) (v : V) (m : list (K * V)) : list (K * V) :=
  (k, v) :: m.

Fixpoint map_find {K V : Type} (eqb : K -> K -> bool) (k : K) (m : list (K * V))
  : option V :=
  match m with
  | [] => None
  | (k', v) :: rest => if eqb k k' then Some v else map_find eqb k rest
  end.

(** [operator<<] of an [int]. *)
Definition dec (z : Z) : string := NilEmpty.string_of_int (Z.to_int z).

(** ** HeaderReader *)

(** [str[i]]: the terminating NUL is read at [i = str.size()]. *)
Definition char_at (str : string) (i : nat) : ascii :=
  match String.get i str with
  | Some c => c
  | None => Ascii.zero
  end.

Definition readMagicString (fin : stream) : bool * stream :=
  let '(str, fin) := getline fin in
  (Ascii.eqb (char_at str 0) "H" && Ascii.eqb (char_at str 1) "I"
     && Ascii.eqb (char_at str 2) "C", fin).

(** The loop that reads and ignores the attribute dictionary. *)
Fixpoint skip_attributes (n : nat) (fin : stream) : stream :=
  match n with
  | O => fin
  | S k =>
      let '(_, fin) := getline fin in
      let '(_, fin) := getline fin in
      skip_attributes k fin
  end.

(** The loop that fills the chromosome map; [i] is its control variable. *)
Fixpoint read_chromosomes (n : nat) (i : Z) (fin : stream)
    (chromosomeMap : list (string * chromosome))
  : result (list (string * chromosome) * stream) :=
  match n with
  | O => Ok (chromosomeMap, fin)
  | S k =>
      let '(nm, fin) := getline fin in
      '(len, fin) <- read_int fin ;;
      let chr := {| name := nm; index := i; length := len |} in
      read_chromosomes k (i + 1) fin (map_set nm chr chromosomeMap)
  end.

Definition msg_magic : string :=
  "Hi-C magic string is missing, does not appear to be a hic file".

Definition msg_version (version : Z) : string :=
  "Version " ++ dec version ++ " no longer supported".

(** The read of the four bytes of [version] when fewer than four bytes are
    left: the bytes that are there replace the low bytes of the global
    variable, the other bytes keep their old value. *)
Definition partial_int (old : Z) (bs : list byte) : Z :=
  let k := 256 ^ Z.of_nat (List.length bs) in
  to_signed 32 (le_unsigned bs + k * ((old mod 2 ^ 32) / k)).

(** [readHeader]: the chromosome map, [master], the global [version], the
    lines printed on [cerr] and the stream after the header.  [version] is
    the one variable of the reader that has a value when its read fails;
    below 6 the function returns before anything else is read. *)
Definition readHeader (fin : stream) (version : Z)
  : result (list (string * chromosome) * Z * Z * list string * stream) :=
  let '(magic, fin) := readMagicString fin in
  if negb magic then Ok ([], -1, version, [msg_magic], fin)
  else
    match read_int fin with
    | Fault _ =>
        let version := partial_int version fin in
        if version <? 6 then Ok ([], -1, version, [msg_version version], [])
        else Fault StreamFailure
    | Ok (version, fin) =>
        if version <? 6 then Ok ([], -1, version, [msg_version version], fin)
        else
          '(master, fin) <- read_long fin ;;
          let '(genome, fin) := getline fin in
          '(nattributes, fin) <- read_int fin ;;
          let fin := skip_attributes (Z.to_nat nattributes) fin in
          '(nChrs, fin) <- read_int fin ;;
          '(chromosomeMap, fin) <- read_chromosomes (Z.to_nat nChrs) 0 fin [] ;;
          Ok (chromosomeMap, master, version, [], fin)
    end.

(** ** FooterReader *)

(** The loop over the master index.  [myFilePos] is [None] as long as the
    caller's variable has not been assigned. *)
Fixpoint footer_entries (n : nat) (key : string) (fin : stream)
    (myFilePos : option Z) (found : bool) : result (option Z * bool * stream) :=
  match n with
  | O => Ok (myFilePos, found, fin)
  | S k =>
      let '(str, fin) := getline fin in
      '(fpos, fin) <- read_long fin ;;
      '(sizeinbytes, fin) <- read_int fin ;;
      if String.eqb str key
      then footer_entries k key fin (Some fpos) true
      else footer_entries k key fin myFilePos found
  end.

Fixpoint skip_doubles (n : nat) (fin : stream) : result stream :=
  match n with
  | O => Ok fin
  | S k => '(v, fin) <- read_double fin ;; skip_doubles k fin
  end.

Fixpoint skip_factors (n : nat) (fin : stream) : result stream :=
  match n with
  | O => Ok fin
  | S k =>
      '(chrIdx, fin) <- read_int fin ;;
      '(v, fin) <- read_double fin ;;
      skip_factors k fin
  end.

(** The two loops over the expected-value maps; the records of the second
    one ([typed = true]) start with one more string. *)
Fixpoint skip_expected (typed : bool) (n : nat) (fin : stream) : result stream :=
  match n with
  | O => Ok fin
  | S k =>
      let fin := if typed then snd (getline fin) else fin in
      let '(str, fin) := getline fin in
      '(binSize, fin) <- read_int fin ;;
      '(nValues, fin) <- read_int fin ;;
      fin <- skip_doubles (Z.to_nat nValues) fin ;;
      '(nNormalizationFactors, fin) <- read_int fin ;;
      fin <- skip_factors (Z.to_nat nNormalizationFactors) fin ;;
      skip_expected typed k fin
  end.

(** The loop over the index of normalization vectors.  An entry is [None]
    as long as it has not been assigned ([found1], [found2] are false). *)
Fixpoint norm_entries (n : nat) (c1 c2 : Z) (norm unit : string) (resolution : Z)
    (fin : stream) (c1NormEntry c2NormEntry : option indexEntry)
  : result (option indexEntry * option indexEntry * stream) :=
  match n with
  | O => Ok (c1NormEntry, c2NormEntry, fin)
  | S k =>
      let '(normtype, fin) := getline fin in
      '(chrIdx, fin) <- read_int fin ;;
      let '(unit1, fin) := getline fin in
      '(resolution1, fin) <- read_int fin ;;
      '(filePosition, fin) <- read_long fin ;;
      '(sizeInBytes, fin) <- read_int fin ;;
      let entry := {| size := sizeInBytes; position := filePosition |} in
      let same := String.eqb normtype norm && String.eqb unit1 unit
                  && (resolution1 =? resolution) in
      let c1NormEntry := if (chrIdx =? c1) && same then Some entry else c1NormEntry in
      let c2NormEntry := if (chrIdx =? c2) && same then Some entry else c2NormEntry in
      norm_entries k c1 c2 norm unit resolution fin c1NormEntry c2NormEntry
  end.

Definition footer_key (c1 c2 : Z) : string := dec c1 ++ "_" ++ dec c2.

Definition msg_no_matrix (key : string) : string :=
  "File doesn't have the given chr_chr map " ++ key.

Definition msg_no_norm (norm : string) (resolution : Z) (unit : string) : string :=
  "File did not contain " ++ norm
    ++ " normalization vectors for one or both chromosomes at "
    ++ dec resolution ++ " " ++ unit.

Definition is_some {A : Type} (o : option A) : bool :=
  match o with
  | Some _ => true
  | None => false
  end.

(** What [readFooter] leaves behind: its boolean result and the three
    variables it received by reference. *)
Record footer : Type := {
  foundFooter : bool;
  myFilePos : option Z;
  c1NormEntry : option indexEntry;
  c2NormEntry : option indexEntry;
  footer_log : list string
}.

Definition readFooter (fin : stream) (master c1 c2 : Z) (norm unit : string)
    (resolution : Z) : result footer :=
  '(nBytes, fin) <- read_int fin ;;
  let key := footer_key c1 c2 in
  '(nEntries, fin) <- read_int fin ;;
  '(pos, found, fin) <- footer_entries (Z.to_nat nEntries) key fin None false ;;
  if negb found then
    Ok {| foundFooter := false; myFilePos := pos; c1NormEntry := None;
          c2NormEntry := None; footer_log := [msg_no_matrix key] |}
  else if String.eqb norm "NONE" then
    Ok {| foundFooter := true; myFilePos := pos; c1NormEntry := None;
          c2NormEntry := None; footer_log := [] |}
  else
    '(nExpectedValues, fin) <- read_int fin ;;
    fin <- skip_expected false (Z.to_nat nExpectedValues) fin ;;
    '(nExpectedValues, fin) <- read_int fin ;;
    fin <- skip_expected true (Z.to_nat nExpectedValues) fin ;;
    '(nEntries, fin) <- read_int fin ;;
    '(e1, e2, fin) <-
       norm_entries (Z.to_nat nEntries) c1 c2 norm unit resolution fin None None ;;
    Ok {| foundFooter := true; myFilePos := pos; c1NormEntry := e1;
          c2NormEntry := e2;
          footer_log := if negb (is_some e1) || negb (is_some e2)
                        then [msg_no_norm norm resolution unit] else [] |}.

(** ** MatrixIndexReader *)

(** The loop over the block index of one zoom level. *)
Fixpoint read_blocks (n : nat) (found : bool) (fin : stream)
    (blockMap : list (Z * indexEntry)) : result (list (Z * indexEntry) * stream) :=
  match n with
  | O => Ok (blockMap, fin)
  | S k =>
      '(blockNumber, fin) <- read_int fin ;;
      '(filePosition, fin) <- read_long fin ;;
      '(blockSizeInBytes, fin) <- read_int fin ;;
      let entry := {| size := blockSizeInBytes; position := filePosition |} in
      read_blocks k found fin
        (if found then map_set blockNumber entry blockMap else blockMap)
  end.

(** [readMatrixZoomData]: the block map, and [Some (blockBinCount,
    blockColumnCount)] exactly when [found] is set, which is when the two
    variables received by reference are assigned. *)
Definition readMatrixZoomData (fin : stream) (myunit : string) (mybinsize : Z)
  : result (list (Z * indexEntry) * option (Z * Z) * stream) :=
  let '(unit, fin) := getline fin in
  '(tmp, fin) <- read_int fin ;;
  '(tmp2, fin) <- read_float fin ;;
  '(tmp2, fin) <- read_float fin ;;
  '(tmp2, fin) <- read_float fin ;;
  '(tmp2, fin) <- read_float fin ;;
  '(binSize, fin) <- read_int fin ;;
  '(blockBinCount, fin) <- read_int fin ;;
  '(blockColumnCount, fin) <- read_int fin ;;
  let found := String.eqb myunit unit && (mybinsize =? binSize) in
  '(nBlocks, fin) <- read_int fin ;;
  '(blockMap, fin) <- read_blocks (Z.to_nat nBlocks) found fin [] ;;
  Ok (blockMap, if found then Some (blockBinCount, blockColumnCount) else None, fin).

(** [while (i < nRes && !found)] with [n] zoom levels left to try. *)
Fixpoint zoom_levels (n : nat) (fin : stream) (unit : string) (resolution : Z)
  : result (list (Z * indexEntry) * option (Z * Z)) :=
  match n with
  | O => Ok ([], None)
  | S k =>
      '(blockMap, counts, fin) <- readMatrixZoomData fin unit resolution ;;
      match counts with
      | Some _ => Ok (blockMap, counts)
      | None => zoom_levels k fin unit resolution
      end
  end.

Definition msg_no_blocks : string := "Error finding block data".

Definition readMatrix (file : list byte) (myFilePosition : Z) (unit : string)
    (resolution : Z) : result (list (Z * indexEntry) * option (Z * Z) * list string) :=
  fin <- seekg file myFilePosition ;;
  '(c1, fin) <- read_int fin ;;
  '(c2, fin) <- read_int fin ;;
  '(nRes, fin) <- read_int fin ;;
  '(blockMap, counts) <- zoom_levels (Z.to_nat nRes) fin unit resolution ;;
  Ok (blockMap, counts, if is_some counts then [] else [msg_no_blocks]).

(** ** std::vector *)

(** [v[i] = x] *)
Definition vec_set {A : Type} (v : list A) (i : Z) (x : A) : result (list A) :=
  if (0 <=? i) && (i <? Z.of_nat (List.length v))
  then Ok (firstn (Z.to_nat i) v ++ x :: skipn (Z.to_nat i + 1) v)
  else Fault OutOfBounds.

(** [v[i]] *)
Definition vec_get {A : Type} (v : list A) (i : Z) : result A :=
  if i <? 0 then Fault OutOfBounds
  else match nth_error v (Z.to_nat i) with
       | Some x => Ok x
       | None => Fault OutOfBounds
       end.

(** [std::vector<T> v(n)] for a signed [n]: [n] value-initialised elements. *)
Definition vec_make {A : Type} (n : Z) (x : A) : result (list A) :=
  if n <? 0 then Fault (Thrown "std::length_error")
  else Ok (repeat x (Z.to_nat n)).

(** ** BlockDecoder *)

Definition zero_record : contactRecord :=
  {| binX := 0; binY := 0; counts := S754_zero false |}.

(** The loop of the format before version 7; [i] is its control variable. *)
Fixpoint records_v6 (n : nat) (i : Z) (bufferin : stream) (v : list contactRecord)
  : result (list contactRecord) :=
  match n with
  | O => Ok v
  | S k =>
      '(bx, bufferin) <- read_int bufferin ;;
      '(by_, bufferin) <- read_int bufferin ;;
      '(c, bufferin) <- read_float bufferin ;;
      v <- vec_set v i {| binX := bx; binY := by_; counts := c |} ;;
      records_v6 k (i + 1) bufferin v
  end.

(** One count of a version 7 block: a [short] when [useShort == 0]. *)
Definition read_count (useShort : Z) (bufferin : stream)
  : result (spec_float * stream) :=
  if useShort =? 0 then
    '(c, bufferin) <- read_short bufferin ;; Ok (float_of_short c, bufferin)
  else read_float bufferin.

(** Type 1, the inner loop over the columns of one row. *)
Fixpoint row_cells (n : nat) (useShort binXOffset binY_ : Z) (bufferin : stream)
    (index : Z) (v : list contactRecord)
  : result (stream * Z * list contactRecord) :=
  match n with
  | O => Ok (bufferin, index, v)
  | S k =>
      '(x, bufferin) <- read_short bufferin ;;
      let bx := int_add binXOffset x in
      '(c, bufferin) <- read_count useShort bufferin ;;
      v <- vec_set v index {| binX := bx; binY := binY_; counts := c |} ;;
      row_cells k useShort binXOffset binY_ bufferin (index + 1) v
  end.

(** Type 1, the outer loop over the rows. *)
Fixpoint rows (n : nat) (useShort binXOffset binYOffset : Z) (bufferin : stream)
    (index : Z) (v : list contactRecord) : result (list contactRecord) :=
  match n with
  | O => Ok v
  | S k =>
      '(y, bufferin) <- read_short bufferin ;;
      let binY_ := int_add y binYOffset in
      '(colCount, bufferin) <- read_short bufferin ;;
      '(bufferin, index, v) <-
         row_cells (Z.to_nat colCount) useShort binXOffset binY_ bufferin index v ;;
      rows k useShort binXOffset binYOffset bufferin index v
  end.

(** Type 2, the loop over the [nPts] cells; [i] is its control variable. *)
Fixpoint points (n : nat) (i : Z) (useShort binXOffset binYOffset w : Z)
    (bufferin : stream) (index : Z) (v : list contactRecord)
  : result (list contactRecord) :=
  match n with
  | O => Ok v
  | S k =>
      row <- int_div i w ;;
      let col := int_sub i (int_mul row w) in
      let bin1 := int_add binXOffset col in
      let bin2 := int_add binYOffset row in
      if useShort =? 0 then
        '(c, bufferin) <- read_short bufferin ;;
        if negb (c =? -32768) then
          v <- vec_set v index {| binX := bin1; binY := bin2; counts := float_of_short c |} ;;
          points k (i + 1) useShort binXOffset binYOffset w bufferin (index + 1) v
        else points k (i + 1) useShort binXOffset binYOffset w bufferin index v
      else
        '(c, bufferin) <- read_float bufferin ;;
        if negb (isnan c) then
          v <- vec_set v index {| binX := bin1; binY := bin2; counts := c |} ;;
          points k (i + 1) useShort binXOffset binYOffset w bufferin (index + 1) v
        else points k (i + 1) useShort binXOffset binYOffset w bufferin index v
  end.

(** The part of [readBlock] that follows the decompression: [bufferin] is
    the stream over the inflated bytes. *)
Definition decode_block (version : Z) (bufferin : stream)
  : result (list contactRecord) :=
  '(nRecords, bufferin) <- read_int bufferin ;;
  v <- vec_make nRecords zero_record ;;
  if version <? 7 then records_v6 (Z.to_nat nRecords) 0 bufferin v
  else
    '(binXOffset, bufferin) <- read_int bufferin ;;
    '(binYOffset, bufferin) <- read_int bufferin ;;
    '(useShort, bufferin) <- read_char bufferin ;;
    '(type, bufferin) <- read_char bufferin ;;
    if type =? 1 then
      '(rowCount, bufferin) <- read_short bufferin ;;
      rows (Z.to_nat rowCount) useShort binXOffset binYOffset bufferin 0 v
    else if type =? 2 then
      '(nPts, bufferin) <- read_int bufferin ;;
      '(w, bufferin) <- read_short bufferin ;;
      points (Z.to_nat nPts) 0 useShort binXOffset binYOffset w bufferin 0 v
    else Ok v.

(** ** NormalizationLoader *)

Fixpoint read_doubles (n : nat) (bufferin : stream) : result (list spec_float) :=
  match n with
  | O => Ok []
  | S k =>
      '(d, bufferin) <- read_double bufferin ;;
      values <- read_doubles k bufferin ;;
      Ok (d :: values)
  end.

Definition readNormalizationVector (bufferin : stream) : result (list spec_float) :=
  '(nValues, bufferin) <- read_int bufferin ;;
  if nValues <? 0 then Fault (Thrown "std::length_error")
  else read_doubles (Z.to_nat nValues) bufferin.

(** The buffer of a normalization vector is allocated with the size of its
    index entry and filled from the file (straw, lines 849-876). *)
Definition load_norm (file : list byte) (entry : option indexEntry)
  : result (list spec_float) :=
  match entry with
  | None => Fault Uninitialised
  | Some e =>
      if size e <? 0 then Fault (Thrown "std::bad_alloc")
      else
        fin <- seekg file (position e) ;;
        '(buffer, _) <- read_bytes (Z.to_nat (size e)) fin ;;
        readNormalizationVector buffer
  end.

(** ** QueryEngine: region parsing *)

(** [std::getline(ss, str, ':')] on a [stringstream].  The state [None] is a
    stream whose end has been reached; the boolean is the state of the
    stream after the call, as tested by [if (getline(...))]. *)
Fixpoint split_colon (s : string) : option (string * string) :=
  match s with
  | EmptyString => None
  | String c rest =>
      if Ascii.eqb c ":" then Some (EmptyString, rest)
      else match split_colon rest with
           | Some (pre, post) => Some (String c pre, post)
           | None => None
           end
  end.

Definition sgetline (ss : option string) : bool * string * option string :=
  match ss with
  | None => (false, EmptyString, None)
  | Some s =>
      match split_colon s with
      | Some (pre, post) => (true, pre, Some post)
      | None => (negb (String.eqb s EmptyString), s, None)
      end
  end.

(** [std::stoi]: optional white space, an optional sign, decimal digits. *)
Definition is_space (c : ascii) : bool :=
  let n := nat_of_ascii c in
  (Nat.eqb n 32 || (Nat.leb 9 n && Nat.leb n 13))%bool.

Fixpoint skip_spaces (s : string) : string :=
  match s with
  | String c rest => if is_space c then skip_spaces rest else s
  | EmptyString => s
  end.

Definition digit_of (c : ascii) : option Z :=
  let n := nat_of_ascii c in
  if (Nat.leb 48 n && Nat.leb n 57)%bool then Some (Z.of_nat n - 48) else None.

(** The value of the longest prefix of digits, [None] when it is empty. *)
Fixpoint digits (s : string) (acc : option Z) : option Z :=
  match s with
  | String c rest =>
      match digit_of c with
      | Some d =>
          digits rest (Some (10 * match acc with Some a => a | None => 0 end + d))
      | None => acc
      end
  | EmptyString => acc
  end.

Definition stoi (s : string) : result Z :=
  let s := skip_spaces s in
  let '(neg, s) :=
    match s with
    | String c rest =>
        if Ascii.eqb c "-" then (true, rest)
        else if Ascii.eqb c "+" then (false, rest)
        else (false, s)
    | EmptyString => (false, s)
    end in
  match digits s None with
  | None => Fault (Thrown "std::invalid_argument")
  | Some v =>
      let v := if neg then - v else v in
      if (INT_MIN <=? v) && (v <=? INT_MAX) then Ok v
      else Fault (Thrown "std::out_of_range")
  end.

(** The range that follows the chromosome name in [chr1loc] or [chr2loc]
    (straw, lines 769-776 and 785-792). *)
Definition parse_range (ss : option string) (chr : chromosome) : result (Z * Z) :=
  let '(okx, x, ss) := sgetline ss in
  if okx then
    let '(oky, y, ss) := sgetline ss in
    if oky then
      pos1 <- stoi x ;;
      pos2 <- stoi y ;;
      Ok (pos1, pos2)
    else Ok (0, length chr)
  else Ok (0, length chr).

(** ** QueryEngine: the part that [straw] and [getSize] have in common

    The lines 713-890 of [straw] and 931-1097 of [getSize] are the same text
    but for the value of the early returns, an empty vector or 0.  They
    either leave the function with that value ([Exit]) or reach the loop over
    the selected blocks ([Ready]). *)

Record query : Type := {
  q_log : list string;
  q_file : list byte;
  q_version : Z;
  origRegionIndices : Z * Z * Z * Z;
  q_intra : bool;
  c1Norm : list spec_float;
  c2Norm : list spec_float;
  q_blockMap : list (Z * indexEntry);
  blockNumbers : list Z
}.

Inductive setup : Type :=
| Exit (log : list string)
| Ready (q : query).

Definition msg_unit : string :=
  "Norm specified incorrectly, must be one of <BP/FRAG>".
Definition msg_usage : string :=
  "Usage: straw <NONE/VC/VC_SQRT/KR> <hicFile(s)> <chr1>[:x1:x2] <chr2>[:y1:y2] <BP/FRAG> <binsize>".
Definition msg_open (fname : string) : string :=
  "File " ++ fname ++ " cannot be opened for reading".
Definition msg_chr (chr : string) : string := chr ++ " not found in the file.".

(** A variable that is read must have been assigned. *)
Definition assigned {A : Type} (o : option A) : result A :=
  match o with
  | Some a => Ok a
  | None => Fault Uninitialised
  end.

(** The lines 797-819: the region as given by the user and in bins, with the
    chromosome of lower index first. *)
Definition region_indices (binsize : Z) (chr1 chr2 : chromosome)
    (c1pos1 c1pos2 c2pos1 c2pos2 : Z) : result ((Z * Z * Z * Z) * (Z * Z * Z * Z)) :=
  if index chr1 >? index chr2 then
    r0 <- int_div c2pos1 binsize ;;
    r1 <- int_div c2pos2 binsize ;;
    r2 <- int_div c1pos1 binsize ;;
    r3 <- int_div c1pos2 binsize ;;
    Ok ((c2pos1, c2pos2, c1pos1, c1pos2), (r0, r1, r2, r3))
  else
    r0 <- int_div c1pos1 binsize ;;
    r1 <- int_div c1pos2 binsize ;;
    r2 <- int_div c2pos1 binsize ;;
    r3 <- int_div c2pos2 binsize ;;
    Ok ((c1pos1, c1pos2, c2pos1, c2pos2), (r0, r1, r2, r3)).

(** The lines 821-890: footer, normalization vectors, block index and the
    numbers of the blocks to read. *)
Definition query_blocks (file : list byte) (version master : Z) (log : list string)
    (norm unit : string) (binsize c1 c2 : Z) (orig regionIndices : Z * Z * Z * Z)
  : result setup :=
  fin <- seekg file master ;;
  ft <- readFooter fin master c1 c2 norm unit binsize ;;
  let log := (log ++ footer_log ft)%list in
  if negb (foundFooter ft) then Ok (Exit log)
  else
    '(n1, n2) <-
       (if negb (String.eqb norm "NONE") then
          n1 <- load_norm file (c1NormEntry ft) ;;
          n2 <- load_norm file (c2NormEntry ft) ;;
          Ok (n1, n2)
        else Ok ([], [])) ;;
    pos <- assigned (myFilePos ft) ;;
    '(blockMap, blockCounts, mlog) <- readMatrix file pos unit binsize ;;
    '(blockBinCount, blockColumnCount) <- assigned blockCounts ;;
    blocks <- getBlockNumbersForRegionFromBinPosition regionIndices
                blockBinCount blockColumnCount (c1 =? c2) ;;
    Ok (Ready {| q_log := (log ++ mlog)%list; q_file := file; q_version := version;
                 origRegionIndices := orig; q_intra := (c1 =? c2);
                 c1Norm := n1; c2Norm := n2;
                 q_blockMap := blockMap; blockNumbers := blocks |}).

(** The lines 794-890, once both regions are parsed. *)
Definition query_region (file : list byte) (version master : Z) (log : list string)
    (norm unit : string) (binsize : Z) (chr1 chr2 : chromosome)
    (c1pos1 c1pos2 c2pos1 c2pos2 : Z) : result setup :=
  let c1 := Z.min (index chr1) (index chr2) in
  let c2 := Z.max (index chr1) (index chr2) in
  '(orig, regionIndices) <-
     region_indices binsize chr1 chr2 c1pos1 c1pos2 c2pos1 c2pos2 ;;
  query_blocks file version master log norm unit binsize c1 c2 orig regionIndices.

(** The chromosome name of [chr1loc] or [chr2loc]: what precedes the first
    colon. *)
Definition loc_name (loc : string) : string := snd (fst (sgetline (Some loc))).

(** The lines 713-890.  [fs] gives the content of the files that can be
    opened; [version] is the value of the global variable on entry. *)
Definition query_setup (fs : string -> option (list byte)) (version : Z)
    (norm fname chr1loc chr2loc unit : string) (binsize : Z) : result setup :=
  if negb (String.eqb unit "BP" || String.eqb unit "FRAG") then
    Ok (Exit [msg_unit; msg_usage])
  else if String.prefix "http" fname then Fault NotEmbedded
  else
    match fs fname with
    | None => Ok (Exit [msg_open fname])
    | Some file =>
        '(chromosomeMap, master, version, log, fin) <- readHeader file version ;;
        let '(_, chr1, ss) := sgetline (Some chr1loc) in
        match map_find String.eqb chr1 chromosomeMap with
        | None => Ok (Exit (log ++ [msg_chr chr1]))
        | Some chrom1 =>
            '(c1pos1, c1pos2) <- parse_range ss chrom1 ;;
            let '(_, chr2, ss1) := sgetline (Some chr2loc) in
            match map_find String.eqb chr2 chromosomeMap with
            | None => Ok (Exit (log ++ [msg_chr chr2]))
            | Some chrom2 =>
                '(c2pos1, c2pos2) <- parse_range ss1 chrom2 ;;
                query_region file version master log norm unit binsize
                  chrom1 chrom2 c1pos1 c1pos2 c2pos1 c2pos2
            end
        end
    end.

(** ** QueryEngine: the loops over the selected blocks *)

(** [blockMap[b]]: an absent block number yields a value-initialised entry. *)
Definition block_entry (blockMap : list (Z * indexEntry)) (b : Z) : indexEntry :=
  match map_find Z.eqb b blockMap with
  | Some e => e
  | None => {| size := 0; position := 0 |}
  end.

(** The test of lines 908-911. *)
Definition in_region (orig : Z * Z * Z * Z) (intra : bool) (x y : Z) : bool :=
  let '(o0, o1, o2, o3) := orig in
  ((o0 <=? x) && (x <=? o1) && (o2 <=? y) && (y <=? o3))
  || (intra && (o0 <=? y) && (y <=? o1) && (o2 <=? x) && (x <=? o3)).

(** [c / (c1Norm[rec.binX] * c2Norm[rec.binY])], computed in [double] and
    stored in a [float]. *)
Definition normalized (c1Norm c2Norm : list spec_float) (rec : contactRecord)
  : result spec_float :=
  n1 <- vec_get c1Norm (binX rec) ;;
  n2 <- vec_get c2Norm (binY rec) ;;
  Ok (float_of_double
        (SFdiv 53 1024 (double_of_float (counts rec)) (SFmul 53 1024 n1 n2))).

(** The body of the inner loop of [straw] for one record of a block: the
    records it appends to [records], none or one. *)
Definition emit (norm : string) (binsize : Z) (q : query) (rec : contactRecord)
  : result (list contactRecord) :=
  let x := int_mul (binX rec) binsize in
  let y := int_mul (binY rec) binsize in
  c <- (if negb (String.eqb norm "NONE")
        then normalized (c1Norm q) (c2Norm q) rec
        else Ok (counts rec)) ;;
  if in_region (origRegionIndices q) (q_intra q) x y
  then Ok [{| binX := x; binY := y; counts := c |}]
  else Ok [].

Fixpoint emit_all (norm : string) (binsize : Z) (q : query)
    (tmp_records : list contactRecord) (records : list contactRecord)
  : result (list contactRecord) :=
  match tmp_records with
  | [] => Ok records
  | rec :: rest =>
      out <- emit norm binsize q rec ;;
      emit_all norm binsize q rest (records ++ out)
  end.

Section Zlib.

(** [inflate input avail_out]: the bytes that one call of zlib's [inflate]
    writes into an output buffer of [avail_out] bytes ([total_out] of them). *)
Variable inflate : list byte -> Z -> list byte.

(** The lines that [readBlock] and [readSize] have in common: the
    compressed bytes are read at [idx.position] and inflated.  A negative
    size makes [new char[idx.size]] throw; the output buffer has
    [idx.size*10] bytes, a size that must be an [int]. *)
Definition inflate_block (file : list byte) (idx : indexEntry) : result stream :=
  if size idx <? 0 then Fault (Thrown "std::bad_alloc")
  else if INT_MAX <? size idx * 10 then Fault OutOfBounds
  else
    fin <- seekg file (position idx) ;;
    '(compressedBytes, _) <- read_bytes (Z.to_nat (size idx)) fin ;;
    Ok (inflate compressedBytes (size idx * 10)).

Definition readBlock (file : list byte) (version : Z) (idx : indexEntry)
  : result (list contactRecord) :=
  if size idx =? 0 then Ok []
  else
    bufferin <- inflate_block file idx ;;
    decode_block version bufferin.

Definition readSize (file : list byte) (idx : indexEntry) : result Z :=
  if size idx =? 0 then Ok 0
  else
    bufferin <- inflate_block file idx ;;
    '(nRecords, _) <- read_int bufferin ;;
    Ok nRecords.

(** The loop of [straw] over the selected blocks. *)
Fixpoint straw_blocks (norm : string) (binsize : Z) (q : query)
    (blocks : list Z) (records : list contactRecord)
  : result (list contactRecord) :=
  match blocks with
  | [] => Ok records
  | b :: rest =>
      tmp_records <- readBlock (q_file q) (q_version q) (block_entry (q_blockMap q) b) ;;
      records <- emit_all norm binsize q tmp_records records ;;
      straw_blocks norm binsize q rest records
  end.

(** The end of [straw]: an empty vector after an early return, the records
    of the selected blocks otherwise. *)
Definition straw_result (norm : string) (binsize : Z) (s : setup)
  : result (list string * list contactRecord) :=
  match s with
  | Exit log => Ok (log, [])
  | Ready q =>
      records <- straw_blocks norm binsize q (blockNumbers q) [] ;;
      Ok (q_log q, records)
  end.

(** [straw]: the lines printed on [cerr] and the returned vector. *)
Definition straw (fs : string -> option (list byte)) (version : Z)
    (norm fname chr1loc chr2loc unit : string) (binsize : Z)
  : result (list string * list contactRecord) :=
  s <- query_setup fs version norm fname chr1loc chr2loc unit binsize ;;
  straw_result norm binsize s.

(** The loop of [getSize] over the selected blocks. *)
Fixpoint size_blocks (q : query) (blocks : list Z) (count : Z) : result Z :=
  match blocks with
  | [] => Ok count
  | b :: rest =>
      n <- readSize (q_file q) (block_entry (q_blockMap q) b) ;;
      size_blocks q rest (int_add count n)
  end.

(** The end of [getSize]: 0 after an early return, the sum of the sizes
    of the selected blocks otherwise. *)
Definition getSize_result (s : setup) : result (list string * Z) :=
  match s with
  | Exit log => Ok (log, 0)
  | Ready q =>
      count <- size_blocks q (blockNumbers q) 0 ;;
      Ok (q_log q, count)
  end.

(** [getSize]: the lines printed on [cerr] and the returned count. *)
Definition getSize (fs : string -> option (list byte)) (version : Z)
    (norm fname chr1loc chr2loc unit : string) (binsize : Z)
  : result (list string * Z) :=
  s <- query_setup fs version norm fname chr1loc chr2loc unit binsize ;;
  getSize_result s.

End Zlib.

(** ** The blocks of a query and their [nRecords] fields *)

(** The index entries of the blocks that the loops of [straw] and [getSize]
    visit, in the order of the visit, and the file they are read from; none
    after an early return. *)
Definition selected_blocks (s : setup) : list indexEntry :=
  match s with
  | Exit _ => []
  | Ready q => map (block_entry (q_blockMap q)) (blockNumbers q)
  end.

Definition setup_file (s : setup) : list byte :=
  match s with
  | Exit _ => []
  | Ready q => q_file q
  end.

(** [n] is the [int] at the head of the inflated payload of the block of
    the index entry [idx], the field [nRecords]; an entry of size 0 has no
    payload and counts for 0. *)
Definition leading_nRecords (inflate : list byte -> Z -> list byte)
    (file : list byte) (idx : indexEntry) (n : Z) : Prop :=
  if size idx =? 0 then n = 0
  else exists payload rest,
         inflate_block inflate file idx = Ok payload /\
         read_int payload = Ok (n, rest).

(** The sum of a list of integers, in [Z]. *)
Definition sum_Z (ns : list Z) : Z := fold_right Z.add 0 ns.

(** ** Writing the format

    The byte sequences that the readers above decode, used to state which
    files a property is about and to build the sample files below. *)

Definition byte_of (v : Z) : byte :=
  match Byte.of_N (Z.to_N (v mod 256)) with
  | Some b => b
  | None => x00
  end.

(** The [n] little-endian bytes of [z] (two's complement when negative). *)
Fixpoint enc_le (n : nat) (z : Z) : list byte :=
  match n with
  | O => []
  | S k => byte_of z :: enc_le k (z / 256)
  end.

Definition enc_char : Z -> list byte := enc_le 1.
Definition enc_short : Z -> list byte := enc_le 2.
Definition enc_int : Z -> list byte := enc_le 4.
Definition enc_long : Z -> list byte := enc_le 8.

(** A NUL-terminated string. *)
Fixpoint enc_str (s : string) : list byte :=
  match s with
  | EmptyString => [x00]
  | String c rest => byte_of_ascii c :: enc_str rest
  end.

(** A string that can be written NUL-terminated. *)
Fixpoint no_nul (s : string) : Prop :=
  match s with
  | EmptyString => True
  | String c rest => c <> Ascii.zero /\ no_nul rest
  end.

Definition is_long (z : Z) : Prop := - 2 ^ 63 <= z < 2 ^ 63.
Definition is_short (z : Z) : Prop := - 2 ^ 15 <= z < 2 ^ 15.

(** One entry of the master index: key, file position, size in bytes. *)
Definition enc_footer_entry (e : string * Z * Z) : list byte :=
  let '(key, fpos, sz) := e in
  enc_str key ++ enc_long fpos ++ enc_int sz.

Definition footer_entry_ok (e : string * Z * Z) : Prop :=
  let '(key, fpos, sz) := e in
  no_nul key /\ is_long fpos /\ is_int sz.

(** The footer up to the end of the master index. *)
Definition enc_master_index (nBytes : Z) (entries : list (string * Z * Z)) : list byte :=
  enc_int nBytes ++ enc_int (Z.of_nat (List.length entries))
    ++ flat_map enc_footer_entry entries.

(** The position of the first and of the last entry with a given key. *)
Fixpoint first_match (key : string) (entries : list (string * Z * Z)) : option Z :=
  match entries with
  | [] => None
  | (k, fpos, _) :: rest =>
      if String.eqb k key then Some fpos else first_match key rest
  end.

Definition last_match (key : string) (entries : list (string * Z * Z)) : option Z :=
  first_match key (rev entries).

(** One entry of the index of normalization vectors. *)
Definition enc_norm_entry (e : string * Z * string * Z * Z * Z) : list byte :=
  let '(normtype, chrIdx, unit1, resolution1, filePosition, sizeInBytes) := e in
  enc_str normtype ++ enc_int chrIdx ++ enc_str unit1 ++ enc_int resolution1
    ++ enc_long filePosition ++ enc_int sizeInBytes.

(** What follows the master index: two expected-value maps, here empty, and
    the index of normalization vectors. *)
Definition enc_norm_index (norms : list (string * Z * string * Z * Z * Z))
  : list byte :=
  enc_int 0 ++ enc_int 0
    ++ enc_int (Z.of_nat (List.length norms)) ++ flat_map enc_norm_entry norms.

(** A whole footer; [nBytes] is the number of bytes that follow it. *)
Definition footer_size (entries : list (string * Z * Z))
    (norms : list (string * Z * string * Z * Z * Z)) : Z :=
  Z.of_nat (List.length (enc_master_index 0 entries ++ enc_norm_index norms)) - 4.

Definition enc_footer (entries : list (string * Z * Z))
    (norms : list (string * Z * string * Z * Z * Z)) : list byte :=
  enc_master_index (footer_size entries norms) entries ++ enc_norm_index norms.

(** The header. *)
Definition enc_chromosome (c : string * Z) : list byte :=
  enc_str (fst c) ++ enc_int (snd c).

Definition enc_header (version master : Z) (genome : string)
    (chrs : list (string * Z)) : list byte :=
  enc_str "HIC" ++ enc_int version ++ enc_long master ++ enc_str genome
    ++ enc_int 0 ++ enc_int (Z.of_nat (List.length chrs))
    ++ flat_map enc_chromosome chrs.

(** One zoom level with its block index, and a matrix. *)
Definition enc_block_entry (b : Z * Z * Z) : list byte :=
  let '(blockNumber, filePosition, blockSizeInBytes) := b in
  enc_int blockNumber ++ enc_long filePosition ++ enc_int blockSizeInBytes.

Definition enc_zoom (unit : string) (binSize blockBinCount blockColumnCount : Z)
    (blocks : list (Z * Z * Z)) : list byte :=
  enc_str unit ++ enc_int 0 ++ enc_int 0 ++ enc_int 0 ++ enc_int 0 ++ enc_int 0
    ++ enc_int binSize ++ enc_int blockBinCount ++ enc_int blockColumnCount
    ++ enc_int (Z.of_nat (List.length blocks)) ++ flat_map enc_block_entry blocks.

Definition enc_matrix (c1 c2 : Z) (zooms : list (list byte)) : list byte :=
  enc_int c1 ++ enc_int c2 ++ enc_int (Z.of_nat (List.length zooms)) ++ List.concat zooms.

(** The cells of a type 2 block: [short]s when [useShort == 0], the bit
    patterns of [float]s otherwise. *)
Definition enc_cell (useShort c : Z) : list byte :=
  if useShort =? 0 then enc_short c else enc_int c.

Definition cell_ok (useShort c : Z) : Prop :=
  if useShort =? 0 then is_short c else 0 <= c < 2 ^ 32.

(** The count that a cell holds, [None] for the two values that stand for
    an empty cell. *)
Definition cell_count (useShort c : Z) : option spec_float :=
  if useShort =? 0 then
    if c =? -32768 then None else Some (float_of_short c)
  else
    let f := decode_ieee 23 8 c in
    if isnan f then None else Some f.

(** The inflated payload of a type 2 block of version 7 and later. *)
Definition enc_block_type2 (nRecords binXOffset binYOffset useShort w : Z)
    (cells : list Z) : list byte :=
  enc_int nRecords ++ enc_int binXOffset ++ enc_int binYOffset
    ++ enc_char useShort ++ enc_char 2
    ++ enc_int (Z.of_nat (List.length cells)) ++ enc_short w
    ++ flat_map (enc_cell useShort) cells.

(** The records of the cells of a type 2 block that hold a count; [i] is
    the position of the first cell of [cells]. *)
Fixpoint type2_records (i binXOffset binYOffset useShort w : Z) (cells : list Z)
  : list contactRecord :=
  match cells with
  | [] => []
  | c :: rest =>
      match cell_count useShort c with
      | Some cnt =>
          [{| binX := int_add binXOffset (i mod w);
              binY := int_add binYOffset (i / w); counts := cnt |}]
      | None => []
      end ++ type2_records (i + 1) binXOffset binYOffset useShort w rest
  end.

(** ** A zlib stream of stored blocks

    What [inflate] does on the streams that [deflate] writes at compression
    level 0: a two-byte header, stored blocks, a checksum.  A block of
    another kind ends the output.  This instance of the parameter [inflate]
    serves for the sample files; the general properties hold for any. *)

Fixpoint stored_blocks (fuel : nat) (input : list byte) : list byte :=
  match fuel with
  | O => []
  | S k =>
      match input with
      | hd :: l0 :: l1 :: n0 :: n1 :: rest =>
          let len := le_unsigned [l0; l1] in
          let nlen := le_unsigned [n0; n1] in
          if (Z.land (byte_val hd) 6 =? 0) && (len + nlen =? 65535) then
            (firstn (Z.to_nat len) rest
               ++ (if Z.odd (byte_val hd) then []
                   else stored_blocks k (skipn (Z.to_nat len) rest)))%list
          else []
      | _ => []
      end
  end.

Definition inflate_stored (input : list byte) (avail_out : Z) : list byte :=
  match input with
  | cmf :: flg :: rest =>
      if (Z.land (byte_val cmf) 15 =? 8)
         && ((256 * byte_val cmf + byte_val flg) mod 31 =? 0)
         && negb (Z.testbit (byte_val flg) 5)
      then firstn (Z.to_nat avail_out) (stored_blocks (List.length rest) rest)
      else []
  | _ => []
  end.

(** The Adler-32 checksum that ends a zlib stream. *)
Definition adler32 (data : list byte) : Z :=
  let '(a, b) :=
    fold_left (fun '(a, b) x =>
                 let a' := (a + byte_val x) mod 65521 in (a', (b + a') mod 65521))
              data (1, 0) in
  b * 65536 + a.

(** [data] as a zlib stream of one stored block (fewer than 65536 bytes). *)
Definition zlib_store (data : list byte) : list byte :=
  let len := Z.of_nat (List.length data) in
  [x78; x01; x01] ++ enc_short len ++ enc_short (65535 - len) ++ data
    ++ rev (enc_int (adler32 data)).

(** ** Sample files *)

(** The inflated payload of a type 1 block of version 7 and later with
    [short] counts: rows of [(y, [(x, count)])]. *)
Definition enc_row (r : Z * list (Z * Z)) : list byte :=
  enc_short (fst r) ++ enc_short (Z.of_nat (List.length (snd r)))
    ++ flat_map (fun xc => enc_short (fst xc) ++ enc_short (snd xc)) (snd r).

Definition enc_block_type1 (nRecords binXOffset binYOffset : Z)
    (rws : list (Z * list (Z * Z))) : list byte :=
  enc_int nRecords ++ enc_int binXOffset ++ enc_int binYOffset
    ++ enc_char 0 ++ enc_char 1
    ++ enc_short (Z.of_nat (List.length rws)) ++ flat_map enc_row rws.

(** A normalization vector; the values are bit patterns of [double]s. *)
Definition enc_norm_vector (values : list Z) : list byte :=
  enc_int (Z.of_nat (List.length values)) ++ flat_map enc_long values.

Definition len (bs : list byte) : Z := Z.of_nat (List.length bs).

(** A file of version 8 with the chromosomes A (index 0) and B (index 1),
    one matrix at 10 BP for the pairs 0_0 and 0_1 made of the single block 0
    with the records (1, 2, 5) and (3, 4, 7), and a VC normalization vector
    for chromosome A only. *)
Definition sample_block : list byte :=
  zlib_store (enc_block_type1 2 0 0 [(2, [(1, 5)]); (4, [(3, 7)])]).

Definition sample_norm : list byte :=
  enc_norm_vector [4611686018427387904; 4611686018427387904;
                   4611686018427387904; 4611686018427387904;
                   4611686018427387904].

Definition sample_chrs : list (string * Z) :=
  [("A"%string, 1000); ("B"%string, 2000)].

Definition sample_block_pos : Z := len (enc_header 8 0 "hg19" sample_chrs).
Definition sample_norm_pos : Z := sample_block_pos + len sample_block.
Definition sample_matrix_pos : Z := sample_norm_pos + len sample_norm.

Definition sample_matrix : list byte :=
  enc_matrix 0 1 [enc_zoom "BP" 10 100 1 [(0, sample_block_pos, len sample_block)]].

Definition sample_master : Z := sample_matrix_pos + len sample_matrix.

Definition sample_index : list (string * Z * Z) :=
  [("0_0"%string, sample_matrix_pos, len sample_matrix);
   ("0_1"%string, sample_matrix_pos, len sample_matrix)].

Definition sample_norms : list (string * Z * string * Z * Z * Z) :=
  [("VC"%string, 0, "BP"%string, 10, sample_norm_pos, len sample_norm)].

Definition sample_file : list byte :=
  enc_header 8 sample_master "hg19" sample_chrs ++ sample_block ++ sample_norm
    ++ sample_matrix ++ enc_footer sample_index sample_norms.

Definition sample_fs (fname : string) : option (list byte) :=
  if String.eqb fname "sample.hic" then Some sample_file else None.

Definition chrA : chromosome := {| name := "A"; index := 0; length := 1000 |}.
Definition chrB : chromosome := {| name := "B"; index := 1; length := 2000 |}.

(** A master index in which one key occurs twice. *)
Definition twice_index : list (string * Z * Z) :=
  [("0_1"%string, 100, 10); ("0_1"%string, 200, 10)].

(** A type 2 block of width 2 with [short] counts, the second cell empty,
    stored alone in a file. *)
Definition dense_cells : list Z := [5; -32768; 7; 9].

Definition dense_file (nRecords : Z) : list byte :=
  zlib_store (enc_block_type2 nRecords 10 20 0 2 dense_cells).

Definition dense_entry (nRecords : Z) : indexEntry :=
  {| size := len (dense_file nRecords); position := 0 |}.

(** The same with [float] counts: 1.0, a NaN and 2.0. *)
Definition dense_float_file : list byte :=
  zlib_store (enc_block_type2 2 10 20 1 2 [1065353216; 2143289344; 1073741824]).

(** A block of the format before version 7 with the records (1, 2, 1.0)
    and (3, 4, 2.0), stored alone in a file. *)
Definition old_block_file : list byte :=
  zlib_store (enc_int 2 ++ enc_int 1 ++ enc_int 2 ++ enc_int 1065353216
                ++ enc_int 3 ++ enc_int 4 ++ enc_int 1073741824).

(** A file that is not a .hic file. *)
Definition text_fs (fname : string) : option (list byte) :=
  Some [x63; x68; x72; x31; x0a].

(** The record with its two coordinates exchanged. *)
Definition transpose (r : contactRecord) : contactRecord :=
  {| binX := binY r; binY := binX r; counts := counts r |}.

(** ** Writing the format: whole headers

    A header with its attribute dictionary, and the chromosome table that
    [readHeader] builds from it. *)

Definition enc_attribute (kv : string * string) : list byte :=
  enc_str (fst kv) ++ enc_str (snd kv).

Definition enc_full_header (magic : string) (version master : Z) (genome : string)
    (attrs : list (string * string)) (chrs : list (string * Z)) : list byte :=
  enc_str magic ++ enc_int version ++ enc_long master ++ enc_str genome
    ++ enc_int (Z.of_nat (List.length attrs)) ++ flat_map enc_attribute attrs
    ++ enc_int (Z.of_nat (List.length chrs)) ++ flat_map enc_chromosome chrs.

Definition attribute_ok (kv : string * string) : Prop :=
  no_nul (fst kv) /\ no_nul (snd kv).

Definition chromosome_ok (c : string * Z) : Prop :=
  no_nul (fst c) /\ is_int (snd c).

(** The chromosome with the name [nm] that comes last in [chrs]; [i] is
    the index of the first chromosome of [chrs]. *)
Fixpoint find_chromosome (nm : string) (i : Z) (chrs : list (string * Z))
  : option chromosome :=
  match chrs with
  | [] => None
  | (n, l) :: rest =>
      match find_chromosome nm (i + 1) rest with
      | Some c => Some c
      | None =>
          if String.eqb nm n then Some {| name := n; index := i; length := l |}
          else None
      end
  end.

(** A string without the separator of the region strings. *)
Fixpoint no_colon (s : string) : Prop :=
  match s with
  | EmptyString => True
  | String c rest => c <> ":"%char /\ no_colon rest
  end.

(** ** Writing the format: whole footers

    The two expected-value maps and the index of normalization vectors that
    follow the master index.  A record of an expected-value map is made of
    a type string (in the second map only), a unit, a bin size, values and
    normalization factors; the doubles are given by their bit patterns. *)

Definition enc_factor (f : Z * Z) : list byte := enc_int (fst f) ++ enc_long (snd f).

Definition enc_expected (typed : bool)
    (e : string * string * Z * list Z * list (Z * Z)) : list byte :=
  let '(ty, unit, binSize, values, factors) := e in
  (if typed then enc_str ty else []) ++ enc_str unit ++ enc_int binSize
    ++ enc_int (Z.of_nat (List.length values)) ++ flat_map enc_long values
    ++ enc_int (Z.of_nat (List.length factors)) ++ flat_map enc_factor factors.

Definition expected_ok (e : string * string * Z * list Z * list (Z * Z)) : Prop :=
  let '(ty, unit, binSize, values, factors) := e in
  no_nul ty /\ no_nul unit /\ is_int binSize /\
  Z.of_nat (List.length values) <= INT_MAX /\
  Z.of_nat (List.length factors) <= INT_MAX /\
  Forall (fun f => is_int (fst f)) factors.

Definition enc_expected_map (typed : bool)
    (es : list (string * string * Z * list Z * list (Z * Z))) : list byte :=
  enc_int (Z.of_nat (List.length es)) ++ flat_map (enc_expected typed) es.

Definition norm_entry_ok (e : string * Z * string * Z * Z * Z) : Prop :=
  let '(normtype, chrIdx, unit1, resolution1, filePosition, sizeInBytes) := e in
  no_nul normtype /\ is_int chrIdx /\ no_nul unit1 /\ is_int resolution1 /\
  is_long filePosition /\ is_int sizeInBytes.

Definition enc_full_footer (nBytes : Z) (entries : list (string * Z * Z))
    (ev1 ev2 : list (string * string * Z * list Z * list (Z * Z)))
    (norms : list (string * Z * string * Z * Z * Z)) : list byte :=
  enc_master_index nBytes entries ++ enc_expected_map false ev1
    ++ enc_expected_map true ev2
    ++ enc_int (Z.of_nat (List.length norms)) ++ flat_map enc_norm_entry norms.

(** The index entry of the last normalization vector of [norms] for the
    chromosome [c] at the given normalization, unit and resolution. *)
Fixpoint last_norm_entry (norm unit : string) (resolution c : Z)
    (norms : list (string * Z * string * Z * Z * Z)) : option indexEntry :=
  match norms with
  | [] => None
  | (normtype, chrIdx, unit1, resolution1, filePosition, sizeInBytes) :: rest =>
      match last_norm_entry norm unit resolution c rest with
      | Some e => Some e
      | None =>
          if (chrIdx =? c) && (String.eqb normtype norm && String.eqb unit1 unit
                               && (resolution1 =? resolution))
          then Some {| size := sizeInBytes; position := filePosition |}
          else None
      end
  end.

(** ** Writing the format: whole matrices

    A zoom level with the fields that the reader ignores (the old zoom index
    and four [float] statistics, given by their bit patterns) and its block
    index. *)

Record zoomLevel : Type := {
  z_unit : string;
  z_index : Z;
  z_stats : Z * Z * Z * Z;
  z_binSize : Z;
  z_blockBinCount : Z;
  z_blockColumnCount : Z;
  z_blocks : list (Z * Z * Z)
}.

Definition enc_zoom_level (z : zoomLevel) : list byte :=
  let '(s1, s2, s3, s4) := z_stats z in
  enc_str (z_unit z) ++ enc_int (z_index z)
    ++ enc_int s1 ++ enc_int s2 ++ enc_int s3 ++ enc_int s4
    ++ enc_int (z_binSize z) ++ enc_int (z_blockBinCount z)
    ++ enc_int (z_blockColumnCount z)
    ++ enc_int (Z.of_nat (List.length (z_blocks z)))
    ++ flat_map enc_block_entry (z_blocks z).

Definition block_entry_ok (b : Z * Z * Z) : Prop :=
  let '(blockNumber, filePosition, blockSizeInBytes) := b in
  is_int blockNumber /\ is_long filePosition /\ is_int blockSizeInBytes.

Definition zoom_ok (z : zoomLevel) : Prop :=
  let '(s1, s2, s3, s4) := z_stats z in
  no_nul (z_unit z) /\ is_int (z_index z) /\
  (0 <= s1 < 2 ^ 32 /\ 0 <= s2 < 2 ^ 32 /\ 0 <= s3 < 2 ^ 32 /\ 0 <= s4 < 2 ^ 32) /\
  is_int (z_binSize z) /\ is_int (z_blockBinCount z) /\
  is_int (z_blockColumnCount z) /\
  Z.of_nat (List.length (z_blocks z)) <= INT_MAX /\
  Forall block_entry_ok (z_blocks z).

(** The zoom level that a query for [unit] and [resolution] asks for. *)
Definition zoom_matches (unit : string) (resolution : Z) (z : zoomLevel) : bool :=
  String.eqb unit (z_unit z) && (resolution =? z_binSize z).

(** The index entry of the last block of [blocks] with the number [b]. *)
Fixpoint last_block (b : Z) (blocks : list (Z * Z * Z)) : option indexEntry :=
  match blocks with
  | [] => None
  | (blockNumber, filePosition, blockSizeInBytes) :: rest =>
      match last_block b rest with
      | Some e => Some e
      | None =>
          if b =? blockNumber
          then Some {| size := blockSizeInBytes; position := filePosition |}
          else None
      end
  end.

(** ** Writing the format: the other block payloads *)

(** A record of the format before version 7: two bins and the bit pattern of
    a [float]. *)
Definition enc_record_v6 (r : Z * Z * Z) : list byte :=
  let '(bx, by_, c) := r in enc_int bx ++ enc_int by_ ++ enc_int c.

Definition record_v6_ok (r : Z * Z * Z) : Prop :=
  let '(bx, by_, c) := r in is_int bx /\ is_int by_ /\ 0 <= c < 2 ^ 32.

Definition record_v6 (r : Z * Z * Z) : contactRecord :=
  let '(bx, by_, c) := r in
  {| binX := bx; binY := by_; counts := decode_ieee 23 8 c |}.

Definition enc_block_v6 (recs : list (Z * Z * Z)) : list byte :=
  enc_int (Z.of_nat (List.length recs)) ++ flat_map enc_record_v6 recs.

(** A list-of-rows block (type 1) of version 7 and later: rows
    [(y, [(x, count)])], the counts written as the cells of a type 2 block. *)
Definition enc_row_cell (useShort : Z) (xc : Z * Z) : list byte :=
  enc_short (fst xc) ++ enc_cell useShort (snd xc).

Definition enc_row_of (useShort : Z) (r : Z * list (Z * Z)) : list byte :=
  enc_short (fst r) ++ enc_short (Z.of_nat (List.length (snd r)))
    ++ flat_map (enc_row_cell useShort) (snd r).

Definition enc_block_rows (nRecords binXOffset binYOffset useShort : Z)
    (rws : list (Z * list (Z * Z))) : list byte :=
  enc_int nRecords ++ enc_int binXOffset ++ enc_int binYOffset
    ++ enc_char useShort ++ enc_char 1
    ++ enc_short (Z.of_nat (List.length rws)) ++ flat_map (enc_row_of useShort) rws.

Definition row_ok (useShort : Z) (r : Z * list (Z * Z)) : Prop :=
  is_short (fst r) /\ Z.of_nat (List.length (snd r)) < 2 ^ 15 /\
  Forall (fun xc => is_short (fst xc) /\ cell_ok useShort (snd xc)) (snd r).

(** The count of a cell of a type 1 block: no value stands for an empty
    cell there. *)
Definition type1_count (useShort c : Z) : spec_float :=
  if useShort =? 0 then float_of_short c else decode_ieee 23 8 c.

Definition row_records (binXOffset binYOffset useShort : Z) (r : Z * list (Z * Z))
  : list contactRecord :=
  map (fun xc => {| binX := int_add binXOffset (fst xc);
                    binY := int_add (fst r) binYOffset;
                    counts := type1_count useShort (snd xc) |}) (snd r).

Definition type1_records (binXOffset binYOffset useShort : Z)
    (rws : list (Z * list (Z * Z))) : list contactRecord :=
  flat_map (row_records binXOffset binYOffset useShort) rws.

(** ** More sample files *)

(** A header with one attribute, alone in a file and followed by a byte. *)
Definition attr_header : list byte :=
  enc_full_header "HIC" 8 195 "hg19" [("software"%string, "juicer"%string)] sample_chrs.

Definition attr_fs (fname : string) : option (list byte) :=
  if String.eqb fname "attr.hic" then Some (attr_header ++ [x2a]) else None.

(** The start of a file of version 5. *)
Definition old_fs (fname : string) : option (list byte) :=
  if String.eqb fname "old.hic" then Some (enc_str "HIC" ++ enc_int 5 ++ [x00])
  else None.

(** A footer with two expected-value maps and the normalization vector of
    one chromosome only. *)
Definition full_footer_entries : list (string * Z * Z) :=
  [("0_0"%string, 100, 50); ("0_1"%string, 200, 60)].

Definition full_footer_expected
  : list (string * string * Z * list Z * list (Z * Z)) :=
  [("VC"%string, "BP"%string, 10, [0; 4607182418800017408],
    [(0, 4607182418800017408); (1, 4611686018427387904)])].

Definition full_footer_norms : list (string * Z * string * Z * Z * Z) :=
  [("VC"%string, 0, "BP"%string, 10, 300, 20);
   ("KR"%string, 1, "BP"%string, 10, 320, 20)].

(** A matrix with two zoom levels, stored after two bytes. *)
Definition zoom_coarse : zoomLevel :=
  {| z_unit := "BP"; z_index := 0; z_stats := (0, 0, 0, 0); z_binSize := 100;
     z_blockBinCount := 5; z_blockColumnCount := 3; z_blocks := [(0, 50, 10)] |}.

Definition zoom_fine : zoomLevel :=
  {| z_unit := "BP"; z_index := 1; z_stats := (0, 0, 0, 0); z_binSize := 10;
     z_blockBinCount := 7; z_blockColumnCount := 4;
     z_blocks := [(0, 60, 10); (3, 70, 12); (0, 80, 14)] |}.

Definition zoom_file : list byte :=
  [x00; x00] ++ enc_int 0 ++ enc_int 1 ++ enc_int 2
    ++ flat_map enc_zoom_level [zoom_coarse] ++ enc_zoom_level zoom_fine ++ [].

(** A payload stored alone in a file, and its index entry. *)
Definition stored_entry (payload : list byte) : indexEntry :=
  {| size := len (zlib_store payload); position := 0 |}.

Definition old_records : list (Z * Z * Z) :=
  [(1, 2, 1065353216); (3, 4, 1073741824)].

Definition sample_rows : list (Z * list (Z * Z)) :=
  [(2, [(1, 5); (4, -32768)]); (4, [(3, 7)])].

Definition odd_block : list byte :=
  enc_int 2 ++ enc_int 0 ++ enc_int 0 ++ enc_char 0 ++ enc_char 3 ++ [].

(** ** Writing the format: normalization vectors and positions *)

(** The [double]s of a normalization vector given by their bit patterns. *)
Definition norm_values (values : list Z) : list spec_float :=
  map (fun v => decode_ieee 52 11 (v mod 2 ^ 64)) values.

(** The value of the digits [d], most significant first, after the digits
    of value [a]. *)
Fixpoint uint_value (d : Decimal.uint) (a : Z) : Z :=
  match d with
  | Decimal.Nil => a
  | Decimal.D0 d => uint_value d (10 * a + 0)
  | Decimal.D1 d => uint_value d (10 * a + 1)
  | Decimal.D2 d => uint_value d (10 * a + 2)
  | Decimal.D3 d => uint_value d (10 * a + 3)
  | Decimal.D4 d => uint_value d (10 * a + 4)
  | Decimal.D5 d => uint_value d (10 * a + 5)
  | Decimal.D6 d => uint_value d (10 * a + 6)
  | Decimal.D7 d => uint_value d (10 * a + 7)
  | Decimal.D8 d => uint_value d (10 * a + 8)
  | Decimal.D9 d => uint_value d (10 * a + 9)
  end.

(** A vector of five values 2.0 stored after three bytes, with two bytes of
    padding in its buffer. *)
Definition norm_file : list byte :=
  [x00; x01; x02]
    ++ enc_norm_vector [4611686018427387904; 4611686018427387904]
    ++ [xff; xff] ++ [x2a].

(** ** Comparing two queries *)

(** The two coordinates of a record. *)
Definition coords (r : contactRecord) : Z * Z := (binX r, binY r).

(** Two outcomes of the common part of [straw] and [getSize] that leave the
    function at the same point or reach the loop with the same file, region
    and blocks; the normalization vectors and the printed lines may differ. *)
Definition same_selection (s s0 : setup) : Prop :=
  match s, s0 with
  | Exit _, Exit _ => True
  | Ready q, Ready q0 =>
      q_file q0 = q_file q /\ q_version q0 = q_version q /\
      origRegionIndices q0 = origRegionIndices q /\ q_intra q0 = q_intra q /\
      q_blockMap q0 = q_blockMap q /\ blockNumbers q0 = blockNumbers q
  | _, _ => False
  end.

(** ** The records of a query without normalization *)

(** A record of a block with its bins turned into positions. *)
Definition scaled (binsize : Z) (rec : contactRecord) : contactRecord :=
  {| binX := int_mul (binX rec) binsize; binY := int_mul (binY rec) binsize;
     counts := counts rec |}.

(** The region test of [straw] on a record of a block. *)
Definition kept (binsize : Z) (q : query) (rec : contactRecord) : bool :=
  in_region (origRegionIndices q) (q_intra q)
    (int_mul (binX rec) binsize) (int_mul (binY rec) binsize).

(** The query A:0:15 against B:0:25 on the sample file when it reaches the
    loop over the blocks, and the records of its one block. *)
Definition sample_query : query :=
  {| q_log := []; q_file := sample_file; q_version := 8;
     origRegionIndices := (0, 15, 0, 25); q_intra := false;
     c1Norm := []; c2Norm := [];
     q_blockMap := [(0, {| size := len sample_block; position := sample_block_pos |})];
     blockNumbers := [0] |}.

Definition sample_records : list contactRecord :=
  [{| binX := 1; binY := 2; counts := float_of_short 5 |};
   {| binX := 3; binY := 4; counts := float_of_short 7 |}].

(** The zoom level of the matrix of the sample file. *)
Definition sample_zoom : zoomLevel :=
  {| z_unit := "BP"; z_index := 0; z_stats := (0, 0, 0, 0); z_binSize := 10;
     z_blockBinCount := 100; z_blockColumnCount := 1;
     z_blocks := [(0, sample_block_pos, len sample_block)] |}.

(** What follows the header in the sample file. *)
Definition sample_body : list byte :=
  sample_block ++ sample_norm ++ sample_matrix ++ enc_footer sample_index sample_norms.

(** A list-of-rows block that announces one record and holds two, and a
    dense block of width 0. *)
Definition short_rows : list (Z * list (Z * Z)) := [(2, [(1, 5); (4, 6)])].

Definition flat_block : list byte := enc_block_type2 1 0 0 0 0 [5].

(** ** The records of a normalized query *)

(** Both bins of a record of a block are indices of the normalization
    vectors of the query. *)
Definition norm_defined (q : query) (rec : contactRecord) : bool :=
  (0 <=? binX rec) && (binX rec <? Z.of_nat (List.length (c1Norm q)))
  && (0 <=? binY rec) && (binY rec <? Z.of_nat (List.length (c2Norm q))).

(** A record of a block with its bins turned into positions and its count
    divided by the product of the two normalization values of its bins. *)
Definition normalized_scaled (binsize : Z) (q : query) (rec : contactRecord)
  : contactRecord :=
  {| binX := int_mul (binX rec) binsize; binY := int_mul (binY rec) binsize;
     counts :=
       float_of_double
         (SFdiv 53 1024 (double_of_float (counts rec))
            (SFmul 53 1024
               (nth (Z.to_nat (binX rec)) (c1Norm q) (S754_zero false))
               (nth (Z.to_nat (binY rec)) (c2Norm q) (S754_zero false)))) |}.

(** The query A:0:15 against A:0:25 with the norm VC on the sample file when
    it reaches the loop over the blocks. *)
Definition sample_query_vc : query :=
  {| q_log := []; q_file := sample_file; q_version := 8;
     origRegionIndices := (0, 15, 0, 25); q_intra := true;
     c1Norm := norm_values [4611686018427387904; 4611686018427387904;
                            4611686018427387904; 4611686018427387904;
                            4611686018427387904];
     c2Norm := norm_values [4611686018427387904; 4611686018427387904;
                            4611686018427387904; 4611686018427387904;
                            4611686018427387904];
     q_blockMap := [(0, {| size := len sample_block; position := sample_block_pos |})];
     blockNumbers := [0] |}.

(** The normalization vector of the sample file: its values, its index
    entry and what follows it in the file. *)
Definition sample_norm_values : list Z :=
  [4611686018427387904; 4611686018427387904; 4611686018427387904;
   4611686018427387904; 4611686018427387904].

Definition sample_norm_entry : indexEntry :=
  {| size := len sample_norm; position := sample_norm_pos |}.

Definition after_sample_norm : list byte :=
  sample_matrix ++ enc_footer sample_index sample_norms.

(** * Properties *)

(** ** Sets as increasing lists *)

Lemma set_insert_In (x y : Z) (s : list Z) :
  In y (set_insert x s) <-> y = x \/ In y s.
Proof.
  induction s as [|z t IH]; simpl.
  - intuition.
  - destruct (x <? z) eqn:Hlt; [simpl; intuition|].
    destruct (x =? z) eqn:Heq.
    + apply Z.eqb_eq in Heq. subst z. simpl. intuition.
    + simpl. rewrite IH. intuition.
Qed.

Lemma set_insert_sorted (x : Z) (s : list Z) :
  StronglySorted Z.lt s -> StronglySorted Z.lt (set_insert x s).
Proof.
  induction s as [|z t IH]; intros Hs; simpl.
  - constructor; constructor.
  - inversion Hs as [|? ? Ht Hall]; subst.
    destruct (x <? z) eqn:Hlt.
    + apply Z.ltb_lt in Hlt. constructor; [exact Hs|].
      constructor; [exact Hlt|].
      rewrite Forall_forall in *. intros u Hu. specialize (Hall u Hu). lia.
    + destruct (x =? z) eqn:Heq; [exact Hs|].
      apply Z.ltb_ge in Hlt. apply Z.eqb_neq in Heq.
      constructor; [auto|].
      rewrite Forall_forall in *. intros u Hu.
      apply set_insert_In in Hu. destruct Hu as [->|Hu]; [lia|auto].
Qed.

Lemma sorted_lt_NoDup (s : list Z) : StronglySorted Z.lt s -> NoDup s.
Proof.
  induction 1 as [|x t Ht IH Hall]; constructor; auto.
  intros Hin. rewrite Forall_forall in Hall. specialize (Hall x Hin). lia.
Qed.

(** Two increasing lists with the same members are the same list. *)
Lemma sorted_lt_ext (s1 s2 : list Z) :
  StronglySorted Z.lt s1 -> StronglySorted Z.lt s2 ->
  (forall x, In x s1 <-> In x s2) -> s1 = s2.
Proof.
  intros H1. revert s2.
  induction H1 as [|x t1 Ht1 IH Hall1]; intros s2 H2 Hext.
  - destruct s2 as [|y t2]; [reflexivity|].
    exfalso. apply (proj2 (Hext y)). left. reflexivity.
  - inversion H2 as [|y t2 Ht2 Hall2]; subst.
    + exfalso. apply (proj1 (Hext x)). left. reflexivity.
    + rewrite Forall_forall in Hall1, Hall2.
      assert (Hxy : x = y).
      { destruct (proj1 (Hext x) (or_introl eq_refl)) as [E|Hx]; [auto|].
        destruct (proj2 (Hext y) (or_introl eq_refl)) as [E|Hy]; [auto|].
        specialize (Hall1 y Hy). specialize (Hall2 x Hx). lia. }
      subst y. f_equal. apply IH; [exact Ht2|].
      intros u. split; intros Hu.
      * destruct (proj1 (Hext u) (or_intror Hu)) as [E|Hu']; [|exact Hu'].
        subst u. specialize (Hall1 x Hu). lia.
      * destruct (proj2 (Hext u) (or_intror Hu)) as [E|Hu']; [|exact Hu'].
        subst u. specialize (Hall2 x Hu). lia.
Qed.

Lemma int_range_In (lo hi x : Z) : In x (int_range lo hi) <-> lo <= x <= hi.
Proof.
  unfold int_range. rewrite in_map_iff. split.
  - intros (k & <- & Hk). apply in_seq in Hk. lia.
  - intros Hx. exists (Z.to_nat (x - lo)). split; [lia|].
    apply in_seq. lia.
Qed.

Lemma insert_blocks_In (bcc : Z) (rows cols s : list Z) (b : Z) :
  In b (insert_blocks bcc rows cols s) <->
  In b s \/ exists r c, In r rows /\ In c cols /\ b = int_add (int_mul r bcc) c.
Proof.
  unfold insert_blocks. revert s.
  induction rows as [|r rows IH]; intros s; simpl.
  - split; [auto|]. intros [H|(r & c & [] & _)]. exact H.
  - rewrite IH.
    assert (Hinner : forall cs acc,
      In b (fold_left (fun acc' c => set_insert (int_add (int_mul r bcc) c) acc') cs acc)
      <-> In b acc \/ exists c, In c cs /\ b = int_add (int_mul r bcc) c).
    { induction cs as [|c cs IHc]; intros acc; simpl.
      - split; [auto|]. intros [H|(c & [] & _)]. exact H.
      - rewrite IHc, set_insert_In. split.
        + intros [[->|H]|(c' & Hc' & ->)]; eauto.
        + intros [H|(c' & [->|Hc'] & ->)]; eauto. }
    rewrite Hinner. split.
    + intros [[H|(c & Hc & ->)]|(r' & c & Hr' & Hc & ->)]; eauto 8.
    + intros [H|(r' & c & [->|Hr'] & Hc & ->)]; eauto 8.
Qed.

Lemma insert_blocks_sorted (bcc : Z) (rows cols s : list Z) :
  StronglySorted Z.lt s -> StronglySorted Z.lt (insert_blocks bcc rows cols s).
Proof.
  unfold insert_blocks. revert s.
  induction rows as [|r rows IH]; intros s Hs; simpl; [exact Hs|].
  apply IH. clear IH. revert s Hs.
  induction cols as [|c cols IHc]; intros s Hs; simpl; [exact Hs|].
  apply IHc. apply set_insert_sorted. exact Hs.
Qed.

Lemma int_div_pos (a b : Z) : 0 < b -> int_div a b = Ok (Z.quot a b).
Proof.
  intros Hb. unfold int_div.
  replace (b =? 0) with false by (symmetry; apply Z.eqb_neq; lia).
  replace (b =? -1) with false by (symmetry; apply Z.eqb_neq; lia).
  rewrite andb_false_r. reflexivity.
Qed.

Lemma block_loops_ok (bcc row1 row2 col1 col2 : Z) (s : list Z) :
  row2 <> INT_MAX -> col2 <> INT_MAX ->
  block_loops bcc row1 row2 col1 col2 s
  = Ok (insert_blocks bcc (int_range row1 row2) (int_range col1 col2) s).
Proof.
  intros Hr Hc. unfold block_loops, loop_range.
  apply Z.eqb_neq in Hr. apply Z.eqb_neq in Hc. rewrite Hr, Hc. cbn [bind].
  destruct (int_range row1 row2); reflexivity.
Qed.

Lemma block_loops_no_end (bcc row1 row2 col1 col2 : Z) (s : list Z) :
  row2 = INT_MAX \/ (col2 = INT_MAX /\ row1 <= row2) ->
  block_loops bcc row1 row2 col1 col2 s = Fault Overflow.
Proof.
  unfold block_loops, loop_range. intros [Hr|[Hc Hrows]].
  - apply Z.eqb_eq in Hr. rewrite Hr. reflexivity.
  - destruct (row2 =? INT_MAX); [reflexivity|]. cbn [bind].
    destruct (int_range row1 row2) as [|r rows] eqn:E.
    + assert (Hin : In row1 (int_range row1 row2)) by (apply int_range_In; lia).
      rewrite E in Hin. destruct Hin.
    + apply Z.eqb_eq in Hc. rewrite Hc. reflexivity.
Qed.

(** C2.  For a positive [blockBinCount], and upper block indices
    [(row2 + 1) / blockBinCount] and [(col2 + 1) / blockBinCount] below
    [INT_MAX], the limit up to which the loops of the selector can count,
    the block selector returns a set (an increasing list, hence without
    duplicates) whose members are exactly the numbers
    [r * blockColumnCount + c] with [r] between [row1 / blockBinCount] and
    [(row2 + 1) / blockBinCount] and [c] between [col1 / blockBinCount] and
    [(col2 + 1) / blockBinCount], together, when [intra] holds, with the
    numbers of the swapped rectangle. *)
Theorem block_selector_exact :
  forall (col1 col2 row1 row2 blockBinCount blockColumnCount : Z) (intra : bool),
    0 < blockBinCount ->
    let colLo := Z.quot col1 blockBinCount in
    let colHi := Z.quot (int_add col2 1) blockBinCount in
    let rowLo := Z.quot row1 blockBinCount in
    let rowHi := Z.quot (int_add row2 1) blockBinCount in
    colHi < INT_MAX -> rowHi < INT_MAX ->
    exists blocks,
      getBlockNumbersForRegionFromBinPosition (col1, col2, row1, row2)
        blockBinCount blockColumnCount intra = Ok blocks /\
      StronglySorted Z.lt blocks /\ NoDup blocks /\
      forall b, In b blocks <->
        (exists r c, rowLo <= r <= rowHi /\ colLo <= c <= colHi /\
                     b = int_add (int_mul r blockColumnCount) c) \/
        (intra = true /\
         exists r c, colLo <= r <= colHi /\ rowLo <= c <= rowHi /\
                     b = int_add (int_mul r blockColumnCount) c).
Proof.
  intros col1 col2 row1 row2 bbc bcc intra Hpos colLo colHi rowLo rowHi Hcol Hrow.
  unfold getBlockNumbersForRegionFromBinPosition.
  rewrite !int_div_pos by exact Hpos. cbn [bind].
  fold colLo colHi rowLo rowHi.
  rewrite (block_loops_ok bcc rowLo rowHi colLo colHi) by lia. cbn [bind].
  assert (Hsorted : StronglySorted Z.lt
            (if intra
             then insert_blocks bcc (int_range colLo colHi) (int_range rowLo rowHi)
                    (insert_blocks bcc (int_range rowLo rowHi) (int_range colLo colHi) [])
             else insert_blocks bcc (int_range rowLo rowHi) (int_range colLo colHi) [])).
  { destruct intra; repeat apply insert_blocks_sorted; constructor. }
  exists (if intra
          then insert_blocks bcc (int_range colLo colHi) (int_range rowLo rowHi)
                 (insert_blocks bcc (int_range rowLo rowHi) (int_range colLo colHi) [])
          else insert_blocks bcc (int_range rowLo rowHi) (int_range colLo colHi) []).
  split.
  { destruct intra; [|reflexivity].
    apply (block_loops_ok bcc colLo colHi rowLo rowHi); lia. }
  split; [exact Hsorted|]. split; [apply sorted_lt_NoDup; exact Hsorted|].
  intros b. destruct intra.
  - rewrite !insert_blocks_In. setoid_rewrite int_range_In. simpl. split.
    + intros [[[]|H]|H]; [left; exact H|right; split; [reflexivity|exact H]].
    + intros [H|[_ H]]; [left; right; exact H|right; exact H].
  - rewrite insert_blocks_In. setoid_rewrite int_range_In. simpl. split.
    + intros [[]|H]. left. exact H.
    + intros [H|[Hf _]]; [right; exact H|discriminate].
Qed.

(** ** Reading back what was written *)

Lemma byte_val_byte_of (v : Z) : byte_val (byte_of v) = v mod 256.
Proof.
  unfold byte_of, byte_val.
  assert (Hr : 0 <= v mod 256 < 256) by (apply Z.mod_pos_bound; lia).
  destruct (Byte.of_N (Z.to_N (v mod 256))) as [b|] eqn:E.
  - apply Byte.to_of_N in E. rewrite E. apply Z2N.id. lia.
  - apply Byte.of_N_None_iff in E. lia.
Qed.

Lemma byte_val_range (b : byte) : 0 <= byte_val b < 256.
Proof.
  unfold byte_val. pose proof (Byte.to_N_bounded b). lia.
Qed.

Lemma enc_le_length (n : nat) (z : Z) : List.length (enc_le n z) = n.
Proof.
  revert z. induction n as [|k IH]; intros z; simpl; [reflexivity|].
  rewrite IH. reflexivity.
Qed.

Lemma le_unsigned_enc_le (n : nat) (z : Z) :
  le_unsigned (enc_le n z) = z mod 256 ^ Z.of_nat n.
Proof.
  revert z. induction n as [|k IH]; intros z.
  - simpl. rewrite Z.mod_1_r. reflexivity.
  - cbn [enc_le le_unsigned]. rewrite IH, byte_val_byte_of.
    rewrite Nat2Z.inj_succ, Z.pow_succ_r by lia.
    rewrite Z.rem_mul_r by (try apply Z.pow_pos_nonneg; lia).
    reflexivity.
Qed.

Lemma to_signed_mod (w z : Z) :
  0 < w -> - 2 ^ (w - 1) <= z < 2 ^ (w - 1) -> to_signed w (z mod 2 ^ w) = z.
Proof.
  intros Hw Hz. unfold to_signed.
  assert (Hp : 2 ^ w = 2 * 2 ^ (w - 1)).
  { replace w with (Z.succ (w - 1)) at 1 by lia. apply Z.pow_succ_r. lia. }
  destruct (Z_lt_le_dec z 0) as [Hneg|Hpos].
  - replace (z mod 2 ^ w) with (z + 2 ^ w).
    + replace (z + 2 ^ w <? 2 ^ (w - 1)) with false by (symmetry; apply Z.ltb_ge; lia).
      lia.
    + apply Z.mod_unique with (q := -1); lia.
  - rewrite Z.mod_small by lia.
    replace (z <? 2 ^ (w - 1)) with true by (symmetry; apply Z.ltb_lt; lia).
    reflexivity.
Qed.

Lemma read_bytes_app (bs rest : list byte) :
  read_bytes (List.length bs) (bs ++ rest) = Ok (bs, rest).
Proof.
  unfold read_bytes. rewrite length_app.
  replace (List.length bs + List.length rest <? List.length bs)%nat with false
    by (symmetry; apply Nat.ltb_ge; lia).
  rewrite firstn_app, Nat.sub_diag, firstn_all, skipn_app, Nat.sub_diag, skipn_all.
  simpl. rewrite app_nil_r. reflexivity.
Qed.

Lemma read_signed_enc (n : nat) (z : Z) (rest : list byte) :
  (0 < n)%nat ->
  - 2 ^ (8 * Z.of_nat n - 1) <= z < 2 ^ (8 * Z.of_nat n - 1) ->
  read_signed n (enc_le n z ++ rest) = Ok (z, rest).
Proof.
  intros Hn Hz. unfold read_signed.
  rewrite <- (enc_le_length n z) at 1. rewrite read_bytes_app. cbn [bind].
  rewrite le_unsigned_enc_le.
  replace (256 ^ Z.of_nat n) with (2 ^ (8 * Z.of_nat n))
    by (rewrite Z.pow_mul_r by lia; reflexivity).
  rewrite to_signed_mod by lia. reflexivity.
Qed.

Lemma read_int_enc (z : Z) (rest : list byte) :
  is_int z -> read_int (enc_int z ++ rest) = Ok (z, rest).
Proof.
  intros Hz. apply read_signed_enc; [lia|].
  unfold is_int, INT_MIN, INT_MAX in Hz. simpl. lia.
Qed.

Lemma read_long_enc (z : Z) (rest : list byte) :
  is_long z -> read_long (enc_long z ++ rest) = Ok (z, rest).
Proof.
  intros Hz. apply read_signed_enc; [lia|].
  unfold is_long in Hz. simpl. lia.
Qed.

Lemma read_short_enc (z : Z) (rest : list byte) :
  is_short z -> read_short (enc_short z ++ rest) = Ok (z, rest).
Proof.
  intros Hz. apply read_signed_enc; [lia|].
  unfold is_short in Hz. simpl. lia.
Qed.

Lemma read_char_enc (z : Z) (rest : list byte) :
  - 128 <= z < 128 -> read_char (enc_char z ++ rest) = Ok (z, rest).
Proof.
  intros Hz. apply read_signed_enc; [lia|]. simpl. lia.
Qed.

Lemma byte_of_ascii_nul (c : ascii) :
  c <> Ascii.zero -> Byte.eqb (byte_of_ascii c) x00 = false.
Proof.
  intros Hc. destruct (Byte.eqb (byte_of_ascii c) x00) eqn:E; [|reflexivity].
  exfalso. apply Hc. apply Byte.byte_dec_bl in E.
  rewrite <- (ascii_of_byte_of_ascii c), E. reflexivity.
Qed.

Lemma getline_enc (s : string) (rest : list byte) :
  no_nul s -> getline (enc_str s ++ rest) = (s, rest).
Proof.
  induction s as [|c s IH]; intros Hs; simpl.
  - reflexivity.
  - destruct Hs as [Hc Hs]. rewrite byte_of_ascii_nul by exact Hc.
    rewrite IH by exact Hs. rewrite ascii_of_byte_of_ascii. reflexivity.
Qed.

(** ** The master index of the footer *)

Lemma first_match_app (key : string) (l1 l2 : list (string * Z * Z)) :
  first_match key (l1 ++ l2) =
  match first_match key l1 with
  | Some p => Some p
  | None => first_match key l2
  end.
Proof.
  induction l1 as [|[[k fpos] sz] l1 IH]; simpl; [reflexivity|].
  destruct (String.eqb k key); [reflexivity|exact IH].
Qed.

Lemma last_match_cons (key : string) (e : string * Z * Z) (es : list (string * Z * Z)) :
  last_match key (e :: es) =
  match last_match key es with
  | Some p => Some p
  | None => first_match key [e]
  end.
Proof.
  unfold last_match. simpl rev. apply first_match_app.
Qed.

(** The loop over the master index leaves in [myFilePos] the position of the
    last entry whose key is [key], and keeps the old value when there is none. *)
Lemma footer_entries_enc (key : string) (entries : list (string * Z * Z)) :
  Forall footer_entry_ok entries ->
  forall (rest : list byte) (pos : option Z) (found : bool),
    footer_entries (List.length entries) key
      (flat_map enc_footer_entry entries ++ rest) pos found
    = Ok (match last_match key entries with Some p => Some p | None => pos end,
          found || is_some (last_match key entries), rest).
Proof.
  induction 1 as [|[[k fpos] sz] es (Hk & Hpos & Hsz) Hes IH]; intros rest pos found.
  - simpl. rewrite orb_false_r. reflexivity.
  - cbn [List.length flat_map footer_entries enc_footer_entry].
    repeat rewrite <- app_assoc.
    rewrite getline_enc by exact Hk.
    rewrite read_long_enc by exact Hpos. cbn [bind].
    rewrite read_int_enc by exact Hsz. cbn [bind].
    rewrite last_match_cons. cbn [first_match].
    destruct (String.eqb k key); rewrite IH.
    + destruct (last_match key es); simpl; rewrite ?orb_true_r; reflexivity.
    + destruct (last_match key es); reflexivity.
Qed.

Lemma readFooter_master_index (nBytes : Z) (entries : list (string * Z * Z))
    (rest : list byte) (master c1 c2 : Z) (norm unit : string) (resolution : Z) :
  Forall footer_entry_ok entries -> is_int nBytes ->
  Z.of_nat (List.length entries) <= INT_MAX ->
  match readFooter (enc_master_index nBytes entries ++ rest) master c1 c2 norm unit
          resolution with
  | Ok ft =>
      myFilePos ft = last_match (footer_key c1 c2) entries /\
      foundFooter ft = is_some (last_match (footer_key c1 c2) entries) /\
      (last_match (footer_key c1 c2) entries = None ->
       footer_log ft = [msg_no_matrix (footer_key c1 c2)])
  | Fault _ => last_match (footer_key c1 c2) entries <> None /\ norm <> "NONE"%string
  end.
Proof.
  intros Hes HnB Hlen. unfold readFooter, enc_master_index.
  repeat rewrite <- app_assoc.
  rewrite read_int_enc by exact HnB. cbn [bind].
  rewrite read_int_enc by (unfold is_int, INT_MIN; lia). cbn [bind].
  rewrite Nat2Z.id, footer_entries_enc by exact Hes. cbn [bind orb].
  destruct (last_match (footer_key c1 c2) entries) as [p|] eqn:Hlm; cbn [is_some negb].
  - destruct (String.eqb norm "NONE") eqn:Hnorm.
    + simpl. repeat split. discriminate.
    + apply String.eqb_neq in Hnorm.
      match goal with
      | |- match ?r with _ => _ end => destruct r as [ft|f] eqn:Hr
      end.
      2:{ split; [discriminate|exact Hnorm]. }
      revert Hr. unfold bind.
      repeat match goal with
      | |- context [match ?r with Ok _ => _ | Fault _ => _ end] =>
          destruct r as [[? ?]|?]; try discriminate
      | |- context [match ?r with Ok _ => _ | Fault _ => _ end] =>
          destruct r as [?|?]; try discriminate
      | |- context [let '(_, _) := ?r in _] => destruct r
      end.
      intros [= <-]. simpl. repeat split. discriminate.
  - simpl. repeat split.
Qed.

(** ** The block decoder *)

Lemma wrap_small (z : Z) : is_int z -> wrap 32 z = z.
Proof.
  unfold is_int, INT_MIN, INT_MAX, wrap. intros Hz.
  rewrite Z.mod_small by (simpl; lia). lia.
Qed.

Lemma vec_set_length {A : Type} (v v' : list A) (i : Z) (x : A) :
  vec_set v i x = Ok v' -> List.length v' = List.length v.
Proof.
  unfold vec_set.
  destruct ((0 <=? i) && (i <? Z.of_nat (List.length v))) eqn:E; [|discriminate].
  apply andb_prop in E. destruct E as [H0 H1].
  apply Z.leb_le in H0. apply Z.ltb_lt in H1.
  intros [= <-]. rewrite length_app. cbn [List.length].
  rewrite length_firstn, length_skipn. lia.
Qed.

(** Writing the slot that follows the records written so far. *)
Lemma vec_set_next {A : Type} (done pad : list A) (z x : A) :
  vec_set (done ++ z :: pad) (Z.of_nat (List.length done)) x = Ok (done ++ x :: pad).
Proof.
  unfold vec_set. rewrite length_app. simpl.
  replace (0 <=? Z.of_nat (List.length done)) with true
    by (symmetry; apply Z.leb_le; lia).
  replace (Z.of_nat (List.length done) <? Z.of_nat (List.length done + S (List.length pad)))
    with true by (symmetry; apply Z.ltb_lt; lia).
  simpl. rewrite Nat2Z.id.
  rewrite firstn_app, Nat.sub_diag, firstn_all. simpl. rewrite app_nil_r.
  f_equal. f_equal.
  replace (List.length done + 1)%nat with (List.length (done ++ [z]))
    by (rewrite length_app; simpl; lia).
  replace (done ++ z :: pad) with ((done ++ [z]) ++ pad)
    by (rewrite <- app_assoc; reflexivity).
  rewrite skipn_app, Nat.sub_diag, skipn_all. reflexivity.
Qed.

Lemma records_v6_length (n : nat) :
  forall i bufferin v v',
    records_v6 n i bufferin v = Ok v' -> List.length v' = List.length v.
Proof.
  induction n as [|k IH]; intros i bufferin v v'; simpl.
  - intros [= <-]. reflexivity.
  - destruct (read_int bufferin) as [[bx b1]|]; [|discriminate]. cbn [bind].
    destruct (read_int b1) as [[by_ b2]|]; [|discriminate]. cbn [bind].
    destruct (read_float b2) as [[c b3]|]; [|discriminate]. cbn [bind].
    destruct (vec_set v i _) as [v1|] eqn:Hset; [|discriminate]. cbn [bind].
    intros H. apply IH in H. apply vec_set_length in Hset. congruence.
Qed.

Lemma row_cells_length (n : nat) :
  forall useShort xoff by_ bufferin index v b' index' v',
    row_cells n useShort xoff by_ bufferin index v = Ok (b', index', v') ->
    List.length v' = List.length v.
Proof.
  induction n as [|k IH]; intros useShort xoff by_ bufferin index v b' index' v'; simpl.
  - intros [= _ _ <-]. reflexivity.
  - destruct (read_short bufferin) as [[x b1]|]; [|discriminate]. cbn [bind].
    destruct (read_count useShort b1) as [[c b2]|]; [|discriminate]. cbn [bind].
    destruct (vec_set v index _) as [v1|] eqn:Hset; [|discriminate]. cbn [bind].
    intros H. apply IH in H. apply vec_set_length in Hset. congruence.
Qed.

Lemma rows_length (n : nat) :
  forall useShort xoff yoff bufferin index v v',
    rows n useShort xoff yoff bufferin index v = Ok v' ->
    List.length v' = List.length v.
Proof.
  induction n as [|k IH]; intros useShort xoff yoff bufferin index v v'; simpl.
  - intros [= <-]. reflexivity.
  - destruct (read_short bufferin) as [[y b1]|]; [|discriminate]. cbn [bind].
    destruct (read_short b1) as [[colCount b2]|]; [|discriminate]. cbn [bind].
    destruct (row_cells _ _ _ _ b2 index v) as [[[b3 index3] v3]|] eqn:Hrow;
      [|discriminate]. cbn [bind].
    intros H. apply IH in H. apply row_cells_length in Hrow. congruence.
Qed.

Lemma points_length (n : nat) :
  forall i useShort xoff yoff w bufferin index v v',
    points n i useShort xoff yoff w bufferin index v = Ok v' ->
    List.length v' = List.length v.
Proof.
  induction n as [|k IH]; intros i useShort xoff yoff w bufferin index v v'; simpl.
  - intros [= <-]. reflexivity.
  - destruct (int_div i w) as [row|]; [|discriminate]. cbn [bind].
    destruct (useShort =? 0).
    + destruct (read_short bufferin) as [[c b1]|]; [|discriminate]. cbn [bind].
      destruct (negb (c =? -32768)).
      * destruct (vec_set v index _) as [v1|] eqn:Hset; [|discriminate]. cbn [bind].
        intros H. apply IH in H. apply vec_set_length in Hset. congruence.
      * apply IH.
    + destruct (read_float bufferin) as [[c b1]|]; [|discriminate]. cbn [bind].
      destruct (negb (isnan c)).
      * destruct (vec_set v index _) as [v1|] eqn:Hset; [|discriminate]. cbn [bind].
        intros H. apply IH in H. apply vec_set_length in Hset. congruence.
      * apply IH.
Qed.

(** Whatever the version and the type of the block, the vector that the
    decoder returns has the size it was created with: [nRecords]. *)
Lemma decode_block_length (version : Z) (bufferin : stream) (v : list contactRecord) :
  decode_block version bufferin = Ok v ->
  exists nRecords rest,
    read_int bufferin = Ok (nRecords, rest) /\ 0 <= nRecords /\
    Z.of_nat (List.length v) = nRecords.
Proof.
  unfold decode_block.
  destruct (read_int bufferin) as [[nRecords b0]|]; [|discriminate]. cbn [bind].
  unfold vec_make. destruct (nRecords <? 0) eqn:Hneg; [discriminate|]. cbn [bind].
  apply Z.ltb_ge in Hneg. intros H.
  exists nRecords, b0. split; [reflexivity|]. split; [exact Hneg|].
  assert (Hlen : List.length v = Z.to_nat nRecords).
  { rewrite <- (repeat_length zero_record (Z.to_nat nRecords)).
    destruct (version <? 7); [eapply records_v6_length; exact H|].
    revert H.
    destruct (read_int b0) as [[xoff b1]|]; [|discriminate]. cbn [bind].
    destruct (read_int b1) as [[yoff b2]|]; [|discriminate]. cbn [bind].
    destruct (read_char b2) as [[useShort b3]|]; [|discriminate]. cbn [bind].
    destruct (read_char b3) as [[type b4]|]; [|discriminate]. cbn [bind].
    destruct (type =? 1).
    - destruct (read_short b4) as [[rowCount b5]|]; [|discriminate]. cbn [bind].
      apply rows_length.
    - destruct (type =? 2).
      + destruct (read_int b4) as [[nPts b5]|]; [|discriminate]. cbn [bind].
        destruct (read_short b5) as [[w b6]|]; [|discriminate]. cbn [bind].
        apply points_length.
      + intros [= <-]. reflexivity. }
  lia.
Qed.

Lemma read_float_enc (c : Z) (rest : list byte) :
  0 <= c < 2 ^ 32 -> read_float (enc_int c ++ rest) = Ok (decode_ieee 23 8 c, rest).
Proof.
  intros Hc. unfold read_float, enc_int.
  rewrite <- (enc_le_length 4 c) at 1. rewrite read_bytes_app. cbn [bind].
  rewrite le_unsigned_enc_le. rewrite Z.mod_small by (simpl; lia). reflexivity.
Qed.

(** The row and the column of the cell [i] of a dense block of width [w]. *)
Lemma type2_position (i w : Z) :
  0 <= i <= INT_MAX -> 0 < w -> is_short w ->
  int_div i w = Ok (i / w) /\ int_sub i (int_mul (i / w) w) = i mod w.
Proof.
  intros Hi Hw Hs. unfold INT_MAX in Hi. unfold is_short in Hs.
  rewrite int_div_pos by exact Hw.
  rewrite Z.quot_div_nonneg by lia. split; [reflexivity|].
  pose proof (Z.mod_pos_bound i w Hw) as Hm.
  pose proof (Z.div_mod i w ltac:(lia)) as Hdm.
  unfold int_sub, int_mul.
  rewrite (wrap_small (i / w * w)) by (unfold is_int, INT_MIN, INT_MAX; lia).
  replace (i - i / w * w) with (i mod w) by lia.
  apply wrap_small. unfold is_int, INT_MIN, INT_MAX. simpl in *. lia.
Qed.

(** The loop over the cells of a type 2 block writes the records of the
    cells that hold a count one after the other from [index] on, and leaves
    the other slots of the vector as they were. *)
Lemma points_enc (useShort xoff yoff w : Z) (cells : list Z) :
  0 < w -> is_short w -> Forall (cell_ok useShort) cells ->
  forall (i : Z) (done : list contactRecord) (k : nat) (rest : list byte),
    0 <= i -> i + Z.of_nat (List.length cells) <= INT_MAX + 1 ->
    (List.length (type2_records i xoff yoff useShort w cells) <= k)%nat ->
    points (List.length cells) i useShort xoff yoff w
      (flat_map (enc_cell useShort) cells ++ rest)
      (Z.of_nat (List.length done)) (done ++ repeat zero_record k)
    = Ok (done ++ type2_records i xoff yoff useShort w cells
            ++ repeat zero_record
                 (k - List.length (type2_records i xoff yoff useShort w cells))).
Proof.
  intros Hw Hs Hcells.
  induction Hcells as [|c cells Hc Hcells IH]; intros i done k rest Hi Hmax Hk.
  - simpl. rewrite Nat.sub_0_r. reflexivity.
  - cbn [List.length] in Hmax. rewrite Nat2Z.inj_succ in Hmax.
    destruct (type2_position i w) as [Hdiv Hcol]; [lia|exact Hw|exact Hs|].
    cbn [List.length points flat_map type2_records] in *.
    rewrite Hdiv. cbn [bind]. rewrite Hcol. rewrite <- app_assoc.
    unfold cell_ok, enc_cell, cell_count in *.
    destruct (useShort =? 0).
    + rewrite read_short_enc by exact Hc. cbn [bind].
      destruct (c =? -32768); cbn [negb].
      * simpl in Hk |- *. apply IH; [lia|lia|exact Hk].
      * destruct k as [|k]; [simpl in Hk; lia|].
        cbn [repeat]. rewrite vec_set_next. cbn [bind].
        replace (Z.of_nat (List.length done) + 1)
          with (Z.of_nat (List.length (done ++ [{| binX := int_add xoff (i mod w);
                                                   binY := int_add yoff (i / w);
                                                   counts := float_of_short c |}])))
          by (rewrite length_app; simpl; lia).
        replace (done ++ {| binX := int_add xoff (i mod w);
                            binY := int_add yoff (i / w);
                            counts := float_of_short c |} :: repeat zero_record k)
          with ((done ++ [{| binX := int_add xoff (i mod w);
                             binY := int_add yoff (i / w);
                             counts := float_of_short c |}]) ++ repeat zero_record k)
          by (rewrite <- app_assoc; reflexivity).
        rewrite IH by (simpl in Hk; lia).
        rewrite <- app_assoc. reflexivity.
    + rewrite read_float_enc by exact Hc. cbn [bind].
      destruct (isnan (decode_ieee 23 8 c)); cbn [negb].
      * simpl in Hk |- *. apply IH; [lia|lia|exact Hk].
      * destruct k as [|k]; [simpl in Hk; lia|].
        cbn [repeat]. rewrite vec_set_next. cbn [bind].
        replace (Z.of_nat (List.length done) + 1)
          with (Z.of_nat (List.length (done ++ [{| binX := int_add xoff (i mod w);
                                                   binY := int_add yoff (i / w);
                                                   counts := decode_ieee 23 8 c |}])))
          by (rewrite length_app; simpl; lia).
        replace (done ++ {| binX := int_add xoff (i mod w);
                            binY := int_add yoff (i / w);
                            counts := decode_ieee 23 8 c |} :: repeat zero_record k)
          with ((done ++ [{| binX := int_add xoff (i mod w);
                             binY := int_add yoff (i / w);
                             counts := decode_ieee 23 8 c |}]) ++ repeat zero_record k)
          by (rewrite <- app_assoc; reflexivity).
        rewrite IH by (simpl in Hk; lia).
        rewrite <- app_assoc. reflexivity.
Qed.

(** What the decoder makes of a type 2 block whose inflated payload starts
    with the field [nRecords]: the records of the cells that hold a count,
    then as many value-initialised records as remain up to [nRecords]. *)
Lemma decode_type2 (version nRecords xoff yoff useShort w : Z) (cells : list Z)
    (rest : list byte) :
  7 <= version ->
  is_int nRecords -> is_int xoff -> is_int yoff -> - 128 <= useShort < 128 ->
  0 < w -> is_short w -> Forall (cell_ok useShort) cells ->
  Z.of_nat (List.length cells) <= INT_MAX ->
  Z.of_nat (List.length (type2_records 0 xoff yoff useShort w cells)) <= nRecords ->
  decode_block version
    (enc_block_type2 nRecords xoff yoff useShort w cells ++ rest)
  = Ok (type2_records 0 xoff yoff useShort w cells
          ++ repeat zero_record
               (Z.to_nat nRecords
                - List.length (type2_records 0 xoff yoff useShort w cells))).
Proof.
  intros Hv HnR Hx Hy Hu Hw Hs Hcells Hlen Hkept.
  unfold decode_block, enc_block_type2. repeat rewrite <- app_assoc.
  rewrite read_int_enc by exact HnR. cbn [bind].
  unfold vec_make. replace (nRecords <? 0) with false by (symmetry; apply Z.ltb_ge; lia).
  cbn [bind]. replace (version <? 7) with false by (symmetry; apply Z.ltb_ge; lia).
  rewrite read_int_enc by exact Hx. cbn [bind].
  rewrite read_int_enc by exact Hy. cbn [bind].
  rewrite read_char_enc by exact Hu. cbn [bind].
  rewrite read_char_enc by lia. cbn [bind].
  change (2 =? 1) with false. change (2 =? 2) with true. cbv iota.
  rewrite read_int_enc by (unfold is_int, INT_MIN; lia). cbn [bind].
  rewrite read_short_enc by exact Hs. cbn [bind].
  rewrite Nat2Z.id.
  apply (points_enc useShort xoff yoff w cells Hw Hs Hcells 0 [] (Z.to_nat nRecords) rest);
    lia.
Qed.

(** ** The header *)

Lemma getline_head (fin : stream) (c : ascii) (s : string) :
  fst (getline fin) = String c s ->
  exists b rest, fin = b :: rest /\ ascii_of_byte b = c /\ fst (getline rest) = s.
Proof.
  destruct fin as [|b rest]; simpl; [discriminate|].
  destruct (Byte.eqb b x00); [discriminate|].
  destruct (getline rest) as [str rest'] eqn:E. simpl.
  intros [= Hc Hs]. exists b, rest. rewrite E. repeat split; assumption.
Qed.

Lemma char_at_head (str : string) (c : ascii) :
  c <> Ascii.zero -> Ascii.eqb (char_at str 0) c = true ->
  exists s, str = String c s.
Proof.
  intros Hc H. apply Ascii.eqb_eq in H.
  destruct str as [|a s]; unfold char_at in H; simpl in H.
  - congruence.
  - exists s. congruence.
Qed.

Lemma byte_of_ascii_inj (b : byte) (c : ascii) :
  ascii_of_byte b = c -> b = byte_of_ascii c.
Proof.
  intros <-. symmetry. apply byte_of_ascii_of_byte.
Qed.

(** The magic string is accepted only when the file starts with the bytes
    'H', 'I', 'C'. *)
Lemma readMagicString_true (fin : stream) :
  fst (readMagicString fin) = true -> firstn 3 fin = [x48; x49; x43].
Proof.
  unfold readMagicString.
  destruct (getline fin) as [str fin'] eqn:Hg. cbn [fst].
  intros H. apply andb_prop in H. destruct H as [H HC].
  apply andb_prop in H. destruct H as [HH HI].
  apply char_at_head in HH; [|discriminate]. destruct HH as [s1 ->].
  change (char_at (String "H" s1) 1) with (char_at s1 0) in HI.
  change (char_at (String "H" s1) 2) with (char_at s1 1) in HC.
  apply char_at_head in HI; [|discriminate]. destruct HI as [s2 ->].
  change (char_at (String "I" s2) 1) with (char_at s2 0) in HC.
  apply char_at_head in HC; [|discriminate]. destruct HC as [s3 ->].
  assert (Hf : fst (getline fin) = String "H" (String "I" (String "C" s3)))
    by (rewrite Hg; reflexivity).
  apply getline_head in Hf. destruct Hf as (b1 & r1 & -> & Hb1 & Hf).
  apply getline_head in Hf. destruct Hf as (b2 & r2 & -> & Hb2 & Hf).
  apply getline_head in Hf. destruct Hf as (b3 & r3 & -> & Hb3 & Hf).
  apply byte_of_ascii_inj in Hb1, Hb2, Hb3. subst. reflexivity.
Qed.

Lemma readHeader_not_hic (fin : stream) (version : Z) :
  firstn 3 fin <> [x48; x49; x43] ->
  exists fin',
    readHeader fin version = Ok ([], -1, version, [msg_magic], fin').
Proof.
  intros Hm. unfold readHeader.
  destruct (readMagicString fin) as [magic fin'] eqn:E.
  destruct magic.
  - exfalso. apply Hm. apply readMagicString_true. rewrite E. reflexivity.
  - exists fin'. reflexivity.
Qed.

Section Queries.

Variable inflate : list byte -> Z -> list byte.

(** C5.  With a unit other than "BP" and "FRAG", [straw] returns no record
    and [getSize] returns 0 after the two lines of the usage message,
    whatever the files are: no file is opened, nothing is fetched. *)
Theorem bad_unit_rejected :
  forall (fs fs' : string -> option (list byte)) (version : Z)
         (norm fname chr1loc chr2loc unit : string) (binsize : Z),
    unit <> "BP"%string -> unit <> "FRAG"%string ->
    straw inflate fs version norm fname chr1loc chr2loc unit binsize
      = Ok ([msg_unit; msg_usage], []) /\
    getSize inflate fs version norm fname chr1loc chr2loc unit binsize
      = Ok ([msg_unit; msg_usage], 0) /\
    straw inflate fs' version norm fname chr1loc chr2loc unit binsize
      = straw inflate fs version norm fname chr1loc chr2loc unit binsize.
Proof.
  intros fs fs' version norm fname chr1loc chr2loc unit binsize HBP HFRAG.
  apply String.eqb_neq in HBP, HFRAG.
  unfold straw, getSize, query_setup. rewrite HBP, HFRAG. simpl.
  repeat split.
Qed.

(** C4.  On a file that can be opened and whose first three bytes are not
    'H', 'I', 'C', [straw] reports the missing magic string and returns no
    record (and [getSize] returns 0): the chromosome map stays empty, so
    that the query ends at the lookup of the first chromosome. *)
Theorem not_hic_rejected :
  forall (fs : string -> option (list byte)) (file : list byte) (version : Z)
         (norm fname chr1loc chr2loc unit : string) (binsize : Z),
    unit = "BP"%string \/ unit = "FRAG"%string ->
    String.prefix "http" fname = false ->
    fs fname = Some file ->
    firstn 3 file <> [x48; x49; x43] ->
    straw inflate fs version norm fname chr1loc chr2loc unit binsize
      = Ok ([msg_magic; msg_chr (loc_name chr1loc)], []) /\
    getSize inflate fs version norm fname chr1loc chr2loc unit binsize
      = Ok ([msg_magic; msg_chr (loc_name chr1loc)], 0).
Proof.
  intros fs file version norm fname chr1loc chr2loc unit binsize Hu Hp Hf Hm.
  assert (Hunit : negb (String.eqb unit "BP" || String.eqb unit "FRAG") = false).
  { destruct Hu as [-> | ->]; reflexivity. }
  destruct (readHeader_not_hic file version Hm) as [fin' Hh].
  unfold straw, getSize, query_setup, loc_name.
  rewrite Hunit, Hp, Hf, Hh. cbn [bind].
  destruct (sgetline (Some chr1loc)) as [[ok chr1] ss]. simpl.
  split; reflexivity.
Qed.

(** *** The region filter *)

Lemma in_region_spec (o0 o1 o2 o3 : Z) (intra : bool) (x y : Z) :
  in_region (o0, o1, o2, o3) intra x y = true <->
  (o0 <= x <= o1 /\ o2 <= y <= o3) \/
  (intra = true /\ o0 <= y <= o1 /\ o2 <= x <= o3).
Proof.
  unfold in_region.
  rewrite orb_true_iff, !andb_true_iff, !Z.leb_le. tauto.
Qed.

Lemma emit_all_In (norm : string) (binsize : Z) (q : query) (P : contactRecord -> Prop) :
  (forall rec out r, emit norm binsize q rec = Ok out -> In r out -> P r) ->
  forall tmp_records records recs,
    emit_all norm binsize q tmp_records records = Ok recs ->
    (forall r, In r records -> P r) -> forall r, In r recs -> P r.
Proof.
  intros Hemit. induction tmp_records as [|rec rest IH]; intros records recs; simpl.
  - intros [= <-] H. exact H.
  - destruct (emit norm binsize q rec) as [out|] eqn:E; [|discriminate]. cbn [bind].
    intros H Hrec. apply (IH _ _ H). intros r Hr.
    apply in_app_or in Hr. destruct Hr as [Hr|Hr]; [auto|eauto].
Qed.

Lemma straw_blocks_In (norm : string) (binsize : Z) (q : query) (P : contactRecord -> Prop) :
  (forall rec out r, emit norm binsize q rec = Ok out -> In r out -> P r) ->
  forall blocks records recs,
    straw_blocks inflate norm binsize q blocks records = Ok recs ->
    (forall r, In r records -> P r) -> forall r, In r recs -> P r.
Proof.
  intros Hemit. induction blocks as [|b rest IH]; intros records recs; simpl.
  - intros [= <-] H. exact H.
  - destruct (readBlock inflate _ _ _) as [tmp|]; [|discriminate]. cbn [bind].
    destruct (emit_all norm binsize q tmp records) as [records'|] eqn:E; [|discriminate].
    cbn [bind]. intros H Hrec. apply (IH _ _ H).
    exact (emit_all_In norm binsize q P Hemit _ _ _ E Hrec).
Qed.

Lemma emit_all_none_records (binsize : Z) (q : query) :
  forall tmp records,
    emit_all "NONE" binsize q tmp records
    = Ok (records ++ map (scaled binsize) (filter (kept binsize q) tmp)).
Proof.
  induction tmp as [|rec rest IH]; intros records; cbn [emit_all filter map].
  - rewrite app_nil_r. reflexivity.
  - unfold emit. change (negb (String.eqb "NONE" "NONE")) with false.
    cbv iota. cbn [bind]. unfold kept at 1.
    destruct (in_region _ _ _ _); cbn [bind]; rewrite IH.
    + rewrite <- app_assoc. reflexivity.
    + rewrite app_nil_r. reflexivity.
Qed.

Lemma straw_blocks_none_records (binsize : Z) (q : query) :
  forall blocks tmps records,
    Forall2 (fun b tmp => readBlock inflate (q_file q) (q_version q)
                            (block_entry (q_blockMap q) b) = Ok tmp) blocks tmps ->
    straw_blocks inflate "NONE" binsize q blocks records
    = Ok (records ++ map (scaled binsize)
                       (filter (kept binsize q) (List.concat tmps))).
Proof.
  intros blocks tmps records H. revert records.
  induction H as [|b tmp blocks tmps Hb Hrest IH]; intros records;
    cbn [straw_blocks List.concat].
  - rewrite app_nil_r. reflexivity.
  - rewrite Hb. cbn [bind]. rewrite emit_all_none_records. cbn [bind].
    rewrite IH, filter_app, map_app, app_assoc. reflexivity.
Qed.

Lemma vec_get_nth {A : Type} (v : list A) (i : Z) (d : A) :
  vec_get v i
  = if (0 <=? i) && (i <? Z.of_nat (List.length v))
    then Ok (nth (Z.to_nat i) v d) else Fault OutOfBounds.
Proof.
  unfold vec_get. destruct (Z.ltb_spec i 0) as [Hneg|Hpos].
  - replace (0 <=? i) with false by (symmetry; apply Z.leb_gt; exact Hneg).
    reflexivity.
  - replace (0 <=? i) with true by (symmetry; apply Z.leb_le; exact Hpos).
    cbn [andb]. destruct (Z.ltb_spec i (Z.of_nat (List.length v))) as [Hin|Hout].
    + destruct (nth_error v (Z.to_nat i)) as [x|] eqn:E.
      * rewrite (nth_error_nth v (Z.to_nat i) d E). reflexivity.
      * apply nth_error_None in E. lia.
    + replace (nth_error v (Z.to_nat i)) with (@None A); [reflexivity|].
      symmetry. apply nth_error_None. lia.
Qed.

Lemma normalized_defined (binsize : Z) (q : query) (rec : contactRecord) :
  normalized (c1Norm q) (c2Norm q) rec
  = if norm_defined q rec then Ok (counts (normalized_scaled binsize q rec))
    else Fault OutOfBounds.
Proof.
  unfold normalized, norm_defined.
  rewrite (vec_get_nth (c1Norm q) (binX rec) (S754_zero false)).
  rewrite (vec_get_nth (c2Norm q) (binY rec) (S754_zero false)).
  destruct ((0 <=? binX rec) && (binX rec <? Z.of_nat (List.length (c1Norm q))));
    cbn [bind andb]; [|reflexivity].
  destruct ((0 <=? binY rec) && (binY rec <? Z.of_nat (List.length (c2Norm q))));
    reflexivity.
Qed.

Lemma emit_all_normalized (norm : string) (binsize : Z) (q : query) :
  norm <> "NONE"%string ->
  forall tmp records,
    emit_all norm binsize q tmp records
    = if forallb (norm_defined q) tmp
      then Ok (records ++ map (normalized_scaled binsize q)
                            (filter (kept binsize q) tmp))
      else Fault OutOfBounds.
Proof.
  intros Hn. apply String.eqb_neq in Hn.
  induction tmp as [|rec rest IH]; intros records; cbn [emit_all forallb filter map].
  - rewrite app_nil_r. reflexivity.
  - unfold emit. rewrite Hn. cbn [negb].
    rewrite (normalized_defined binsize q rec).
    destruct (norm_defined q rec); cbn [bind andb]; [|reflexivity].
    unfold kept at 1.
    destruct (in_region _ _ _ _); cbn [bind]; rewrite IH;
      destruct (forallb (norm_defined q) rest); try reflexivity.
    + rewrite <- app_assoc. reflexivity.
    + rewrite app_nil_r. reflexivity.
Qed.

Lemma straw_blocks_normalized (norm : string) (binsize : Z) (q : query) :
  norm <> "NONE"%string ->
  forall blocks tmps records,
    Forall2 (fun b tmp => readBlock inflate (q_file q) (q_version q)
                            (block_entry (q_blockMap q) b) = Ok tmp) blocks tmps ->
    straw_blocks inflate norm binsize q blocks records
    = if forallb (norm_defined q) (List.concat tmps)
      then Ok (records ++ map (normalized_scaled binsize q)
                            (filter (kept binsize q) (List.concat tmps)))
      else Fault OutOfBounds.
Proof.
  intros Hn blocks tmps records H. revert records.
  induction H as [|b tmp blocks tmps Hb Hrest IH]; intros records;
    cbn [straw_blocks List.concat forallb].
  - rewrite app_nil_r. reflexivity.
  - rewrite Hb. cbn [bind]. rewrite (emit_all_normalized norm binsize q Hn).
    rewrite forallb_app.
    destruct (forallb (norm_defined q) tmp); cbn [bind andb]; [|reflexivity].
    rewrite IH.
    destruct (forallb (norm_defined q) (List.concat tmps)); [|reflexivity].
    rewrite filter_app, map_app, app_assoc. reflexivity.
Qed.

(** C3.  For a raw record [(bx, by, c)] of a block, [straw] appends one
    record with the coordinates [x = bx * binsize], [y = by * binsize] when
    [x] and [y] lie in the requested region, or, for an intrachromosomal
    query, in the mirrored region; it appends nothing otherwise, and never
    more than one record.  So the result of [straw] is made of the records
    of the selected blocks that pass this test, each once and in the order
    of the blocks: the coordinates that [straw] returns are those of these
    records, and every record that [straw] returns lies in the region or,
    for an intrachromosomal query, in its mirror image.
    [q] is the state of the query when it reaches the loop over the blocks
    and [tmps] are the vectors of the selected blocks; with a norm other
    than "NONE" the division is computed first, and an index outside a
    normalization vector is the one other outcome. *)
Theorem region_filter :
  forall (norm : string) (binsize : Z) (q : query) (o0 o1 o2 o3 : Z),
    origRegionIndices q = (o0, o1, o2, o3) ->
    let inside (x y : Z) :=
      (o0 <= x <= o1 /\ o2 <= y <= o3) \/
      (q_intra q = true /\ o0 <= y <= o1 /\ o2 <= x <= o3) in
    let position (rec : contactRecord) :=
      (int_mul (binX rec) binsize, int_mul (binY rec) binsize) in
    (forall rec : contactRecord,
        let x := int_mul (binX rec) binsize in
        let y := int_mul (binY rec) binsize in
        (kept binsize q rec = true <-> inside x y) /\
        match emit norm binsize q rec with
        | Ok out =>
            (inside x y ->
             exists c, out = [{| binX := x; binY := y; counts := c |}] /\
                       (norm = "NONE"%string -> c = counts rec)) /\
            (~ inside x y -> out = [])
        | Fault f => norm <> "NONE"%string /\ f = OutOfBounds
        end) /\
    (forall (fs : string -> option (list byte)) (version : Z)
            (fname chr1loc chr2loc unit : string)
            (tmps : list (list contactRecord)),
        query_setup fs version norm fname chr1loc chr2loc unit binsize = Ok (Ready q) ->
        Forall2 (fun b tmp => readBlock inflate (q_file q) (q_version q)
                                (block_entry (q_blockMap q) b) = Ok tmp)
                (blockNumbers q) tmps ->
        let selected := filter (kept binsize q) (List.concat tmps) in
        straw inflate fs version norm fname chr1loc chr2loc unit binsize
          = (if String.eqb norm "NONE"
             then Ok (q_log q, map (scaled binsize) selected)
             else if forallb (norm_defined q) (List.concat tmps)
                  then Ok (q_log q, map (normalized_scaled binsize q) selected)
                  else Fault OutOfBounds) /\
        (forall log recs,
           straw inflate fs version norm fname chr1loc chr2loc unit binsize
             = Ok (log, recs) ->
           map coords recs = map position selected)) /\
    (forall (fs : string -> option (list byte)) (version : Z)
            (fname chr1loc chr2loc unit : string)
            (log : list string) (recs : list contactRecord),
        query_setup fs version norm fname chr1loc chr2loc unit binsize = Ok (Ready q) ->
        straw inflate fs version norm fname chr1loc chr2loc unit binsize = Ok (log, recs) ->
        forall r, In r recs -> inside (binX r) (binY r)).
Proof.
  intros norm binsize q o0 o1 o2 o3 Horig inside position.
  assert (Hemit : forall rec,
    match emit norm binsize q rec with
    | Ok out =>
        (inside (int_mul (binX rec) binsize) (int_mul (binY rec) binsize) ->
         exists c, out = [{| binX := int_mul (binX rec) binsize;
                             binY := int_mul (binY rec) binsize; counts := c |}] /\
                   (norm = "NONE"%string -> c = counts rec)) /\
        (~ inside (int_mul (binX rec) binsize) (int_mul (binY rec) binsize) -> out = [])
    | Fault f => norm <> "NONE"%string /\ f = OutOfBounds
    end).
  { intros rec. unfold emit. rewrite Horig.
    pose proof (in_region_spec o0 o1 o2 o3 (q_intra q)
                  (int_mul (binX rec) binsize) (int_mul (binY rec) binsize)) as Hspec.
    fold (inside (int_mul (binX rec) binsize) (int_mul (binY rec) binsize)) in Hspec.
    destruct (String.eqb norm "NONE") eqn:Hn; cbn [negb bind].
    - apply String.eqb_eq in Hn.
      destruct (in_region _ _ _ _).
      + split; [intros _; eexists; split; [reflexivity|reflexivity]|].
        intros Hout. exfalso. apply Hout, Hspec. reflexivity.
      + split; [|reflexivity]. intros Hin. apply Hspec in Hin. discriminate.
    - apply String.eqb_neq in Hn. unfold normalized, vec_get.
      destruct (binX rec <? 0); cbn [bind]; [split; [exact Hn|reflexivity]|].
      destruct (nth_error (c1Norm q) _); cbn [bind]; [|split; [exact Hn|reflexivity]].
      destruct (binY rec <? 0); cbn [bind]; [split; [exact Hn|reflexivity]|].
      destruct (nth_error (c2Norm q) _); cbn [bind]; [|split; [exact Hn|reflexivity]].
      destruct (in_region _ _ _ _).
      + split; [intros _; eexists; split; [reflexivity|intros E; contradiction]|].
        intros Hout. exfalso. apply Hout, Hspec. reflexivity.
      + split; [|reflexivity]. intros Hin. apply Hspec in Hin. discriminate. }
  assert (Hkept : forall rec,
    kept binsize q rec = true
    <-> inside (int_mul (binX rec) binsize) (int_mul (binY rec) binsize)).
  { intros rec. unfold kept. rewrite Horig. apply in_region_spec. }
  split; [intros rec; split; [apply Hkept|apply Hemit]|].
  split.
  - intros fs version fname chr1loc chr2loc unit tmps Hq Hblocks selected.
    assert (Hstraw :
      straw inflate fs version norm fname chr1loc chr2loc unit binsize
      = (if String.eqb norm "NONE"
         then Ok (q_log q, map (scaled binsize) selected)
         else if forallb (norm_defined q) (List.concat tmps)
              then Ok (q_log q, map (normalized_scaled binsize q) selected)
              else Fault OutOfBounds)).
    { unfold straw. rewrite Hq. cbn [bind straw_result].
      destruct (String.eqb norm "NONE") eqn:Hn.
      - apply String.eqb_eq in Hn. subst norm.
        rewrite (straw_blocks_none_records binsize q (blockNumbers q) tmps [] Hblocks).
        reflexivity.
      - apply String.eqb_neq in Hn.
        rewrite (straw_blocks_normalized norm binsize q Hn (blockNumbers q) tmps []
                   Hblocks).
        destruct (forallb (norm_defined q) (List.concat tmps)); reflexivity. }
    split; [exact Hstraw|].
    intros log recs Hrecs. rewrite Hstraw in Hrecs.
    destruct (String.eqb norm "NONE").
    + injection Hrecs as _ <-. rewrite map_map. reflexivity.
    + destruct (forallb (norm_defined q) (List.concat tmps)); [|discriminate].
      injection Hrecs as _ <-. rewrite map_map. reflexivity.
  - intros fs version fname chr1loc chr2loc unit log recs Hq.
    unfold straw. rewrite Hq. cbn [bind straw_result].
    destruct (straw_blocks inflate norm binsize q (blockNumbers q) []) as [records|]
      eqn:Hrecs; [|discriminate].
    cbn [bind]. intros [= _ <-].
    apply (straw_blocks_In norm binsize q (fun r => inside (binX r) (binY r)))
      with (blocks := blockNumbers q) (records := []); [|exact Hrecs|intros r []].
    intros rec out r Hout Hr. specialize (Hemit rec). rewrite Hout in Hemit.
    destruct Hemit as [Hin Hnot].
    destruct (in_region (o0, o1, o2, o3) (q_intra q)
                (int_mul (binX rec) binsize) (int_mul (binY rec) binsize)) eqn:E.
    + apply in_region_spec in E. destruct (Hin E) as (c & -> & _).
      destruct Hr as [<-|[]]. exact E.
    + rewrite Hnot in Hr; [destruct Hr|].
      intros Hc. apply in_region_spec in Hc. congruence.
Qed.

(** *** The count of [getSize] *)

Lemma wrap_add_l (a b : Z) : wrap 32 (wrap 32 a + b) = wrap 32 (a + b).
Proof.
  unfold wrap. f_equal.
  replace ((a + 2 ^ (32 - 1)) mod 2 ^ 32 - 2 ^ (32 - 1) + b + 2 ^ (32 - 1))
    with ((a + 2 ^ (32 - 1)) mod 2 ^ 32 + b) by lia.
  rewrite Zplus_mod_idemp_l. f_equal. lia.
Qed.

(** [readSize] returns the size of the vector that [readBlock] returns. *)
Lemma readBlock_readSize (file : list byte) (version : Z) (idx : indexEntry)
    (tmp : list contactRecord) :
  readBlock inflate file version idx = Ok tmp ->
  readSize inflate file idx = Ok (Z.of_nat (List.length tmp)).
Proof.
  unfold readBlock, readSize. destruct (size idx =? 0).
  - intros [= <-]. reflexivity.
  - destruct (inflate_block inflate file idx) as [bufferin|]; [|discriminate].
    cbn [bind]. intros H. apply decode_block_length in H.
    destruct H as (n & rest & -> & _ & Hlen). cbn [bind]. rewrite Hlen. reflexivity.
Qed.

Lemma emit_length (norm : string) (binsize : Z) (q : query) (rec : contactRecord)
    (out : list contactRecord) :
  emit norm binsize q rec = Ok out -> (List.length out <= 1)%nat.
Proof.
  unfold emit.
  destruct (if negb (String.eqb norm "NONE") then _ else _) as [c|]; [|discriminate].
  cbn [bind]. destruct (in_region _ _ _ _); intros [= <-]; simpl; lia.
Qed.

Lemma emit_all_length (norm : string) (binsize : Z) (q : query) :
  forall tmp_records records recs,
    emit_all norm binsize q tmp_records records = Ok recs ->
    (List.length recs <= List.length records + List.length tmp_records)%nat.
Proof.
  induction tmp_records as [|rec rest IH]; intros records recs; simpl.
  - intros [= <-]. lia.
  - destruct (emit norm binsize q rec) as [out|] eqn:E; [|discriminate]. cbn [bind].
    intros H. apply IH in H. apply emit_length in E.
    rewrite length_app in H. lia.
Qed.

(** The vector of a block that [readBlock] returns has the size that the
    field [nRecords] of the block gives. *)
Lemma readBlock_leading (file : list byte) (version : Z) (idx : indexEntry)
    (tmp : list contactRecord) :
  readBlock inflate file version idx = Ok tmp ->
  leading_nRecords inflate file idx (Z.of_nat (List.length tmp)).
Proof.
  unfold readBlock, leading_nRecords. destruct (size idx =? 0).
  - intros [= <-]. reflexivity.
  - destruct (inflate_block inflate file idx) as [bufferin|]; [|discriminate].
    cbn [bind]. intros H. apply decode_block_length in H.
    destruct H as (n & rest & Hr & _ & Hlen).
    exists bufferin, rest. split; [reflexivity|]. rewrite Hlen. exact Hr.
Qed.

Lemma straw_size_blocks (norm : string) (binsize : Z) (q : query) :
  forall blocks records recs c0,
    straw_blocks inflate norm binsize q blocks records = Ok recs ->
    exists ns,
      Forall2 (leading_nRecords inflate (q_file q))
              (map (block_entry (q_blockMap q)) blocks) ns /\
      size_blocks inflate q blocks (wrap 32 c0) = Ok (wrap 32 (c0 + sum_Z ns)) /\
      0 <= sum_Z ns /\
      Z.of_nat (List.length recs) <= Z.of_nat (List.length records) + sum_Z ns.
Proof.
  induction blocks as [|b rest IH]; intros records recs c0; simpl.
  - intros [= <-]. exists []. rewrite Z.add_0_r.
    split; [constructor|]. split; [reflexivity|]. simpl. lia.
  - destruct (readBlock inflate _ _ _) as [tmp|] eqn:Hb; [|discriminate]. cbn [bind].
    pose proof (readBlock_leading _ _ _ _ Hb) as Hlead.
    apply readBlock_readSize in Hb. rewrite Hb. cbn [bind].
    destruct (emit_all norm binsize q tmp records) as [records'|] eqn:E; [|discriminate].
    cbn [bind]. intros H. apply emit_all_length in E.
    unfold int_add. rewrite wrap_add_l.
    destruct (IH _ _ (c0 + Z.of_nat (List.length tmp)) H) as (ns & Hns & Hs & Ht & Hlen).
    exists (Z.of_nat (List.length tmp) :: ns). cbn [sum_Z fold_right].
    fold (sum_Z ns). rewrite Z.add_assoc.
    split; [constructor; assumption|]. split; [exact Hs|]. split; lia.
Qed.

(** C1, as the code has it.  Whenever [straw] returns, the selected blocks
    have each a field [nRecords], [getSize] returns on the same parameters
    the sum of these fields as an [int] (the sum itself when it is at most
    [INT_MAX]), and the number of records that [straw] returns is at most
    that sum: [straw] drops the records of these blocks that lie outside the
    requested region, [getSize] counts them.  After an early return there is
    no block, [straw] returns no record and [getSize] returns 0. *)
Theorem straw_length_le_getSize :
  forall (fs : string -> option (list byte)) (version : Z)
         (norm fname chr1loc chr2loc unit : string) (binsize : Z)
         (log : list string) (recs : list contactRecord),
    straw inflate fs version norm fname chr1loc chr2loc unit binsize = Ok (log, recs) ->
    exists (s : setup) (ns : list Z),
      query_setup fs version norm fname chr1loc chr2loc unit binsize = Ok s /\
      Forall2 (leading_nRecords inflate (setup_file s)) (selected_blocks s) ns /\
      getSize inflate fs version norm fname chr1loc chr2loc unit binsize
        = Ok (log, wrap 32 (sum_Z ns)) /\
      Z.of_nat (List.length recs) <= sum_Z ns /\
      (sum_Z ns <= INT_MAX ->
       getSize inflate fs version norm fname chr1loc chr2loc unit binsize
         = Ok (log, sum_Z ns)).
Proof.
  intros fs version norm fname chr1loc chr2loc unit binsize log recs.
  unfold straw, getSize, straw_result, getSize_result.
  destruct (query_setup fs version norm fname chr1loc chr2loc unit binsize)
    as [[elog|q]|]; cbn [bind]; [| |discriminate].
  - intros [= <- <-]. exists (Exit elog), []. split; [reflexivity|].
    split; [constructor|]. split; [reflexivity|]. split; [simpl; lia|].
    intros _. reflexivity.
  - destruct (straw_blocks inflate norm binsize q (blockNumbers q) []) as [records|] eqn:E;
      [|discriminate]. cbn [bind]. intros [= <- <-].
    destruct (straw_size_blocks norm binsize q _ _ _ 0 E) as (ns & Hns & Hs & Ht & Hlen).
    change (wrap 32 0) with 0 in Hs. rewrite Hs. cbn [bind].
    exists (Ready q), ns. split; [reflexivity|]. split; [exact Hns|].
    split; [reflexivity|]. split; [simpl in Hlen; lia|].
    intros Hmax. rewrite Z.add_0_l.
    rewrite wrap_small by (unfold is_int, INT_MIN; lia). reflexivity.
Qed.

(** *** Exchanging the two regions *)

Lemma in_region_swap (a b c d x y : Z) :
  in_region (a, b, c, d) true x y = in_region (c, d, a, b) true x y.
Proof.
  unfold in_region.
  destruct (a <=? x), (x <=? b), (c <=? y), (y <=? d),
           (a <=? y), (y <=? b), (c <=? x), (x <=? d); reflexivity.
Qed.

Lemma int_div_fault (a b : Z) (f : fault) :
  int_div a b = Fault f -> f = DivisionByZero.
Proof.
  unfold int_div. destruct (_ || _); [intros [= <-]; reflexivity|discriminate].
Qed.

(** For an intrachromosomal query the block selector does not depend on
    which of the two regions comes first. *)
Lemma getBlockNumbers_swap (r0 r1 r2 r3 bbc bcc : Z) :
  getBlockNumbersForRegionFromBinPosition (r0, r1, r2, r3) bbc bcc true
  = getBlockNumbersForRegionFromBinPosition (r2, r3, r0, r1) bbc bcc true.
Proof.
  unfold getBlockNumbersForRegionFromBinPosition.
  destruct (int_div r0 bbc) as [c1|f1] eqn:E1;
  destruct (int_div (int_add r1 1) bbc) as [c2|f2] eqn:E2;
  destruct (int_div r2 bbc) as [w1|f3] eqn:E3;
  destruct (int_div (int_add r3 1) bbc) as [w2|f4] eqn:E4;
  cbn [bind];
  repeat match goal with
  | H : int_div _ _ = Fault _ |- _ => apply int_div_fault in H; subst
  end; try reflexivity.
  destruct (Z.eq_dec w2 INT_MAX) as [Hw|Hw]; destruct (Z.eq_dec c2 INT_MAX) as [Hc|Hc].
  - rewrite (block_loops_no_end bcc w1 w2 c1 c2) by (left; exact Hw).
    rewrite (block_loops_no_end bcc c1 c2 w1 w2) by (left; exact Hc). reflexivity.
  - rewrite (block_loops_no_end bcc w1 w2 c1 c2) by (left; exact Hw). cbn [bind].
    unfold block_loops at 1. unfold loop_range at 1.
    replace (c2 =? INT_MAX) with false by (symmetry; apply Z.eqb_neq; exact Hc).
    cbn [bind].
    destruct (int_range c1 c2); cbn [bind].
    + symmetry. apply block_loops_no_end. left. exact Hw.
    + unfold loop_range.
      replace (w2 =? INT_MAX) with true by (symmetry; apply Z.eqb_eq; exact Hw).
      reflexivity.
  - rewrite (block_loops_no_end bcc c1 c2 w1 w2 []) by (left; exact Hc). cbn [bind].
    unfold block_loops at 1. unfold loop_range at 1.
    replace (w2 =? INT_MAX) with false by (symmetry; apply Z.eqb_neq; exact Hw).
    cbn [bind].
    destruct (int_range w1 w2); cbn [bind].
    + apply block_loops_no_end. left. exact Hc.
    + unfold loop_range.
      replace (c2 =? INT_MAX) with true by (symmetry; apply Z.eqb_eq; exact Hc).
      reflexivity.
  - rewrite !block_loops_ok by assumption. cbn [bind].
    rewrite !block_loops_ok by assumption.
    f_equal. apply sorted_lt_ext.
    + repeat apply insert_blocks_sorted. constructor.
    + repeat apply insert_blocks_sorted. constructor.
    + intros x. rewrite !insert_blocks_In. simpl. tauto.
Qed.

Lemma emit_swap (norm : string) (binsize : Z) (q q' : query) (a b c d : Z) :
  q_intra q = true -> q_intra q' = true ->
  origRegionIndices q = (a, b, c, d) -> origRegionIndices q' = (c, d, a, b) ->
  c1Norm q' = c1Norm q -> c2Norm q' = c2Norm q ->
  forall rec, emit norm binsize q' rec = emit norm binsize q rec.
Proof.
  intros Hi Hi' Ho Ho' H1 H2 rec. unfold emit.
  rewrite Hi, Hi', Ho, Ho', H1, H2, in_region_swap. reflexivity.
Qed.

Lemma emit_all_ext (norm : string) (binsize : Z) (q q' : query) :
  (forall rec, emit norm binsize q' rec = emit norm binsize q rec) ->
  forall tmp records,
    emit_all norm binsize q' tmp records = emit_all norm binsize q tmp records.
Proof.
  intros He. induction tmp as [|rec rest IH]; intros records; simpl; [reflexivity|].
  rewrite He. destruct (emit norm binsize q rec); cbn [bind]; [apply IH|reflexivity].
Qed.

Lemma straw_blocks_ext (norm : string) (binsize : Z) (q q' : query) :
  (forall rec, emit norm binsize q' rec = emit norm binsize q rec) ->
  q_file q' = q_file q -> q_version q' = q_version q -> q_blockMap q' = q_blockMap q ->
  forall blocks records,
    straw_blocks inflate norm binsize q' blocks records
    = straw_blocks inflate norm binsize q blocks records.
Proof.
  intros He Hf Hv Hm. induction blocks as [|b rest IH]; intros records; simpl;
    [reflexivity|].
  rewrite Hf, Hv, Hm.
  destruct (readBlock inflate _ _ _) as [tmp|]; cbn [bind]; [|reflexivity].
  rewrite (emit_all_ext norm binsize q q' He).
  destruct (emit_all norm binsize q tmp records); cbn [bind]; [apply IH|reflexivity].
Qed.

(** With both regions on one chromosome, the rest of the query yields the
    same result whichever region comes first. *)
Lemma query_blocks_swap (file : list byte) (version master : Z) (log : list string)
    (norm unit : string) (binsize c : Z) (a b c' d r0 r1 r2 r3 : Z) :
  (s <- query_blocks file version master log norm unit binsize c c
          (c', d, a, b) (r2, r3, r0, r1) ;; straw_result inflate norm binsize s)
  = (s <- query_blocks file version master log norm unit binsize c c
            (a, b, c', d) (r0, r1, r2, r3) ;; straw_result inflate norm binsize s).
Proof.
  unfold query_blocks.
  destruct (seekg file master) as [fin|]; cbn [bind]; [|reflexivity].
  destruct (readFooter fin master c c norm unit binsize) as [ft|]; cbn [bind];
    [|reflexivity].
  destruct (negb (foundFooter ft)); cbn [bind]; [reflexivity|].
  destruct (if negb (String.eqb norm "NONE") then _ else _) as [[n1 n2]|];
    cbn [bind]; [|reflexivity].
  destruct (assigned (myFilePos ft)) as [pos|]; cbn [bind]; [|reflexivity].
  destruct (readMatrix file pos unit binsize) as [[[blockMap counts] mlog]|];
    cbn [bind]; [|reflexivity].
  destruct (assigned counts) as [[bbc bcc]|]; cbn [bind]; [|reflexivity].
  rewrite Z.eqb_refl.
  rewrite (getBlockNumbers_swap r2 r3 r0 r1).
  destruct (getBlockNumbersForRegionFromBinPosition (r0, r1, r2, r3) bbc bcc true)
    as [blocks|]; cbn [bind]; [|reflexivity].
  unfold straw_result. cbn [blockNumbers q_log].
  match goal with
  | |- bind (straw_blocks _ _ _ ?q' _ _) _ = bind (straw_blocks _ _ _ ?q _ _) _ =>
      rewrite (straw_blocks_ext norm binsize q q')
  end; try reflexivity.
  apply (emit_swap norm binsize _ _ a b c' d); reflexivity.
Qed.

Lemma query_region_swap (file : list byte) (version master : Z) (log : list string)
    (norm unit : string) (binsize : Z) (chr1 chr2 : chromosome) (a b c d : Z) :
  (s <- query_region file version master log norm unit binsize chr2 chr1 c d a b ;;
   straw_result inflate norm binsize s)
  = (s <- query_region file version master log norm unit binsize chr1 chr2 a b c d ;;
     straw_result inflate norm binsize s).
Proof.
  unfold query_region, region_indices.
  rewrite (Z.min_comm (index chr2)), (Z.max_comm (index chr2)).
  destruct (Z.compare_spec (index chr1) (index chr2)) as [Heq|Hlt|Hgt].
  - rewrite Heq, Z.min_id, Z.max_id.
    replace (index chr2 >? index chr2) with false
      by (symmetry; rewrite Z.gtb_ltb; apply Z.ltb_irrefl).
    destruct (int_div a binsize) as [ra|fa] eqn:Ea;
    destruct (int_div b binsize) as [rb|fb] eqn:Eb;
    destruct (int_div c binsize) as [rc|fc] eqn:Ec;
    destruct (int_div d binsize) as [rd|fd] eqn:Ed;
    cbn [bind];
    repeat match goal with
    | H : int_div _ _ = Fault _ |- _ => apply int_div_fault in H; subst
    end; try reflexivity.
    apply query_blocks_swap.
  - replace (index chr1 >? index chr2) with false
      by (symmetry; rewrite Z.gtb_ltb; apply Z.ltb_ge; lia).
    replace (index chr2 >? index chr1) with true
      by (symmetry; rewrite Z.gtb_ltb; apply Z.ltb_lt; lia).
    reflexivity.
  - replace (index chr1 >? index chr2) with true
      by (symmetry; rewrite Z.gtb_ltb; apply Z.ltb_lt; lia).
    replace (index chr2 >? index chr1) with false
      by (symmetry; rewrite Z.gtb_ltb; apply Z.ltb_ge; lia).
    reflexivity.
Qed.

(** C9, as the code has it.  When [straw] returns with [chr1loc] and
    [chr2loc] in either order, it returns the same records both times, in
    the same order and with the same coordinates: [binX] is always the
    position on the chromosome of lower index; nothing is transposed. *)
Theorem straw_swap_same_records :
  forall (fs : string -> option (list byte)) (version : Z)
         (norm fname chr1loc chr2loc unit : string) (binsize : Z)
         (log log' : list string) (recs recs' : list contactRecord),
    straw inflate fs version norm fname chr1loc chr2loc unit binsize = Ok (log, recs) ->
    straw inflate fs version norm fname chr2loc chr1loc unit binsize = Ok (log', recs') ->
    recs' = recs.
Proof.
  intros fs version norm fname chr1loc chr2loc unit binsize log log' recs recs'.
  unfold straw, query_setup.
  destruct (negb (String.eqb unit "BP" || String.eqb unit "FRAG")).
  { cbn. intros [= _ <-] [= _ <-]. reflexivity. }
  destruct (String.prefix "http" fname); [discriminate|].
  destruct (fs fname) as [file|].
  2:{ cbn. intros [= _ <-] [= _ <-]. reflexivity. }
  destruct (readHeader file version) as [[[[[cmap master] ver] hlog] fin]|];
    cbn [bind]; [|discriminate].
  destruct (sgetline (Some chr1loc)) as [[ok1 chr1] ss1].
  destruct (sgetline (Some chr2loc)) as [[ok2 chr2] ss2].
  destruct (map_find String.eqb chr1 cmap) as [chrom1|];
  destruct (map_find String.eqb chr2 cmap) as [chrom2|].
  - destruct (parse_range ss1 chrom1) as [[a b]|]; cbn [bind]; [|discriminate].
    destruct (parse_range ss2 chrom2) as [[c d]|]; cbn [bind]; [|discriminate].
    rewrite (query_region_swap file ver master hlog norm unit binsize chrom1 chrom2 a b c d).
    intros H1 H2. rewrite H1 in H2. congruence.
  - destruct (parse_range ss1 chrom1) as [[a b]|]; cbn [bind]; [|discriminate].
    intros [= _ <-] [= _ <-]. reflexivity.
  - cbn [bind straw_result]. intros [= _ <-].
    destruct (parse_range ss2 chrom2) as [[c d]|]; cbn [bind]; [|discriminate].
    intros [= _ <-]. reflexivity.
  - cbn. intros [= _ <-] [= _ <-]. reflexivity.
Qed.

(** *** The cells of a dense block *)

Lemma type2_records_In (xoff yoff useShort w : Z) (cells : list Z) :
  forall (i0 : Z) (r : contactRecord),
    In r (type2_records i0 xoff yoff useShort w cells) <->
    exists (i : nat) (c : Z) (cnt : spec_float),
      nth_error cells i = Some c /\ cell_count useShort c = Some cnt /\
      r = {| binX := int_add xoff ((i0 + Z.of_nat i) mod w);
             binY := int_add yoff ((i0 + Z.of_nat i) / w); counts := cnt |}.
Proof.
  induction cells as [|c cells IH]; intros i0 r; cbn [type2_records].
  - split; [intros []|]. intros ([|i] & c & cnt & H & _); discriminate.
  - rewrite in_app_iff, IH. split.
    + intros [H|(i & c' & cnt & Hn & Hc & ->)].
      * destruct (cell_count useShort c) as [cnt|] eqn:Hc; [|destruct H].
        destruct H as [<-|[]]. exists 0%nat, c, cnt.
        rewrite Z.add_0_r. repeat split. exact Hc.
      * exists (S i), c', cnt. repeat split; [exact Hn|exact Hc|].
        rewrite Nat2Z.inj_succ.
        replace (i0 + Z.succ (Z.of_nat i)) with (i0 + 1 + Z.of_nat i) by lia.
        reflexivity.
    + intros ([|i] & c' & cnt & Hn & Hc & ->).
      * left. injection Hn as <-. rewrite Hc, Z.add_0_r. left. reflexivity.
      * right. exists i, c', cnt. repeat split; [exact Hn|exact Hc|].
        rewrite Nat2Z.inj_succ.
        replace (i0 + Z.succ (Z.of_nat i)) with (i0 + 1 + Z.of_nat i) by lia.
        reflexivity.
Qed.

Lemma readBlock_type2 (file : list byte) (version : Z) (idx : indexEntry)
    (nRecords xoff yoff useShort w : Z) (cells : list Z) (rest : list byte) :
  size idx <> 0 ->
  inflate_block inflate file idx
    = Ok (enc_block_type2 nRecords xoff yoff useShort w cells ++ rest) ->
  7 <= version ->
  is_int nRecords -> is_int xoff -> is_int yoff -> - 128 <= useShort < 128 ->
  0 < w -> is_short w -> Forall (cell_ok useShort) cells ->
  Z.of_nat (List.length cells) <= INT_MAX ->
  Z.of_nat (List.length (type2_records 0 xoff yoff useShort w cells)) <= nRecords ->
  readBlock inflate file version idx
  = Ok (type2_records 0 xoff yoff useShort w cells
          ++ repeat zero_record
               (Z.to_nat nRecords
                - List.length (type2_records 0 xoff yoff useShort w cells))).
Proof.
  intros Hsize Hinf Hv HnR Hx Hy Hu Hw Hs Hcells Hlen Hkept.
  unfold readBlock. apply Z.eqb_neq in Hsize. rewrite Hsize, Hinf. cbn [bind].
  apply decode_type2; assumption.
Qed.

(** C8.  In a type 2 block of version 7 or later, a cell that reads as the
    [short] -32768 (when [useShort == 0]) or as a NaN [float] (otherwise)
    writes no record; every other cell [i] writes the record with
    [binX = binXOffset + i mod w], [binY = binYOffset + i / w] and its
    count.  The vector that [readBlock] hands to the query starts with the
    records of these cells, in the order of the cells, and consists of
    them when [nRecords] is their number; the loop of [straw] then filters
    these records and no other for this block. *)
Theorem type2_block_cells :
  forall (file : list byte) (version : Z) (idx : indexEntry)
         (nRecords xoff yoff useShort w : Z) (cells : list Z) (rest : list byte),
    size idx <> 0 ->
    inflate_block inflate file idx
      = Ok (enc_block_type2 nRecords xoff yoff useShort w cells ++ rest) ->
    7 <= version ->
    is_int nRecords -> is_int xoff -> is_int yoff -> - 128 <= useShort < 128 ->
    0 < w -> is_short w -> Forall (cell_ok useShort) cells ->
    Z.of_nat (List.length cells) <= INT_MAX ->
    let kept := type2_records 0 xoff yoff useShort w cells in
    Z.of_nat (List.length kept) <= nRecords ->
    (forall c, cell_count useShort c = None <->
               if useShort =? 0 then c = -32768
               else isnan (decode_ieee 23 8 c) = true) /\
    (forall r, In r kept <->
       exists (i : nat) (c : Z) (cnt : spec_float),
         nth_error cells i = Some c /\ cell_count useShort c = Some cnt /\
         r = {| binX := int_add xoff (Z.of_nat i mod w);
                binY := int_add yoff (Z.of_nat i / w); counts := cnt |}) /\
    (exists v,
       readBlock inflate file version idx = Ok v /\
       firstn (List.length kept) v = kept /\
       (nRecords = Z.of_nat (List.length kept) -> v = kept)) /\
    (nRecords = Z.of_nat (List.length kept) ->
     forall (norm : string) (binsize : Z) (q : query) (b : Z) (blocks : list Z)
            (records : list contactRecord),
       q_file q = file -> q_version q = version ->
       block_entry (q_blockMap q) b = idx ->
       straw_blocks inflate norm binsize q (b :: blocks) records
       = (records' <- emit_all norm binsize q kept records ;;
          straw_blocks inflate norm binsize q blocks records')).
Proof.
  intros file version idx nRecords xoff yoff useShort w cells rest
         Hsize Hinf Hv HnR Hx Hy Hu Hw Hs Hcells Hlen kept Hkept.
  assert (Hread : readBlock inflate file version idx
                  = Ok (kept ++ repeat zero_record (Z.to_nat nRecords - List.length kept))).
  { apply (readBlock_type2 file version idx nRecords xoff yoff useShort w cells rest);
      assumption. }
  split; [|split; [|split]].
  - intros c. unfold cell_count. destruct (useShort =? 0).
    + destruct (c =? -32768) eqn:E.
      * apply Z.eqb_eq in E. tauto.
      * apply Z.eqb_neq in E. split; [discriminate|contradiction].
    + destruct (isnan (decode_ieee 23 8 c)); split; congruence.
  - intros r. apply (type2_records_In xoff yoff useShort w cells 0 r).
  - eexists. split; [exact Hread|]. split.
    + rewrite firstn_app, Nat.sub_diag, firstn_all. simpl. apply app_nil_r.
    + intros ->. rewrite Nat2Z.id, Nat.sub_diag. simpl. apply app_nil_r.
  - intros Hn norm binsize q b blocks records Hf Hver Hb.
    cbn [straw_blocks]. rewrite Hf, Hver, Hb, Hread. cbn [bind].
    rewrite Hn, Nat2Z.id, Nat.sub_diag. simpl repeat. rewrite app_nil_r. reflexivity.
Qed.

(** C10.  For a block whose index entry has a size other than 0, the
    vector that [readBlock] returns has the size [nRecords] read at the
    head of the inflated payload, whatever the number of records that were
    decoded.  In a type 2 block of version 7 or later whose cells hold
    fewer counts than [nRecords], the records of the cells come first and
    the slots left over stay value-initialised records (0, 0, 0), instead
    of being removed. *)
Theorem block_vector_size :
  forall (file : list byte) (version : Z) (idx : indexEntry),
    size idx <> 0 ->
    (forall v, readBlock inflate file version idx = Ok v ->
       exists payload nRecords rest,
         inflate_block inflate file idx = Ok payload /\
         read_int payload = Ok (nRecords, rest) /\
         Z.of_nat (List.length v) = nRecords) /\
    (forall (nRecords xoff yoff useShort w : Z) (cells : list Z) (rest : list byte),
       inflate_block inflate file idx
         = Ok (enc_block_type2 nRecords xoff yoff useShort w cells ++ rest) ->
       7 <= version ->
       is_int nRecords -> is_int xoff -> is_int yoff -> - 128 <= useShort < 128 ->
       0 < w -> is_short w -> Forall (cell_ok useShort) cells ->
       Z.of_nat (List.length cells) <= INT_MAX ->
       let kept := type2_records 0 xoff yoff useShort w cells in
       Z.of_nat (List.length kept) <= nRecords ->
       exists v,
         readBlock inflate file version idx = Ok v /\
         Z.of_nat (List.length v) = nRecords /\
         skipn (List.length kept) v
           = repeat zero_record (Z.to_nat nRecords - List.length kept)).
Proof.
  intros file version idx Hsize. split.
  - intros v. unfold readBlock.
    replace (size idx =? 0) with false by (symmetry; apply Z.eqb_neq; exact Hsize).
    destruct (inflate_block inflate file idx) as [payload|]; [|discriminate].
    cbn [bind]. intros H. apply decode_block_length in H.
    destruct H as (n & rest & Hr & _ & Hlen). exists payload, n, rest. auto.
  - intros nRecords xoff yoff useShort w cells rest
           Hinf Hv HnR Hx Hy Hu Hw Hs Hcells Hlen kept Hkept.
    eexists. split; [apply (readBlock_type2 file version idx nRecords xoff yoff
                              useShort w cells rest); assumption|].
    fold kept. split.
    + rewrite length_app, repeat_length. lia.
    + rewrite skipn_app, Nat.sub_diag, skipn_all. reflexivity.
Qed.

(** *** The lookup of the chromosome pair *)

(** C6, as the code has it.  The footer is searched for the key
    "c1_c2", [c1 <= c2] being the indices of the two chromosomes.  The loop
    runs over the whole master index and assigns [myFilePos] at every
    entry with that key, so that the position of the last such entry is
    used.  Without such an entry [readFooter] returns false; [straw] then
    returns no record and [getSize] returns 0, after the message about the
    missing map. *)
Theorem master_index_last_match :
  forall (fs : string -> option (list byte)) (file : list byte) (version0 : Z)
         (norm fname chr1loc chr2loc unit : string) (binsize : Z)
         (chromosomeMap : list (string * chromosome)) (master version : Z)
         (hlog : list string) (fin : stream) (chr1 chr2 : chromosome)
         (c1pos1 c1pos2 c2pos1 c2pos2 nBytes : Z)
         (entries : list (string * Z * Z)) (rest : list byte),
    unit = "BP"%string \/ unit = "FRAG"%string ->
    String.prefix "http" fname = false ->
    fs fname = Some file ->
    readHeader file version0 = Ok (chromosomeMap, master, version, hlog, fin) ->
    map_find String.eqb (loc_name chr1loc) chromosomeMap = Some chr1 ->
    parse_range (snd (sgetline (Some chr1loc))) chr1 = Ok (c1pos1, c1pos2) ->
    map_find String.eqb (loc_name chr2loc) chromosomeMap = Some chr2 ->
    parse_range (snd (sgetline (Some chr2loc))) chr2 = Ok (c2pos1, c2pos2) ->
    0 < binsize -> 0 <= master ->
    skipn (Z.to_nat master) file = enc_master_index nBytes entries ++ rest ->
    Forall footer_entry_ok entries -> is_int nBytes ->
    Z.of_nat (List.length entries) <= INT_MAX ->
    let c1 := Z.min (index chr1) (index chr2) in
    let c2 := Z.max (index chr1) (index chr2) in
    let key := (dec c1 ++ "_" ++ dec c2)%string in
    c1 <= c2 /\
    match readFooter (skipn (Z.to_nat master) file) master c1 c2 norm unit binsize with
    | Ok ft =>
        myFilePos ft = last_match key entries /\
        foundFooter ft = is_some (last_match key entries)
    | Fault _ => last_match key entries <> None /\ norm <> "NONE"%string
    end /\
    (last_match key entries = None ->
     straw inflate fs version0 norm fname chr1loc chr2loc unit binsize
       = Ok ((hlog ++ [msg_no_matrix key])%list, []) /\
     getSize inflate fs version0 norm fname chr1loc chr2loc unit binsize
       = Ok ((hlog ++ [msg_no_matrix key])%list, 0)).
Proof.
  intros fs file version0 norm fname chr1loc chr2loc unit binsize cmap master version
         hlog fin chr1 chr2 p1 p2 p3 p4 nBytes entries rest
         Hu Hp Hf Hh Hc1 Hr1 Hc2 Hr2 Hbin Hmaster Hfile Hes HnB Hlen c1 c2 key.
  pose proof (readFooter_master_index nBytes entries rest master c1 c2 norm unit
                binsize Hes HnB Hlen) as Hscan.
  change (footer_key c1 c2) with key in Hscan. rewrite <- Hfile in Hscan.
  split; [unfold c1, c2; lia|]. split.
  - destruct (readFooter _ master c1 c2 norm unit binsize) as [ft|f].
    + destruct Hscan as (H1 & H2 & _). split; assumption.
    + exact Hscan.
  - intros Hnone.
    assert (Hq : query_setup fs version0 norm fname chr1loc chr2loc unit binsize
                 = Ok (Exit (hlog ++ [msg_no_matrix key]))).
    { assert (Hunit : negb (String.eqb unit "BP" || String.eqb unit "FRAG") = false)
        by (destruct Hu as [-> | ->]; reflexivity).
      unfold query_setup. rewrite Hunit, Hp, Hf, Hh. cbn [bind].
      unfold loc_name in Hc1, Hc2.
      destruct (sgetline (Some chr1loc)) as [[ok1 nm1] ss1].
      destruct (sgetline (Some chr2loc)) as [[ok2 nm2] ss2].
      cbn [fst snd] in Hc1, Hc2, Hr1, Hr2.
      rewrite Hc1, Hr1. cbn [bind]. rewrite Hc2, Hr2. cbn [bind].
      unfold query_region, region_indices. rewrite !int_div_pos by exact Hbin.
      assert (Hb : forall orig ri,
        query_blocks file version master hlog norm unit binsize c1 c2 orig ri
        = Ok (Exit (hlog ++ [msg_no_matrix key]))).
      { intros orig ri. unfold query_blocks, seekg.
        replace (master <? 0) with false by (symmetry; apply Z.ltb_ge; exact Hmaster).
        cbn [bind].
        destruct (readFooter _ master c1 c2 norm unit binsize) as [ft|f].
        - destruct Hscan as (H1 & H2 & H3). rewrite Hnone in H2.
          cbn [bind]. rewrite H2, (H3 Hnone). reflexivity.
        - destruct Hscan as [Hc _]. contradiction. }
      fold c1 c2. destruct (index chr1 >? index chr2); cbn [bind]; apply Hb. }
    unfold straw, getSize. rewrite Hq. split; reflexivity.
Qed.

End Queries.

(** ** The properties on the sample files *)

Lemma block_selector_exact_witness :
  0 < 5 /\
  Z.quot (int_add 9 1) 5 < INT_MAX /\ Z.quot (int_add 14 1) 5 < INT_MAX /\
  exists blocks,
    getBlockNumbersForRegionFromBinPosition (0, 9, 10, 14) 5 4 true = Ok blocks /\
    NoDup blocks /\
    (In 8 blocks /\ In 2 blocks /\ ~ In 4 blocks).
Proof.
  assert (H0 : 0 < 5) by lia.
  assert (H1 : Z.quot (int_add 9 1) 5 < INT_MAX) by reflexivity.
  assert (H2 : Z.quot (int_add 14 1) 5 < INT_MAX) by reflexivity.
  split; [exact H0|]. split; [exact H1|]. split; [exact H2|].
  destruct (block_selector_exact 0 9 10 14 5 4 true H0 H1 H2)
    as (blocks & Hb & _ & Hnd & Hin).
  change (Z.quot 0 5) with 0 in Hin. change (Z.quot (int_add 9 1) 5) with 2 in Hin.
  change (Z.quot 10 5) with 2 in Hin. change (Z.quot (int_add 14 1) 5) with 3 in Hin.
  exists blocks. split; [exact Hb|]. split; [exact Hnd|].
  split; [|split].
  - apply Hin. left. exists 2, 0. repeat split; try lia.
  - apply Hin. right. split; [reflexivity|]. exists 0, 2. repeat split; try lia.
  - intros H3. apply Hin in H3.
    destruct H3 as [(r & c & Hr & Hc & E)|(_ & r & c & Hr & Hc & E)].
    + assert (r = 2 \/ r = 3) as [-> | ->] by lia;
        assert (c = 0 \/ c = 1 \/ c = 2) as [-> | [-> | ->]] by lia;
        discriminate E.
    + assert (r = 0 \/ r = 1 \/ r = 2) as [-> | [-> | ->]] by lia;
        assert (c = 2 \/ c = 3) as [-> | ->] by lia;
        discriminate E.
Defined.

Lemma region_filter_witness :
  origRegionIndices sample_query = (0, 15, 0, 25) /\
  query_setup sample_fs 0 "NONE" "sample.hic" "A:0:15" "B:0:25" "BP" 10
    = Ok (Ready sample_query) /\
  Forall2 (fun b tmp => readBlock inflate_stored (q_file sample_query)
                          (q_version sample_query)
                          (block_entry (q_blockMap sample_query) b) = Ok tmp)
          (blockNumbers sample_query) [sample_records] /\
  straw inflate_stored sample_fs 0 "NONE" "sample.hic" "A:0:15" "B:0:25" "BP" 10
    = Ok ([], [{| binX := 10; binY := 20; counts := float_of_short 5 |}]) /\
  kept 10 sample_query {| binX := 3; binY := 4; counts := float_of_short 7 |} = false.
Proof.
  assert (H0 : origRegionIndices sample_query = (0, 15, 0, 25)) by reflexivity.
  assert (H1 : query_setup sample_fs 0 "NONE" "sample.hic" "A:0:15" "B:0:25" "BP" 10
               = Ok (Ready sample_query)) by (vm_compute; reflexivity).
  assert (H2 : Forall2 (fun b tmp => readBlock inflate_stored (q_file sample_query)
                                       (q_version sample_query)
                                       (block_entry (q_blockMap sample_query) b) = Ok tmp)
                       (blockNumbers sample_query) [sample_records]).
  { apply Forall2_cons; [vm_compute; reflexivity | apply Forall2_nil]. }
  destruct (region_filter inflate_stored "NONE" 10 sample_query 0 15 0 25 H0)
    as (Hone & Hall & _).
  split; [exact H0|]. split; [exact H1|]. split; [exact H2|].
  split.
  - exact (proj1 (Hall sample_fs 0 "sample.hic"%string "A:0:15"%string "B:0:25"%string
                    "BP"%string [sample_records] H1 H2)).
  - destruct (kept 10 sample_query
                {| binX := 3; binY := 4; counts := float_of_short 7 |}) eqn:E;
      [|reflexivity].
    apply (proj1 (Hone {| binX := 3; binY := 4; counts := float_of_short 7 |})) in E.
    vm_compute in E. intuition discriminate.
Defined.

Lemma not_hic_rejected_witness :
  ("BP"%string = "BP"%string \/ "BP"%string = "FRAG"%string) /\
  String.prefix "http" "notes.txt" = false /\
  text_fs "notes.txt" = Some [x63; x68; x72; x31; x0a] /\
  firstn 3 [x63; x68; x72; x31; x0a] <> [x48; x49; x43] /\
  straw inflate_stored text_fs 0 "NONE" "notes.txt" "chr1:0:100" "chr1" "BP" 10
    = Ok ([msg_magic; msg_chr (loc_name "chr1:0:100")], []).
Proof.
  assert (Hu : "BP"%string = "BP"%string \/ "BP"%string = "FRAG"%string)
    by (left; reflexivity).
  assert (Hm : firstn 3 [x63; x68; x72; x31; x0a] <> [x48; x49; x43])
    by discriminate.
  split; [exact Hu|]. split; [reflexivity|]. split; [reflexivity|].
  split; [exact Hm|].
  exact (proj1 (not_hic_rejected inflate_stored text_fs [x63; x68; x72; x31; x0a] 0
                  "NONE" "notes.txt" "chr1:0:100" "chr1" "BP" 10
                  Hu eq_refl eq_refl Hm)).
Defined.

Lemma bad_unit_rejected_witness :
  "KB"%string <> "BP"%string /\ "KB"%string <> "FRAG"%string /\
  straw inflate_stored sample_fs 0 "NONE" "sample.hic" "A" "B" "KB" 10
    = Ok ([msg_unit; msg_usage], []).
Proof.
  assert (H1 : "KB"%string <> "BP"%string) by discriminate.
  assert (H2 : "KB"%string <> "FRAG"%string) by discriminate.
  split; [exact H1|]. split; [exact H2|].
  exact (proj1 (bad_unit_rejected inflate_stored sample_fs sample_fs 0
                  "NONE" "sample.hic" "A" "B" "KB" 10 H1 H2)).
Defined.

(** On the sample file the query A:0:15 x B:0:25 selects block 0, whose
    field [nRecords] is 2; one of its two records lies outside the region. *)
Lemma straw_length_le_getSize_witness :
  straw inflate_stored sample_fs 0 "NONE" "sample.hic" "A:0:15" "B:0:25" "BP" 10
    = Ok ([], [{| binX := 10; binY := 20;
                  counts := S754_finite false 10485760 (-21) |}]) /\
  Forall2 (leading_nRecords inflate_stored sample_file)
          (selected_blocks (Ready sample_query)) [2] /\
  getSize inflate_stored sample_fs 0 "NONE" "sample.hic" "A:0:15" "B:0:25" "BP" 10
    = Ok ([], 2) /\
  1 <= 2.
Proof.
  assert (H : straw inflate_stored sample_fs 0 "NONE" "sample.hic" "A:0:15" "B:0:25" "BP" 10
              = Ok ([], [{| binX := 10; binY := 20;
                            counts := S754_finite false 10485760 (-21) |}]))
    by (vm_compute; reflexivity).
  assert (Hq : query_setup sample_fs 0 "NONE" "sample.hic" "A:0:15" "B:0:25" "BP" 10
               = Ok (Ready sample_query)) by (vm_compute; reflexivity).
  destruct (straw_length_le_getSize inflate_stored sample_fs 0 "NONE" "sample.hic"
              "A:0:15" "B:0:25" "BP" 10 _ _ H) as (s & ns & Hs & Hns & Hg & Hle & Hfit).
  rewrite Hq in Hs. injection Hs as <-.
  assert (Hsum : ns = [2]).
  { cbn [selected_blocks map sample_query blockNumbers q_blockMap] in Hns.
    inversion Hns as [|idx n idxs ns' Hn Hrest]; subst.
    inversion Hrest; subst. f_equal.
    unfold leading_nRecords in Hn.
    replace (size (block_entry
                     [(0, {| size := len sample_block; position := sample_block_pos |})]
                     0) =? 0) with false in Hn by (vm_compute; reflexivity).
    destruct Hn as (payload & rest & Hp & Hr).
    vm_compute in Hp. injection Hp as <-. vm_compute in Hr. congruence. }
  subst ns. split; [exact H|]. split; [exact Hns|].
  split; [exact (Hfit ltac:(vm_compute; discriminate))|]. exact Hle.
Defined.

(** C1 as stated fails on the sample file: [straw] returns one record where
    [getSize] returns 2. *)
Lemma straw_shorter_than_getSize :
  exists log recs n,
    straw inflate_stored sample_fs 0 "NONE" "sample.hic" "A:0:15" "B:0:25" "BP" 10
      = Ok (log, recs) /\
    getSize inflate_stored sample_fs 0 "NONE" "sample.hic" "A:0:15" "B:0:25" "BP" 10
      = Ok (log, n) /\
    Z.of_nat (List.length recs) <> n.
Proof.
  exists [], [{| binX := 10; binY := 20; counts := S754_finite false 10485760 (-21) |}], 2.
  split; [vm_compute; reflexivity|]. split; [vm_compute; reflexivity|].
  simpl. discriminate.
Qed.

Lemma straw_swap_same_records_witness :
  exists recs recs',
    straw inflate_stored sample_fs 0 "NONE" "sample.hic" "A" "B" "BP" 10 = Ok ([], recs) /\
    straw inflate_stored sample_fs 0 "NONE" "sample.hic" "B" "A" "BP" 10 = Ok ([], recs') /\
    recs' = recs.
Proof.
  eexists. eexists.
  split; [vm_compute; reflexivity|]. split; [vm_compute; reflexivity|].
  apply (straw_swap_same_records inflate_stored sample_fs 0 "NONE" "sample.hic"
           "A" "B" "BP" 10 [] []); vm_compute; reflexivity.
Defined.

(** C9 as stated fails on the sample file: the records of the query B, A
    are not the transposes of the records of the query A, B. *)
Lemma straw_swap_not_transposed :
  exists log recs log' recs',
    straw inflate_stored sample_fs 0 "NONE" "sample.hic" "A" "B" "BP" 10 = Ok (log, recs) /\
    straw inflate_stored sample_fs 0 "NONE" "sample.hic" "B" "A" "BP" 10 = Ok (log', recs') /\
    ~ (forall r, In r recs' <-> In (transpose r) recs).
Proof.
  eexists. eexists. eexists. eexists.
  split; [vm_compute; reflexivity|]. split; [vm_compute; reflexivity|].
  intros H.
  destruct (proj1 (H {| binX := 10; binY := 20;
                        counts := S754_finite false 10485760 (-21) |})
              (or_introl eq_refl)) as [E|[E|[]]]; discriminate E.
Qed.

(** C6 as stated fails on a master index with the key 0_1 at the positions
    100 and 200: the position of the first entry is 100, [readFooter]
    leaves 200 in [myFilePos]. *)
Lemma first_match_not_recorded :
  first_match (footer_key 0 1) twice_index = Some 100 /\
  exists ft,
    readFooter (enc_master_index 0 twice_index) 0 0 1 "NONE" "BP" 10 = Ok ft /\
    myFilePos ft = Some 200 /\
    myFilePos ft <> first_match (footer_key 0 1) twice_index.
Proof.
  split; [reflexivity|].
  eexists. split; [vm_compute; reflexivity|]. split; [reflexivity|]. discriminate.
Qed.

Lemma master_index_last_match_witness :
  Forall footer_entry_ok sample_index /\
  is_int (footer_size sample_index sample_norms) /\
  Z.of_nat (List.length sample_index) <= INT_MAX /\ 0 < 10 /\ 0 <= sample_master /\
  skipn (Z.to_nat sample_master) sample_file
    = enc_master_index (footer_size sample_index sample_norms) sample_index
        ++ enc_norm_index sample_norms /\
  straw inflate_stored sample_fs 0 "NONE" "sample.hic" "B:0:100" "B" "BP" 10
    = Ok (["File doesn't have the given chr_chr map 1_1"%string], []).
Proof.
  assert (H1 : Forall footer_entry_ok sample_index).
  { repeat constructor; try discriminate; vm_compute; congruence. }
  assert (H2 : is_int (footer_size sample_index sample_norms))
    by (vm_compute; split; discriminate).
  assert (H3 : Z.of_nat (List.length sample_index) <= INT_MAX) by (vm_compute; discriminate).
  assert (H4 : 0 < 10) by lia.
  assert (H5 : 0 <= sample_master) by (vm_compute; discriminate).
  assert (H6 : skipn (Z.to_nat sample_master) sample_file
               = enc_master_index (footer_size sample_index sample_norms) sample_index
                   ++ enc_norm_index sample_norms)
    by (vm_compute; reflexivity).
  assert (Hh : readHeader sample_file 0
               = Ok ([("B"%string, chrB); ("A"%string, chrA)], sample_master, 8, [],
                     skipn (Z.to_nat sample_block_pos) sample_file))
    by (vm_compute; reflexivity).
  repeat (split; [assumption|]).
  destruct (master_index_last_match inflate_stored sample_fs sample_file 0
              "NONE" "sample.hic" "B:0:100" "B" "BP" 10 _ _ _ _ _ chrB chrB
              0 100 0 2000 _ sample_index _
              (or_introl eq_refl) eq_refl eq_refl Hh eq_refl eq_refl eq_refl eq_refl
              H4 H5 H6 H1 H2 H3) as (_ & _ & H).
  exact (proj1 (H eq_refl)).
Defined.

Lemma type2_block_cells_witness :
  size (dense_entry 3) <> 0 /\
  inflate_block inflate_stored (dense_file 3) (dense_entry 3)
    = Ok (enc_block_type2 3 10 20 0 2 dense_cells ++ []) /\
  Forall (cell_ok 0) dense_cells /\
  exists v,
    readBlock inflate_stored (dense_file 3) 8 (dense_entry 3) = Ok v /\
    v = type2_records 0 10 20 0 2 dense_cells.
Proof.
  assert (H1 : size (dense_entry 3) <> 0) by (vm_compute; discriminate).
  assert (H2 : inflate_block inflate_stored (dense_file 3) (dense_entry 3)
               = Ok (enc_block_type2 3 10 20 0 2 dense_cells ++ []))
    by (vm_compute; reflexivity).
  assert (H3 : Forall (cell_ok 0) dense_cells)
    by (repeat constructor; vm_compute; discriminate).
  repeat (split; [assumption|]).
  destruct (type2_block_cells inflate_stored (dense_file 3) 8 (dense_entry 3)
              3 10 20 0 2 dense_cells [] H1 H2)
    as (_ & _ & (v & Hv & _ & Hall) & _);
    try exact H3; try (vm_compute; intuition discriminate).
  exists v. split; [exact Hv|]. apply Hall. reflexivity.
Defined.

Lemma block_vector_size_witness :
  size (dense_entry 4) <> 0 /\
  inflate_block inflate_stored (dense_file 4) (dense_entry 4)
    = Ok (enc_block_type2 4 10 20 0 2 dense_cells ++ []) /\
  Forall (cell_ok 0) dense_cells /\
  exists v,
    readBlock inflate_stored (dense_file 4) 8 (dense_entry 4) = Ok v /\
    Z.of_nat (List.length v) = 4 /\
    skipn 3 v = [zero_record].
Proof.
  assert (H1 : size (dense_entry 4) <> 0) by (vm_compute; discriminate).
  assert (H2 : inflate_block inflate_stored (dense_file 4) (dense_entry 4)
               = Ok (enc_block_type2 4 10 20 0 2 dense_cells ++ []))
    by (vm_compute; reflexivity).
  assert (H3 : Forall (cell_ok 0) dense_cells)
    by (repeat constructor; vm_compute; discriminate).
  repeat (split; [assumption|]).
  destruct (proj2 (block_vector_size inflate_stored (dense_file 4) 8 (dense_entry 4) H1)
              4 10 20 0 2 dense_cells [] H2)
    as (v & Hv & Hlen & Hpad);
    try exact H3; try (vm_compute; intuition discriminate).
  exists v. split; [exact Hv|]. split; [exact Hlen|exact Hpad].
Defined.

(** C7 on the sample file, whose index of normalization vectors has a VC
    entry for chromosome A and none for chromosome B.  [readFooter] prints
    the warning and leaves [c2NormEntry] unassigned; [straw] then reads the
    size and the position of that entry, which no code has set. *)
Theorem missing_norm_entry_read_unassigned :
  (exists ft,
     readFooter (skipn (Z.to_nat sample_master) sample_file) sample_master 0 1
       "VC" "BP" 10 = Ok ft /\
     foundFooter ft = true /\
     is_some (c1NormEntry ft) = true /\ c2NormEntry ft = None /\
     footer_log ft = [msg_no_norm "VC" 10 "BP"]) /\
  straw inflate_stored sample_fs 0 "VC" "sample.hic" "A" "B" "BP" 10
    = Fault Uninitialised.
Proof.
  split.
  - eexists. split; [vm_compute; reflexivity|]. repeat split.
  - vm_compute. reflexivity.
Qed.

(** The dense block with [float] counts: the NaN of the second cell is
    skipped, the third cell is the first of the second row. *)
Example dense_float_block :
  readBlock inflate_stored dense_float_file 8
    {| size := len dense_float_file; position := 0 |}
  = Ok [{| binX := 10; binY := 20; counts := S754_finite false 8388608 (-23) |};
        {| binX := 10; binY := 21; counts := S754_finite false 8388608 (-22) |}].
Proof. vm_compute. reflexivity. Qed.

(** With a VC vector for chromosome A on both sides, a count 5 becomes
    5 / (2 * 2). *)
Example sample_normalized :
  straw inflate_stored sample_fs 0 "VC" "sample.hic" "A:0:15" "A:0:25" "BP" 10
  = Ok ([], [{| binX := 10; binY := 20; counts := S754_finite false 10485760 (-23) |}]).
Proof. vm_compute. reflexivity. Qed.

Example old_block :
  readBlock inflate_stored old_block_file 6
    {| size := len old_block_file; position := 0 |}
  = Ok [{| binX := 1; binY := 2; counts := S754_finite false 8388608 (-23) |};
        {| binX := 3; binY := 4; counts := S754_finite false 8388608 (-22) |}].
Proof. vm_compute. reflexivity. Qed.

(** A file that ends after the magic string: the global [version] keeps its
    value, here 0, and the header is refused. *)
Example header_cut_after_magic :
  readHeader (enc_str "HIC") 0 = Ok ([], -1, 0, [msg_version 0], []).
Proof. vm_compute. reflexivity. Qed.

Example sample_header :
  exists fin,
    readHeader sample_file 0
    = Ok ([("B"%string, chrB); ("A"%string, chrA)], sample_master, 8, [], fin).
Proof. eexists. vm_compute. reflexivity. Qed.

Example stoi_examples :
  stoi "  -42:" = Ok (-42) /\ stoi "15" = Ok 15 /\
  stoi "" = Fault (Thrown "std::invalid_argument") /\
  stoi "4294967296" = Fault (Thrown "std::out_of_range").
Proof. repeat split. Qed.

(** A region that ends in the bin 2147483646 of a matrix with one bin per
    block: the upper block index is [INT_MAX] and the loop over the rows of
    the block selector cannot end. *)
Example selector_without_end :
  getBlockNumbersForRegionFromBinPosition (0, 0, 2147483646, 2147483646) 1 1 false
  = Fault Overflow.
Proof. reflexivity. Qed.

Example region_strings :
  parse_range (snd (sgetline (Some "A:10:20"%string))) chrA = Ok (10, 20) /\
  parse_range (snd (sgetline (Some "A:10"%string))) chrA = Ok (0, 1000) /\
  parse_range (snd (sgetline (Some "A"%string))) chrA = Ok (0, 1000) /\
  loc_name "A:10:20" = "A"%string.
Proof. repeat split. Qed.

(** * Further properties of the reader *)

(** ** The header *)

Lemma readMagicString_enc (tail : string) (rest : list byte) :
  no_nul tail ->
  readMagicString (enc_str ("HIC" ++ tail) ++ rest) = (true, rest).
Proof.
  intros Ht.
  assert (Hg : getline (enc_str ("HIC" ++ tail) ++ rest)
               = (("HIC" ++ tail)%string, rest)).
  { apply getline_enc. simpl. repeat split; try discriminate. exact Ht. }
  unfold readMagicString. rewrite Hg. reflexivity.
Qed.

(** The magic string is accepted exactly when the stream starts with the
    three bytes 'H', 'I', 'C', whatever follows them: a terminating NUL is
    not asked for. *)
Theorem magic_accepted_iff :
  forall fin : stream,
    fst (readMagicString fin) = true <-> firstn 3 fin = [x48; x49; x43].
Proof.
  intros fin. split; [apply readMagicString_true|].
  intros H.
  destruct fin as [|b1 [|b2 [|b3 rest]]]; try discriminate.
  injection H as -> -> ->.
  unfold readMagicString. cbn [getline]. cbn [Byte.eqb].
  change (Byte.eqb x48 x00) with false. change (Byte.eqb x49 x00) with false.
  change (Byte.eqb x43 x00) with false. cbv iota.
  destruct (getline rest) as [str rest']. reflexivity.
Qed.

Lemma skip_attributes_enc (attrs : list (string * string)) (rest : list byte) :
  Forall attribute_ok attrs ->
  skip_attributes (List.length attrs) (flat_map enc_attribute attrs ++ rest) = rest.
Proof.
  induction 1 as [|[k v] attrs [Hk Hv] Hattrs IH]; [reflexivity|].
  cbn [List.length flat_map skip_attributes]. unfold enc_attribute at 1.
  cbn [fst snd] in *. repeat rewrite <- app_assoc.
  rewrite getline_enc by exact Hk. rewrite getline_enc by exact Hv. exact IH.
Qed.

(** The chromosome map after the loop over the chromosome table: a name
    found in the table maps to its last occurrence, another name to what
    the map held before. *)
Lemma read_chromosomes_enc (chrs : list (string * Z)) :
  Forall chromosome_ok chrs ->
  forall (i : Z) (rest : list byte) (acc : list (string * chromosome)),
  exists table,
    read_chromosomes (List.length chrs) i (flat_map enc_chromosome chrs ++ rest) acc
      = Ok (table, rest) /\
    forall nm, map_find String.eqb nm table =
               match find_chromosome nm i chrs with
               | Some c => Some c
               | None => map_find String.eqb nm acc
               end.
Proof.
  induction 1 as [|[n l] chrs [Hn Hl] Hchrs IH]; intros i rest acc.
  - exists acc. split; [reflexivity|]. intros nm. reflexivity.
  - cbn [List.length flat_map read_chromosomes]. unfold enc_chromosome at 1.
    cbn [fst snd] in *. repeat rewrite <- app_assoc.
    rewrite getline_enc by exact Hn. rewrite read_int_enc by exact Hl. cbn [bind].
    destruct (IH (i + 1) rest
                (map_set n {| name := n; index := i; length := l |} acc))
      as (table & Hread & Hfind).
    exists table. split; [exact Hread|].
    intros nm. rewrite Hfind. cbn [find_chromosome].
    destruct (find_chromosome nm (i + 1) chrs); [reflexivity|].
    unfold map_set. cbn [map_find]. destruct (String.eqb nm n); reflexivity.
Qed.

Lemma find_chromosome_absent (nm : string) (chrs : list (string * Z)) :
  forall i, ~ In nm (map fst chrs) -> find_chromosome nm i chrs = None.
Proof.
  induction chrs as [|[n l] chrs IH]; intros i Hin; [reflexivity|].
  cbn [find_chromosome]. rewrite IH by (intros H; apply Hin; right; exact H).
  destruct (String.eqb nm n) eqn:E; [|reflexivity].
  apply String.eqb_eq in E. exfalso. apply Hin. left. symmetry. exact E.
Qed.

Lemma find_chromosome_nth (chrs : list (string * Z)) :
  NoDup (map fst chrs) ->
  forall (i : Z) (k : nat) (nm : string) (l : Z),
    nth_error chrs k = Some (nm, l) ->
    find_chromosome nm i chrs
      = Some {| name := nm; index := i + Z.of_nat k; length := l |}.
Proof.
  induction chrs as [|[n l0] chrs IH]; intros Hnd i k nm l Hk.
  - destruct k; discriminate.
  - cbn [map fst] in Hnd. inversion Hnd as [|? ? Hnotin Hnd']; subst.
    cbn [find_chromosome]. destruct k as [|k].
    + injection Hk as -> ->.
      rewrite find_chromosome_absent by exact Hnotin.
      rewrite String.eqb_refl, Z.add_0_r. reflexivity.
    + cbn [nth_error] in Hk. rewrite (IH Hnd' (i + 1) k nm l Hk).
      f_equal. f_equal. lia.
Qed.

(** What [readHeader] makes of a header written as the format says. *)
Lemma header_round_trip_lemma :
  forall (tail : string) (version master : Z) (genome : string)
         (attrs : list (string * string)) (chrs : list (string * Z))
         (rest : list byte) (version0 : Z),
    no_nul tail -> is_int version -> 6 <= version -> is_long master ->
    no_nul genome ->
    Forall attribute_ok attrs -> Z.of_nat (List.length attrs) <= INT_MAX ->
    Forall chromosome_ok chrs -> Z.of_nat (List.length chrs) <= INT_MAX ->
    exists chromosomeMap,
      readHeader (enc_full_header ("HIC" ++ tail) version master genome attrs chrs
                    ++ rest) version0
        = Ok (chromosomeMap, master, version, [], rest) /\
      (forall nm, map_find String.eqb nm chromosomeMap = find_chromosome nm 0 chrs) /\
      (forall nm, ~ In nm (map fst chrs) ->
                  map_find String.eqb nm chromosomeMap = None).
Proof.
  intros tail version master genome attrs chrs rest version0
         Ht Hv Hv6 Hm Hg Hattrs Hna Hchrs Hnc.
  destruct (read_chromosomes_enc chrs Hchrs 0 rest []) as (table & Hread & Hfind).
  exists table.
  assert (Hfind' : forall nm, map_find String.eqb nm table = find_chromosome nm 0 chrs).
  { intros nm. rewrite Hfind. destruct (find_chromosome nm 0 chrs); reflexivity. }
  split.
  - unfold readHeader, enc_full_header. repeat rewrite <- app_assoc.
    rewrite readMagicString_enc by exact Ht. cbn [negb].
    rewrite read_int_enc by exact Hv.
    replace (version <? 6) with false by (symmetry; apply Z.ltb_ge; exact Hv6).
    rewrite read_long_enc by exact Hm. cbn [bind].
    rewrite getline_enc by exact Hg.
    rewrite read_int_enc by (unfold is_int, INT_MIN; lia). cbn [bind].
    rewrite Nat2Z.id, skip_attributes_enc by exact Hattrs.
    rewrite read_int_enc by (unfold is_int, INT_MIN; lia). cbn [bind].
    rewrite Nat2Z.id, Hread. reflexivity.
  - split; [exact Hfind'|].
    intros nm Hnm. rewrite Hfind'. apply find_chromosome_absent. exact Hnm.
Qed.

(** A header that is written as the format says is read back: [master] and
    [version] are the ones written, nothing is printed, the stream is left
    after the chromosome table, and the attribute dictionary is skipped.  In
    the chromosome map a name maps to its last occurrence in the table; when
    no name occurs twice, the chromosome at position [k] has the index [k]. *)
Theorem header_round_trip :
  forall (tail : string) (version master : Z) (genome : string)
         (attrs : list (string * string)) (chrs : list (string * Z))
         (rest : list byte) (version0 : Z),
    no_nul tail -> is_int version -> 6 <= version -> is_long master ->
    no_nul genome ->
    Forall attribute_ok attrs -> Z.of_nat (List.length attrs) <= INT_MAX ->
    Forall chromosome_ok chrs -> Z.of_nat (List.length chrs) <= INT_MAX ->
    exists chromosomeMap,
      readHeader (enc_full_header ("HIC" ++ tail) version master genome attrs chrs
                    ++ rest) version0
        = Ok (chromosomeMap, master, version, [], rest) /\
      (forall nm, map_find String.eqb nm chromosomeMap = find_chromosome nm 0 chrs) /\
      (forall nm, ~ In nm (map fst chrs) ->
                  map_find String.eqb nm chromosomeMap = None) /\
      (NoDup (map fst chrs) ->
       forall (k : nat) (nm : string) (l : Z),
         nth_error chrs k = Some (nm, l) ->
         map_find String.eqb nm chromosomeMap
           = Some {| name := nm; index := Z.of_nat k; length := l |}).
Proof.
  intros tail version master genome attrs chrs rest version0
         Ht Hv Hv6 Hm Hg Hattrs Hna Hchrs Hnc.
  destruct (header_round_trip_lemma tail version master genome attrs chrs rest version0
              Ht Hv Hv6 Hm Hg Hattrs Hna Hchrs Hnc)
    as (cmap & Hh & Hfind & Habsent).
  exists cmap. split; [exact Hh|]. split; [exact Hfind|]. split; [exact Habsent|].
  intros Hnd k nm l Hk. rewrite Hfind.
  rewrite (find_chromosome_nth chrs Hnd 0 k nm l Hk). reflexivity.
Qed.

(** ** Early returns of the queries *)

(** Once the file is opened and its header read, the query goes on with
    the two region strings. *)
Lemma query_setup_opened (fs : string -> option (list byte)) (file : list byte)
    (version0 : Z) (norm fname chr1loc chr2loc unit : string) (binsize : Z)
    (chromosomeMap : list (string * chromosome)) (master version : Z)
    (hlog : list string) (fin : stream) :
  unit = "BP"%string \/ unit = "FRAG"%string ->
  String.prefix "http" fname = false ->
  fs fname = Some file ->
  readHeader file version0 = Ok (chromosomeMap, master, version, hlog, fin) ->
  query_setup fs version0 norm fname chr1loc chr2loc unit binsize
  = match map_find String.eqb (loc_name chr1loc) chromosomeMap with
    | None => Ok (Exit (hlog ++ [msg_chr (loc_name chr1loc)]))
    | Some chrom1 =>
        '(c1pos1, c1pos2) <- parse_range (snd (sgetline (Some chr1loc))) chrom1 ;;
        match map_find String.eqb (loc_name chr2loc) chromosomeMap with
        | None => Ok (Exit (hlog ++ [msg_chr (loc_name chr2loc)]))
        | Some chrom2 =>
            '(c2pos1, c2pos2) <- parse_range (snd (sgetline (Some chr2loc))) chrom2 ;;
            query_region file version master hlog norm unit binsize
              chrom1 chrom2 c1pos1 c1pos2 c2pos1 c2pos2
        end
    end.
Proof.
  intros Hu Hp Hf Hh.
  assert (Hunit : negb (String.eqb unit "BP" || String.eqb unit "FRAG") = false)
    by (destruct Hu as [-> | ->]; reflexivity).
  unfold query_setup, loc_name. rewrite Hunit, Hp, Hf, Hh. cbn [bind].
  destruct (sgetline (Some chr1loc)) as [[ok1 nm1] ss1].
  destruct (sgetline (Some chr2loc)) as [[ok2 nm2] ss2].
  reflexivity.
Qed.

Section FurtherQueries.

Variable inflate : list byte -> Z -> list byte.

(** A file with the magic string and a version below 6 is refused: [straw]
    prints the version, finds no chromosome and returns no record, [getSize]
    returns 0; nothing of the file is read after the version. *)
Theorem old_version_rejected :
  forall (fs : string -> option (list byte)) (tail : string) (v : Z)
         (rest : list byte) (version0 : Z)
         (norm fname chr1loc chr2loc unit : string) (binsize : Z),
    unit = "BP"%string \/ unit = "FRAG"%string ->
    String.prefix "http" fname = false ->
    no_nul tail -> is_int v -> v < 6 ->
    fs fname = Some (enc_str ("HIC" ++ tail) ++ enc_int v ++ rest) ->
    straw inflate fs version0 norm fname chr1loc chr2loc unit binsize
      = Ok ([msg_version v; msg_chr (loc_name chr1loc)], []) /\
    getSize inflate fs version0 norm fname chr1loc chr2loc unit binsize
      = Ok ([msg_version v; msg_chr (loc_name chr1loc)], 0).
Proof.
  intros fs tail v rest version0 norm fname chr1loc chr2loc unit binsize
         Hu Hp Ht Hv Hv6 Hf.
  assert (Hh : readHeader (enc_str ("HIC" ++ tail) ++ enc_int v ++ rest) version0
               = Ok ([], -1, v, [msg_version v], rest)).
  { unfold readHeader. rewrite readMagicString_enc by exact Ht. cbn [negb].
    rewrite read_int_enc by exact Hv.
    replace (v <? 6) with true by (symmetry; apply Z.ltb_lt; exact Hv6).
    reflexivity. }
  unfold straw, getSize.
  rewrite (query_setup_opened fs _ version0 norm fname chr1loc chr2loc unit binsize
             _ _ _ _ _ Hu Hp Hf Hh).
  split; reflexivity.
Qed.

(** On a file with a well-formed header, a region string whose chromosome
    name is not in the chromosome table ends the query with the message
    that names it and no record.  The first region string is looked up and
    its range parsed before the second one is looked at: when the range of
    the first region cannot be parsed, what [stoi] throws leaves the query,
    whatever the second region string is. *)
Theorem unknown_chromosome_rejected :
  forall (fs : string -> option (list byte)) (tail : string) (version master : Z)
         (genome : string) (attrs : list (string * string))
         (chrs : list (string * Z)) (rest : list byte) (version0 : Z)
         (norm fname chr1loc chr2loc unit : string) (binsize : Z),
    unit = "BP"%string \/ unit = "FRAG"%string ->
    String.prefix "http" fname = false ->
    no_nul tail -> is_int version -> 6 <= version -> is_long master ->
    no_nul genome ->
    Forall attribute_ok attrs -> Z.of_nat (List.length attrs) <= INT_MAX ->
    Forall chromosome_ok chrs -> Z.of_nat (List.length chrs) <= INT_MAX ->
    fs fname = Some (enc_full_header ("HIC" ++ tail) version master genome attrs chrs
                       ++ rest) ->
    (~ In (loc_name chr1loc) (map fst chrs) ->
     straw inflate fs version0 norm fname chr1loc chr2loc unit binsize
       = Ok ([msg_chr (loc_name chr1loc)], []) /\
     getSize inflate fs version0 norm fname chr1loc chr2loc unit binsize
       = Ok ([msg_chr (loc_name chr1loc)], 0)) /\
    (forall chrom1 c1pos1 c1pos2,
       find_chromosome (loc_name chr1loc) 0 chrs = Some chrom1 ->
       parse_range (snd (sgetline (Some chr1loc))) chrom1 = Ok (c1pos1, c1pos2) ->
       ~ In (loc_name chr2loc) (map fst chrs) ->
       straw inflate fs version0 norm fname chr1loc chr2loc unit binsize
         = Ok ([msg_chr (loc_name chr2loc)], []) /\
       getSize inflate fs version0 norm fname chr1loc chr2loc unit binsize
         = Ok ([msg_chr (loc_name chr2loc)], 0)) /\
    (forall chrom1 f,
       find_chromosome (loc_name chr1loc) 0 chrs = Some chrom1 ->
       parse_range (snd (sgetline (Some chr1loc))) chrom1 = Fault f ->
       straw inflate fs version0 norm fname chr1loc chr2loc unit binsize = Fault f /\
       getSize inflate fs version0 norm fname chr1loc chr2loc unit binsize = Fault f).
Proof.
  intros fs tail version master genome attrs chrs rest version0
         norm fname chr1loc chr2loc unit binsize
         Hu Hp Ht Hv Hv6 Hm Hg Hattrs Hna Hchrs Hnc Hf.
  destruct (header_round_trip_lemma tail version master genome attrs chrs rest version0
              Ht Hv Hv6 Hm Hg Hattrs Hna Hchrs Hnc)
    as (cmap & Hh & Hfind & Habsent).
  pose proof (query_setup_opened fs _ version0 norm fname chr1loc chr2loc unit binsize
                _ _ _ _ _ Hu Hp Hf Hh) as Hq.
  split; [|split].
  - intros H1. unfold straw, getSize. rewrite Hq, (Habsent _ H1). split; reflexivity.
  - intros chrom1 a b Hc1 Hr1 H2. unfold straw, getSize.
    rewrite Hq, Hfind, Hc1, Hr1. cbn [bind]. rewrite (Habsent _ H2).
    split; reflexivity.
  - intros chrom1 f Hc1 Hr1. unfold straw, getSize.
    rewrite Hq, Hfind, Hc1, Hr1. split; reflexivity.
Qed.

End FurtherQueries.

(** ** The region strings *)

Lemma split_colon_none (s : string) : no_colon s -> split_colon s = None.
Proof.
  induction s as [|c s IH]; intros Hs; [reflexivity|].
  destruct Hs as [Hc Hs]. cbn [split_colon].
  replace (Ascii.eqb c ":") with false by (symmetry; apply Ascii.eqb_neq; exact Hc).
  rewrite (IH Hs). reflexivity.
Qed.

Lemma split_colon_app (a b : string) :
  no_colon a -> split_colon (a ++ ":" ++ b) = Some (a, b).
Proof.
  change (":" ++ b)%string with (String ":" b).
  induction a as [|c a IH]; intros Ha.
  - reflexivity.
  - destruct Ha as [Hc Ha]. cbn [append split_colon].
    replace (Ascii.eqb c ":") with false by (symmetry; apply Ascii.eqb_neq; exact Hc).
    rewrite (IH Ha). reflexivity.
Qed.

(** How a region string [name], [name:x], [name:x:y] or [name:x:y:z] is
    read.  The name is what precedes the first colon.  With fewer than two
    fields after the name, or with an empty last field [y], the range is the
    whole chromosome, from 0 to its length, whatever [x] is; otherwise the
    range is made of the numbers that [x] and [y] start with, and what
    follows a third colon is ignored. *)
Theorem region_string_fields :
  forall (nm x y z : string) (chr : chromosome),
    no_colon nm -> no_colon x -> no_colon y ->
    let whole := Ok (0, length chr) in
    let bounds := pos1 <- stoi x ;; pos2 <- stoi y ;; Ok (pos1, pos2) in
    let range (loc : string) := parse_range (snd (sgetline (Some loc))) chr in
    (loc_name nm = nm /\ range nm = whole) /\
    (loc_name (nm ++ ":" ++ x) = nm /\ range (nm ++ ":" ++ x)%string = whole) /\
    (loc_name (nm ++ ":" ++ x ++ ":" ++ y) = nm /\
     range (nm ++ ":" ++ x ++ ":" ++ y)%string
       = if String.eqb y "" then whole else bounds) /\
    (loc_name (nm ++ ":" ++ x ++ ":" ++ y ++ ":" ++ z) = nm /\
     range (nm ++ ":" ++ x ++ ":" ++ y ++ ":" ++ z)%string = bounds).
Proof.
  intros nm x y z chr Hn Hx Hy whole bounds range.
  unfold range, loc_name, parse_range, sgetline.
  repeat split.
  - rewrite (split_colon_none nm Hn). reflexivity.
  - rewrite (split_colon_none nm Hn). reflexivity.
  - rewrite (split_colon_app nm _ Hn). reflexivity.
  - rewrite (split_colon_app nm _ Hn). cbn [snd].
    rewrite (split_colon_none x Hx). destruct (negb (String.eqb x "")); reflexivity.
  - rewrite (split_colon_app nm _ Hn). reflexivity.
  - rewrite (split_colon_app nm _ Hn). cbn [snd].
    rewrite (split_colon_app x _ Hx). rewrite (split_colon_none y Hy).
    destruct (String.eqb y ""); reflexivity.
  - rewrite (split_colon_app nm _ Hn). reflexivity.
  - rewrite (split_colon_app nm _ Hn). cbn [snd].
    rewrite (split_colon_app x _ Hx). rewrite (split_colon_app y _ Hy). reflexivity.
Qed.

(** ** The whole footer *)

Lemma read_double_enc (v : Z) (rest : list byte) :
  read_double (enc_long v ++ rest) = Ok (decode_ieee 52 11 (v mod 2 ^ 64), rest).
Proof.
  unfold read_double, enc_long.
  rewrite <- (enc_le_length 8 v) at 1. rewrite read_bytes_app. cbn [bind].
  rewrite le_unsigned_enc_le. reflexivity.
Qed.

Lemma skip_doubles_enc (values : list Z) (rest : list byte) :
  skip_doubles (List.length values) (flat_map enc_long values ++ rest) = Ok rest.
Proof.
  induction values as [|v values IH]; [reflexivity|].
  cbn [List.length flat_map skip_doubles]. rewrite <- app_assoc.
  rewrite read_double_enc. cbn [bind]. exact IH.
Qed.

Lemma skip_factors_enc (factors : list (Z * Z)) (rest : list byte) :
  Forall (fun f => is_int (fst f)) factors ->
  skip_factors (List.length factors) (flat_map enc_factor factors ++ rest) = Ok rest.
Proof.
  induction 1 as [|[c v] factors Hc Hfactors IH]; [reflexivity|].
  cbn [List.length flat_map skip_factors]. unfold enc_factor at 1.
  cbn [fst snd] in *. repeat rewrite <- app_assoc.
  rewrite read_int_enc by exact Hc. cbn [bind].
  rewrite read_double_enc. cbn [bind]. exact IH.
Qed.

Lemma skip_expected_enc (typed : bool)
    (es : list (string * string * Z * list Z * list (Z * Z))) (rest : list byte) :
  Forall expected_ok es ->
  skip_expected typed (List.length es) (flat_map (enc_expected typed) es ++ rest)
  = Ok rest.
Proof.
  induction 1 as [|[[[[ty unit] binSize] values] factors] es
                    (Hty & Hunit & Hbin & Hnv & Hnf & Hf) Hes IH]; [reflexivity|].
  cbn [List.length flat_map skip_expected enc_expected].
  repeat rewrite <- app_assoc.
  assert (Hfirst :
    (if typed
     then snd (getline ((if typed then enc_str ty else []) ++ enc_str unit
                          ++ enc_int binSize
                          ++ enc_int (Z.of_nat (List.length values))
                          ++ flat_map enc_long values
                          ++ enc_int (Z.of_nat (List.length factors))
                          ++ flat_map enc_factor factors
                          ++ flat_map (enc_expected typed) es ++ rest))
     else (if typed then enc_str ty else []) ++ enc_str unit ++ enc_int binSize
            ++ enc_int (Z.of_nat (List.length values)) ++ flat_map enc_long values
            ++ enc_int (Z.of_nat (List.length factors)) ++ flat_map enc_factor factors
            ++ flat_map (enc_expected typed) es ++ rest)
    = enc_str unit ++ enc_int binSize
        ++ enc_int (Z.of_nat (List.length values)) ++ flat_map enc_long values
        ++ enc_int (Z.of_nat (List.length factors)) ++ flat_map enc_factor factors
        ++ flat_map (enc_expected typed) es ++ rest).
  { destruct typed; [|reflexivity]. rewrite getline_enc by exact Hty. reflexivity. }
  rewrite Hfirst.
  rewrite getline_enc by exact Hunit.
  rewrite read_int_enc by exact Hbin. cbn [bind].
  rewrite read_int_enc by (unfold is_int, INT_MIN; lia). cbn [bind].
  rewrite Nat2Z.id, skip_doubles_enc. cbn [bind].
  rewrite read_int_enc by (unfold is_int, INT_MIN; lia). cbn [bind].
  rewrite Nat2Z.id, skip_factors_enc by exact Hf. cbn [bind].
  exact IH.
Qed.

Lemma norm_entries_enc (c1 c2 : Z) (norm unit : string) (resolution : Z)
    (norms : list (string * Z * string * Z * Z * Z)) :
  Forall norm_entry_ok norms ->
  forall (rest : list byte) (e1 e2 : option indexEntry),
    norm_entries (List.length norms) c1 c2 norm unit resolution
      (flat_map enc_norm_entry norms ++ rest) e1 e2
    = Ok (match last_norm_entry norm unit resolution c1 norms with
          | Some e => Some e
          | None => e1
          end,
          match last_norm_entry norm unit resolution c2 norms with
          | Some e => Some e
          | None => e2
          end, rest).
Proof.
  induction 1 as [|[[[[[normtype chrIdx] unit1] res1] fpos] sz] norms
                    (Hn & Hc & Hu & Hr & Hp & Hs) Hnorms IH]; intros rest e1 e2.
  - reflexivity.
  - cbn [List.length flat_map norm_entries enc_norm_entry last_norm_entry].
    repeat rewrite <- app_assoc.
    rewrite getline_enc by exact Hn. rewrite read_int_enc by exact Hc. cbn [bind].
    rewrite getline_enc by exact Hu. rewrite read_int_enc by exact Hr. cbn [bind].
    rewrite read_long_enc by exact Hp. cbn [bind].
    rewrite read_int_enc by exact Hs. cbn [bind].
    rewrite IH.
    destruct (String.eqb normtype norm && String.eqb unit1 unit && (res1 =? resolution));
      destruct (chrIdx =? c1); destruct (chrIdx =? c2); cbn [andb];
      destruct (last_norm_entry norm unit resolution c1 norms);
      destruct (last_norm_entry norm unit resolution c2 norms); reflexivity.
Qed.

Lemma readFooter_norm_enc :
  forall (nBytes : Z) (entries : list (string * Z * Z))
         (ev1 ev2 : list (string * string * Z * list Z * list (Z * Z)))
         (norms : list (string * Z * string * Z * Z * Z)) (rest : list byte)
         (master c1 c2 : Z) (norm unit : string) (resolution pos : Z)
         (e1 e2 : indexEntry),
    is_int nBytes ->
    Forall footer_entry_ok entries -> Z.of_nat (List.length entries) <= INT_MAX ->
    Forall expected_ok ev1 -> Z.of_nat (List.length ev1) <= INT_MAX ->
    Forall expected_ok ev2 -> Z.of_nat (List.length ev2) <= INT_MAX ->
    Forall norm_entry_ok norms -> Z.of_nat (List.length norms) <= INT_MAX ->
    last_match (footer_key c1 c2) entries = Some pos ->
    String.eqb norm "NONE" = false ->
    last_norm_entry norm unit resolution c1 norms = Some e1 ->
    last_norm_entry norm unit resolution c2 norms = Some e2 ->
    readFooter (enc_full_footer nBytes entries ev1 ev2 norms ++ rest)
      master c1 c2 norm unit resolution
    = Ok {| foundFooter := true; myFilePos := Some pos;
            c1NormEntry := Some e1; c2NormEntry := Some e2; footer_log := [] |}.
Proof.
  intros nBytes entries ev1 ev2 norms rest master c1 c2 norm unit resolution pos e1 e2
         HnB Hes Hne Hev1 Hn1 Hev2 Hn2 Hnorms Hnn Hpos Hnorm He1 He2.
  unfold readFooter, enc_full_footer, enc_master_index, enc_expected_map.
  repeat rewrite <- app_assoc.
  rewrite read_int_enc by exact HnB. cbn [bind].
  rewrite read_int_enc by (unfold is_int, INT_MIN; lia). cbn [bind].
  rewrite Nat2Z.id, footer_entries_enc by exact Hes. cbn [bind orb].
  rewrite Hpos, Hnorm. cbn [is_some negb].
  rewrite read_int_enc by (unfold is_int, INT_MIN; lia). cbn [bind].
  rewrite Nat2Z.id, skip_expected_enc by exact Hev1. cbn [bind].
  rewrite read_int_enc by (unfold is_int, INT_MIN; lia). cbn [bind].
  rewrite Nat2Z.id, skip_expected_enc by exact Hev2. cbn [bind].
  rewrite read_int_enc by (unfold is_int, INT_MIN; lia). cbn [bind].
  rewrite Nat2Z.id, norm_entries_enc by exact Hnorms. cbn [bind].
  rewrite He1, He2. reflexivity.
Qed.

(** A footer that is written as the format says is read back.  [readFooter]
    returns true when the master index has the key of the chromosome pair,
    with the position of the last entry of that key.  With the norm "NONE"
    nothing is read after the master index.  With another norm the two
    expected-value maps are skipped, whatever they hold, and each chromosome
    gets the last entry of the index of normalization vectors that has its
    index, the norm, the unit and the resolution; the warning is printed
    exactly when one of the two has none, and the result is true all the
    same. *)
Theorem footer_round_trip :
  forall (nBytes : Z) (entries : list (string * Z * Z))
         (ev1 ev2 : list (string * string * Z * list Z * list (Z * Z)))
         (norms : list (string * Z * string * Z * Z * Z)) (rest : list byte)
         (master c1 c2 : Z) (norm unit : string) (resolution pos : Z),
    is_int nBytes ->
    Forall footer_entry_ok entries -> Z.of_nat (List.length entries) <= INT_MAX ->
    Forall expected_ok ev1 -> Z.of_nat (List.length ev1) <= INT_MAX ->
    Forall expected_ok ev2 -> Z.of_nat (List.length ev2) <= INT_MAX ->
    Forall norm_entry_ok norms -> Z.of_nat (List.length norms) <= INT_MAX ->
    last_match (footer_key c1 c2) entries = Some pos ->
    let e1 := last_norm_entry norm unit resolution c1 norms in
    let e2 := last_norm_entry norm unit resolution c2 norms in
    readFooter (enc_full_footer nBytes entries ev1 ev2 norms ++ rest)
      master c1 c2 norm unit resolution
    = Ok (if String.eqb norm "NONE"
          then {| foundFooter := true; myFilePos := Some pos;
                  c1NormEntry := None; c2NormEntry := None; footer_log := [] |}
          else {| foundFooter := true; myFilePos := Some pos;
                  c1NormEntry := e1; c2NormEntry := e2;
                  footer_log := if is_some e1 && is_some e2 then []
                                else [msg_no_norm norm resolution unit] |}).
Proof.
  intros nBytes entries ev1 ev2 norms rest master c1 c2 norm unit resolution pos
         HnB Hes Hne Hev1 Hn1 Hev2 Hn2 Hnorms Hnn Hpos e1 e2.
  unfold readFooter, enc_full_footer, enc_master_index, enc_expected_map.
  repeat rewrite <- app_assoc.
  rewrite read_int_enc by exact HnB. cbn [bind].
  rewrite read_int_enc by (unfold is_int, INT_MIN; lia). cbn [bind].
  rewrite Nat2Z.id, footer_entries_enc by exact Hes. cbn [bind orb].
  rewrite Hpos. cbn [is_some negb].
  destruct (String.eqb norm "NONE"); [reflexivity|].
  rewrite read_int_enc by (unfold is_int, INT_MIN; lia). cbn [bind].
  rewrite Nat2Z.id, skip_expected_enc by exact Hev1. cbn [bind].
  rewrite read_int_enc by (unfold is_int, INT_MIN; lia). cbn [bind].
  rewrite Nat2Z.id, skip_expected_enc by exact Hev2. cbn [bind].
  rewrite read_int_enc by (unfold is_int, INT_MIN; lia). cbn [bind].
  rewrite Nat2Z.id, norm_entries_enc by exact Hnorms. cbn [bind].
  fold e1 e2.
  destruct e1, e2; reflexivity.
Qed.

(** ** The matrix and its zoom levels *)

Lemma read_blocks_enc (found : bool) (blocks : list (Z * Z * Z)) :
  Forall block_entry_ok blocks ->
  forall (rest : list byte) (acc : list (Z * indexEntry)),
  exists blockMap,
    read_blocks (List.length blocks) found
      (flat_map enc_block_entry blocks ++ rest) acc = Ok (blockMap, rest) /\
    forall b, map_find Z.eqb b blockMap =
              if found
              then match last_block b blocks with
                   | Some e => Some e
                   | None => map_find Z.eqb b acc
                   end
              else map_find Z.eqb b acc.
Proof.
  induction 1 as [|[[n p] sz] blocks (Hn & Hp & Hs) Hblocks IH]; intros rest acc.
  - exists acc. split; [reflexivity|]. intros b. destruct found; reflexivity.
  - cbn [List.length flat_map read_blocks enc_block_entry].
    repeat rewrite <- app_assoc.
    rewrite read_int_enc by exact Hn. cbn [bind].
    rewrite read_long_enc by exact Hp. cbn [bind].
    rewrite read_int_enc by exact Hs. cbn [bind].
    destruct (IH rest (if found
                       then map_set n {| size := sz; position := p |} acc
                       else acc)) as (blockMap & Hread & Hfind).
    exists blockMap. split; [exact Hread|].
    intros b. rewrite Hfind. destruct found; [|reflexivity].
    cbn [last_block]. destruct (last_block b blocks); [reflexivity|].
    unfold map_set. cbn [map_find]. destruct (b =? n); reflexivity.
Qed.

Lemma readMatrixZoomData_enc (z : zoomLevel) (rest : list byte)
    (unit : string) (resolution : Z) :
  zoom_ok z ->
  exists blockMap,
    readMatrixZoomData (enc_zoom_level z ++ rest) unit resolution
      = Ok (blockMap,
            if zoom_matches unit resolution z
            then Some (z_blockBinCount z, z_blockColumnCount z) else None,
            rest) /\
    forall b, map_find Z.eqb b blockMap =
              if zoom_matches unit resolution z then last_block b (z_blocks z)
              else None.
Proof.
  unfold zoom_ok, enc_zoom_level.
  destruct (z_stats z) as [[[s1 s2] s3] s4].
  intros (Hu & Hi & (H1 & H2 & H3 & H4) & Hb & Hbb & Hbc & Hn & Hblocks).
  destruct (read_blocks_enc (zoom_matches unit resolution z) (z_blocks z) Hblocks rest [])
    as (blockMap & Hread & Hfind).
  exists blockMap. split.
  - unfold readMatrixZoomData. repeat rewrite <- app_assoc.
    rewrite getline_enc by exact Hu.
    rewrite read_int_enc by exact Hi. cbn [bind].
    rewrite read_float_enc by exact H1. cbn [bind].
    rewrite read_float_enc by exact H2. cbn [bind].
    rewrite read_float_enc by exact H3. cbn [bind].
    rewrite read_float_enc by exact H4. cbn [bind].
    rewrite read_int_enc by exact Hb. cbn [bind].
    rewrite read_int_enc by exact Hbb. cbn [bind].
    rewrite read_int_enc by exact Hbc. cbn [bind].
    rewrite read_int_enc by (unfold is_int, INT_MIN; lia). cbn [bind].
    rewrite Nat2Z.id. fold (zoom_matches unit resolution z). rewrite Hread.
    reflexivity.
  - intros b. rewrite Hfind.
    destruct (zoom_matches unit resolution z); [|reflexivity].
    destruct (last_block b (z_blocks z)); reflexivity.
Qed.

(** The zoom levels that do not match are read and left behind. *)
Lemma zoom_levels_skip (unit : string) (resolution : Z) (before : list zoomLevel) :
  Forall zoom_ok before ->
  Forall (fun z => zoom_matches unit resolution z = false) before ->
  forall (n : nat) (rest : list byte),
    zoom_levels (List.length before + n) (flat_map enc_zoom_level before ++ rest)
      unit resolution
    = zoom_levels n rest unit resolution.
Proof.
  induction 1 as [|z before Hz Hbefore IH]; intros Hno n rest; [reflexivity|].
  inversion Hno as [|? ? Hzno Hno']; subst.
  cbn [List.length flat_map Nat.add zoom_levels]. rewrite <- app_assoc.
  destruct (readMatrixZoomData_enc z (flat_map enc_zoom_level before ++ rest)
              unit resolution Hz) as (blockMap & Hread & _).
  rewrite Hread, Hzno. cbn [bind]. apply IH. exact Hno'.
Qed.

Lemma readMatrix_selected :
  forall (file : list byte) (myFilePosition c1 c2 nRes : Z)
         (before : list zoomLevel) (z : zoomLevel) (rest : list byte)
         (unit : string) (resolution : Z),
    0 <= myFilePosition ->
    skipn (Z.to_nat myFilePosition) file
      = enc_int c1 ++ enc_int c2 ++ enc_int nRes
          ++ flat_map enc_zoom_level before ++ enc_zoom_level z ++ rest ->
    is_int c1 -> is_int c2 -> is_int nRes ->
    Z.of_nat (List.length before) < nRes ->
    Forall zoom_ok before -> zoom_ok z ->
    Forall (fun z' => zoom_matches unit resolution z' = false) before ->
    zoom_matches unit resolution z = true ->
    exists blockMap,
      readMatrix file myFilePosition unit resolution
        = Ok (blockMap, Some (z_blockBinCount z, z_blockColumnCount z), []) /\
      forall b, map_find Z.eqb b blockMap = last_block b (z_blocks z).
Proof.
  intros file pos c1 c2 nRes before z rest unit resolution
         Hpos Hfile Hc1 Hc2 HnRes Hlen Hbefore Hz Hno Hyes.
  destruct (readMatrixZoomData_enc z rest unit resolution Hz)
    as (blockMap & Hread & Hfind).
  rewrite Hyes in Hread, Hfind.
  exists blockMap. split.
  - unfold readMatrix, seekg.
    replace (pos <? 0) with false by (symmetry; apply Z.ltb_ge; exact Hpos).
    cbn [bind]. rewrite Hfile.
    rewrite read_int_enc by exact Hc1. cbn [bind].
    rewrite read_int_enc by exact Hc2. cbn [bind].
    rewrite read_int_enc by exact HnRes. cbn [bind].
    replace (Z.to_nat nRes)
      with (List.length before + S (Z.to_nat nRes - List.length before - 1))%nat by lia.
    rewrite (zoom_levels_skip unit resolution before Hbefore Hno).
    cbn [zoom_levels]. rewrite Hread. reflexivity.
  - intros b. rewrite Hfind. destruct (last_block b (z_blocks z)); reflexivity.
Qed.

(** The matrix at [myFilePosition] is searched for the first zoom level with
    the unit and the bin size of the query, among its first [nRes] levels.
    [readMatrix] returns the block index of that level, its [blockBinCount]
    and [blockColumnCount], and prints nothing; the levels before it are
    skipped and nothing is read after it.  In the block map a number maps to
    its last entry in the index, and [blockMap[b]] of a number that is not
    in the index is the empty entry. *)
Theorem matrix_zoom_selected :
  forall (file : list byte) (myFilePosition c1 c2 nRes : Z)
         (before : list zoomLevel) (z : zoomLevel) (rest : list byte)
         (unit : string) (resolution : Z),
    0 <= myFilePosition ->
    skipn (Z.to_nat myFilePosition) file
      = enc_int c1 ++ enc_int c2 ++ enc_int nRes
          ++ flat_map enc_zoom_level before ++ enc_zoom_level z ++ rest ->
    is_int c1 -> is_int c2 -> is_int nRes ->
    Z.of_nat (List.length before) < nRes ->
    Forall zoom_ok before -> zoom_ok z ->
    Forall (fun z' => zoom_matches unit resolution z' = false) before ->
    zoom_matches unit resolution z = true ->
    exists blockMap,
      readMatrix file myFilePosition unit resolution
        = Ok (blockMap, Some (z_blockBinCount z, z_blockColumnCount z), []) /\
      forall b, block_entry blockMap b =
                match last_block b (z_blocks z) with
                | Some e => e
                | None => {| size := 0; position := 0 |}
                end.
Proof.
  intros file pos c1 c2 nRes before z rest unit resolution
         Hpos Hfile Hc1 Hc2 HnRes Hlen Hbefore Hz Hno Hyes.
  destruct (readMatrix_selected file pos c1 c2 nRes before z rest unit resolution
              Hpos Hfile Hc1 Hc2 HnRes Hlen Hbefore Hz Hno Hyes)
    as (blockMap & Hread & Hfind).
  exists blockMap. split; [exact Hread|].
  intros b. unfold block_entry. rewrite Hfind. reflexivity.
Qed.

(** When none of the [nRes] zoom levels of the matrix has the unit and the
    bin size of the query, [readMatrix] prints "Error finding block data"
    and returns an empty block map; [blockBinCount] and [blockColumnCount]
    are not assigned. *)
Theorem matrix_zoom_missing :
  forall (file : list byte) (myFilePosition c1 c2 nRes : Z)
         (zooms : list zoomLevel) (rest : list byte)
         (unit : string) (resolution : Z),
    0 <= myFilePosition ->
    skipn (Z.to_nat myFilePosition) file
      = enc_int c1 ++ enc_int c2 ++ enc_int nRes
          ++ flat_map enc_zoom_level zooms ++ rest ->
    is_int c1 -> is_int c2 -> is_int nRes ->
    Z.to_nat nRes = List.length zooms ->
    Forall zoom_ok zooms ->
    Forall (fun z => zoom_matches unit resolution z = false) zooms ->
    readMatrix file myFilePosition unit resolution = Ok ([], None, [msg_no_blocks]).
Proof.
  intros file pos c1 c2 nRes zooms rest unit resolution
         Hpos Hfile Hc1 Hc2 HnRes Hlen Hzooms Hno.
  unfold readMatrix, seekg.
  replace (pos <? 0) with false by (symmetry; apply Z.ltb_ge; exact Hpos).
  cbn [bind]. rewrite Hfile.
  rewrite read_int_enc by exact Hc1. cbn [bind].
  rewrite read_int_enc by exact Hc2. cbn [bind].
  rewrite read_int_enc by exact HnRes. cbn [bind].
  rewrite Hlen. rewrite <- (Nat.add_0_r (List.length zooms)).
  rewrite (zoom_levels_skip unit resolution zooms Hzooms Hno). reflexivity.
Qed.

(** ** The other block payloads *)

Lemma records_v6_enc (recs : list (Z * Z * Z)) :
  Forall record_v6_ok recs ->
  forall (done : list contactRecord) (k : nat) (rest : list byte),
    (List.length recs <= k)%nat ->
    records_v6 (List.length recs) (Z.of_nat (List.length done))
      (flat_map enc_record_v6 recs ++ rest) (done ++ repeat zero_record k)
    = Ok (done ++ map record_v6 recs
            ++ repeat zero_record (k - List.length recs)).
Proof.
  induction 1 as [|[[bx by_] c] recs (Hx & Hy & Hc) Hrecs IH]; intros done k rest Hk.
  - simpl. rewrite Nat.sub_0_r. reflexivity.
  - cbn [List.length] in Hk. destruct k as [|k]; [lia|].
    cbn [List.length flat_map records_v6 enc_record_v6 repeat map record_v6].
    repeat rewrite <- app_assoc.
    rewrite read_int_enc by exact Hx. cbn [bind].
    rewrite read_int_enc by exact Hy. cbn [bind].
    rewrite read_float_enc by exact Hc. cbn [bind].
    rewrite vec_set_next. cbn [bind].
    set (r := {| binX := bx; binY := by_; counts := decode_ieee 23 8 c |}).
    replace (Z.of_nat (List.length done) + 1)
      with (Z.of_nat (List.length (done ++ [r])))
      by (rewrite length_app; simpl; lia).
    replace (done ++ r :: repeat zero_record k)
      with ((done ++ [r]) ++ repeat zero_record k)
      by (rewrite <- app_assoc; reflexivity).
    rewrite IH by lia. rewrite <- app_assoc. reflexivity.
Qed.

Lemma read_count_enc (useShort c : Z) (rest : list byte) :
  cell_ok useShort c ->
  read_count useShort (enc_cell useShort c ++ rest)
  = Ok (type1_count useShort c, rest).
Proof.
  unfold cell_ok, read_count, enc_cell, type1_count.
  destruct (useShort =? 0); intros Hc.
  - rewrite read_short_enc by exact Hc. reflexivity.
  - apply read_float_enc. exact Hc.
Qed.

Lemma row_cells_enc (useShort xoff by_ : Z) (cells : list (Z * Z)) :
  Forall (fun xc => is_short (fst xc) /\ cell_ok useShort (snd xc)) cells ->
  forall (done : list contactRecord) (k : nat) (rest : list byte),
    (List.length cells <= k)%nat ->
    row_cells (List.length cells) useShort xoff by_
      (flat_map (enc_row_cell useShort) cells ++ rest)
      (Z.of_nat (List.length done)) (done ++ repeat zero_record k)
    = Ok (rest,
          Z.of_nat (List.length done + List.length cells),
          (done ++ map (fun xc => {| binX := int_add xoff (fst xc); binY := by_;
                                     counts := type1_count useShort (snd xc) |}) cells)
            ++ repeat zero_record (k - List.length cells)).
Proof.
  induction 1 as [|[x c] cells [Hx Hc] Hcells IH]; intros done k rest Hk.
  - simpl. rewrite Nat.sub_0_r, Nat.add_0_r, app_nil_r. reflexivity.
  - cbn [List.length] in Hk. destruct k as [|k]; [lia|].
    cbn [List.length flat_map row_cells repeat map]. unfold enc_row_cell at 1.
    cbn [fst snd] in *. repeat rewrite <- app_assoc.
    rewrite read_short_enc by exact Hx. cbn [bind].
    rewrite read_count_enc by exact Hc. cbn [bind].
    rewrite vec_set_next. cbn [bind].
    set (r := {| binX := int_add xoff x; binY := by_;
                 counts := type1_count useShort c |}).
    replace (Z.of_nat (List.length done) + 1)
      with (Z.of_nat (List.length (done ++ [r])))
      by (rewrite length_app; simpl; lia).
    replace (done ++ r :: repeat zero_record k)
      with ((done ++ [r]) ++ repeat zero_record k)
      by (rewrite <- app_assoc; reflexivity).
    rewrite IH by lia. rewrite length_app. cbn [List.length].
    rewrite <- !app_assoc. cbn [app].
    replace (List.length done + 1 + List.length cells)%nat
      with (List.length done + S (List.length cells))%nat by lia.
    reflexivity.
Qed.

Lemma rows_enc (useShort xoff yoff : Z) (rws : list (Z * list (Z * Z))) :
  Forall (row_ok useShort) rws ->
  forall (done : list contactRecord) (k : nat) (rest : list byte),
    (List.length (type1_records xoff yoff useShort rws) <= k)%nat ->
    rows (List.length rws) useShort xoff yoff
      (flat_map (enc_row_of useShort) rws ++ rest)
      (Z.of_nat (List.length done)) (done ++ repeat zero_record k)
    = Ok (done ++ type1_records xoff yoff useShort rws
            ++ repeat zero_record
                 (k - List.length (type1_records xoff yoff useShort rws))).
Proof.
  induction 1 as [|[y cells] rws (Hy & Hn & Hcells) Hrws IH]; intros done k rest Hk.
  - simpl. rewrite Nat.sub_0_r. reflexivity.
  - unfold type1_records in Hk |- *. cbn [flat_map] in Hk |- *.
    unfold row_records at 1 in Hk. unfold row_records at 1 3.
    cbn [fst snd] in *. rewrite length_app, length_map in Hk.
    cbn [List.length rows]. unfold enc_row_of at 1.
    cbn [fst snd]. repeat rewrite <- app_assoc.
    rewrite read_short_enc by exact Hy. cbn [bind].
    rewrite read_short_enc by (unfold is_short; lia). cbn [bind].
    rewrite Nat2Z.id.
    rewrite (row_cells_enc useShort xoff (int_add y yoff) cells Hcells) by lia.
    cbn [bind].
    set (rs := map (fun xc => {| binX := int_add xoff (fst xc);
                                 binY := int_add y yoff;
                                 counts := type1_count useShort (snd xc) |}) cells).
    replace (List.length done + List.length cells)%nat
      with (List.length (done ++ rs))
      by (unfold rs; rewrite length_app, length_map; reflexivity).
    fold (type1_records xoff yoff useShort rws) in Hk |- *.
    rewrite IH by lia.
    rewrite length_app. unfold rs at 3. rewrite length_map.
    rewrite <- !app_assoc.
    replace (k - List.length cells - List.length (type1_records xoff yoff useShort rws))%nat
      with (k - (List.length cells
                 + List.length (type1_records xoff yoff useShort rws)))%nat by lia.
    reflexivity.
Qed.

Section FurtherBlocks.

Variable inflate : list byte -> Z -> list byte.

Lemma readBlock_decoded (file : list byte) (version : Z) (idx : indexEntry)
    (payload : list byte) :
  size idx <> 0 ->
  inflate_block inflate file idx = Ok payload ->
  readBlock inflate file version idx = decode_block version payload.
Proof.
  intros Hsize Hinf. unfold readBlock. apply Z.eqb_neq in Hsize.
  rewrite Hsize, Hinf. reflexivity.
Qed.

(** A block of the format before version 7 is read back: [readBlock] returns
    the [nRecords] records of the payload, in their order, with the bins and
    the [float] counts as they are written. *)
Theorem old_block_round_trip :
  forall (file : list byte) (version : Z) (idx : indexEntry)
         (recs : list (Z * Z * Z)) (rest : list byte),
    size idx <> 0 ->
    inflate_block inflate file idx = Ok (enc_block_v6 recs ++ rest) ->
    version < 7 ->
    Forall record_v6_ok recs -> Z.of_nat (List.length recs) <= INT_MAX ->
    readBlock inflate file version idx = Ok (map record_v6 recs).
Proof.
  intros file version idx recs rest Hsize Hinf Hv Hrecs Hlen.
  rewrite (readBlock_decoded file version idx _ Hsize Hinf).
  unfold decode_block, enc_block_v6. rewrite <- app_assoc.
  rewrite read_int_enc by (unfold is_int, INT_MIN; lia). cbn [bind].
  unfold vec_make.
  replace (Z.of_nat (List.length recs) <? 0) with false
    by (symmetry; apply Z.ltb_ge; lia).
  cbn [bind]. replace (version <? 7) with true by (symmetry; apply Z.ltb_lt; exact Hv).
  rewrite Nat2Z.id.
  pose proof (records_v6_enc recs Hrecs [] (List.length recs) rest (le_n _)) as E.
  cbn [List.length app Z.of_nat] in E. rewrite E.
  rewrite Nat.sub_diag. simpl. rewrite app_nil_r. reflexivity.
Qed.

(** A list-of-rows block (type 1) of version 7 and later is read back: every
    cell [(x, count)] of a row [y] gives the record with
    [binX = binXOffset + x], [binY = y + binYOffset] and its count, row after
    row.  Unlike in a type 2 block no count is skipped: the [short] -32768
    and a NaN [float] are counts like any other.  The records are followed
    by the value-initialised records of the slots that [nRecords] leaves
    over. *)
Theorem rows_block_round_trip :
  forall (file : list byte) (version : Z) (idx : indexEntry)
         (nRecords xoff yoff useShort : Z) (rws : list (Z * list (Z * Z)))
         (rest : list byte),
    size idx <> 0 ->
    inflate_block inflate file idx
      = Ok (enc_block_rows nRecords xoff yoff useShort rws ++ rest) ->
    7 <= version ->
    is_int nRecords -> is_int xoff -> is_int yoff -> - 128 <= useShort < 128 ->
    Forall (row_ok useShort) rws -> Z.of_nat (List.length rws) < 2 ^ 15 ->
    let recs := type1_records xoff yoff useShort rws in
    Z.of_nat (List.length recs) <= nRecords ->
    readBlock inflate file version idx
      = Ok (recs ++ repeat zero_record (Z.to_nat nRecords - List.length recs)) /\
    (nRecords = Z.of_nat (List.length recs) ->
     readBlock inflate file version idx = Ok recs).
Proof.
  intros file version idx nRecords xoff yoff useShort rws rest
         Hsize Hinf Hv HnR Hx Hy Hu Hrws Hlen recs Hrecs.
  assert (Hread : readBlock inflate file version idx
                  = Ok (recs ++ repeat zero_record (Z.to_nat nRecords - List.length recs))).
  { rewrite (readBlock_decoded file version idx _ Hsize Hinf).
    unfold decode_block, enc_block_rows. repeat rewrite <- app_assoc.
    rewrite read_int_enc by exact HnR. cbn [bind].
    unfold vec_make.
    replace (nRecords <? 0) with false by (symmetry; apply Z.ltb_ge; lia).
    cbn [bind]. replace (version <? 7) with false by (symmetry; apply Z.ltb_ge; lia).
    rewrite read_int_enc by exact Hx. cbn [bind].
    rewrite read_int_enc by exact Hy. cbn [bind].
    rewrite read_char_enc by exact Hu. cbn [bind].
    rewrite read_char_enc by lia. cbn [bind].
    change (1 =? 1) with true. cbv iota.
    rewrite read_short_enc by (unfold is_short; lia). cbn [bind].
    rewrite Nat2Z.id.
    apply (rows_enc useShort xoff yoff rws Hrws [] (Z.to_nat nRecords) rest).
    fold recs. lia. }
  split; [exact Hread|].
  intros Hn. rewrite Hread, Hn, Nat2Z.id, Nat.sub_diag. simpl. rewrite app_nil_r.
  reflexivity.
Qed.

(** A block of version 7 and later whose type byte is neither 1 nor 2 is
    not refused: [readBlock] returns [nRecords] value-initialised records
    (0, 0, 0), which the query then treats as contacts of the bin (0, 0). *)
Theorem unknown_block_type :
  forall (file : list byte) (version : Z) (idx : indexEntry)
         (nRecords xoff yoff useShort type : Z) (rest : list byte),
    size idx <> 0 ->
    inflate_block inflate file idx
      = Ok (enc_int nRecords ++ enc_int xoff ++ enc_int yoff
              ++ enc_char useShort ++ enc_char type ++ rest) ->
    7 <= version ->
    is_int nRecords -> 0 <= nRecords -> is_int xoff -> is_int yoff ->
    - 128 <= useShort < 128 -> - 128 <= type < 128 ->
    type <> 1 -> type <> 2 ->
    readBlock inflate file version idx
      = Ok (repeat zero_record (Z.to_nat nRecords)).
Proof.
  intros file version idx nRecords xoff yoff useShort type rest
         Hsize Hinf Hv HnR Hn0 Hx Hy Hu Ht H1 H2.
  rewrite (readBlock_decoded file version idx _ Hsize Hinf).
  unfold decode_block.
  rewrite read_int_enc by exact HnR. cbn [bind].
  unfold vec_make.
  replace (nRecords <? 0) with false by (symmetry; apply Z.ltb_ge; lia).
  cbn [bind]. replace (version <? 7) with false by (symmetry; apply Z.ltb_ge; lia).
  rewrite read_int_enc by exact Hx. cbn [bind].
  rewrite read_int_enc by exact Hy. cbn [bind].
  rewrite read_char_enc by exact Hu. cbn [bind].
  rewrite read_char_enc by exact Ht. cbn [bind].
  replace (type =? 1) with false by (symmetry; apply Z.eqb_neq; exact H1).
  replace (type =? 2) with false by (symmetry; apply Z.eqb_neq; exact H2).
  reflexivity.
Qed.

End FurtherBlocks.

(** ** The further properties on sample files *)

Ltac wf := repeat constructor; vm_compute; intuition (try discriminate).

Lemma header_round_trip_witness :
  no_nul "" /\ is_int 8 /\ 6 <= 8 /\ is_long 195 /\ no_nul "hg19" /\
  Forall attribute_ok [("software"%string, "juicer"%string)] /\
  Forall chromosome_ok sample_chrs /\
  exists chromosomeMap,
    readHeader (attr_header ++ [x2a]) 0 = Ok (chromosomeMap, 195, 8, [], [x2a]) /\
    map_find String.eqb "B"%string chromosomeMap = Some chrB /\
    map_find String.eqb "C"%string chromosomeMap = None.
Proof.
  assert (H1 : no_nul "") by wf.
  assert (H2 : is_int 8) by wf.
  assert (H3 : 6 <= 8) by lia.
  assert (H4 : is_long 195) by wf.
  assert (H5 : no_nul "hg19") by wf.
  assert (H6 : Forall attribute_ok [("software"%string, "juicer"%string)]) by wf.
  assert (H7 : Z.of_nat (List.length [("software"%string, "juicer"%string)]) <= INT_MAX)
    by wf.
  assert (H8 : Forall chromosome_ok sample_chrs) by wf.
  assert (H9 : Z.of_nat (List.length sample_chrs) <= INT_MAX) by wf.
  repeat (split; [assumption|]).
  destruct (header_round_trip "" 8 195 "hg19" [("software"%string, "juicer"%string)]
              sample_chrs [x2a] 0 H1 H2 H3 H4 H5 H6 H7 H8 H9)
    as (chromosomeMap & Hread & Hfind & _ & _).
  exists chromosomeMap. split; [exact Hread|].
  split; rewrite Hfind; reflexivity.
Defined.

Lemma old_version_rejected_witness :
  ("BP"%string = "BP"%string \/ "BP"%string = "FRAG"%string) /\
  String.prefix "http" "old.hic" = false /\
  no_nul "" /\ is_int 5 /\ 5 < 6 /\
  old_fs "old.hic" = Some (enc_str ("HIC" ++ "") ++ enc_int 5 ++ [x00]) /\
  straw inflate_stored old_fs 0 "NONE" "old.hic" "A:0:10" "B" "BP" 10
    = Ok ([msg_version 5; msg_chr (loc_name "A:0:10")], []).
Proof.
  assert (Hu : "BP"%string = "BP"%string \/ "BP"%string = "FRAG"%string)
    by (left; reflexivity).
  assert (H1 : no_nul "") by wf.
  assert (H2 : is_int 5) by wf.
  assert (H3 : 5 < 6) by lia.
  split; [exact Hu|]. split; [reflexivity|].
  split; [exact H1|]. split; [exact H2|]. split; [exact H3|].
  split; [reflexivity|].
  exact (proj1 (old_version_rejected inflate_stored old_fs "" 5 [x00] 0
                  "NONE" "old.hic" "A:0:10" "B" "BP" 10
                  Hu eq_refl H1 H2 H3 eq_refl)).
Defined.

Lemma unknown_chromosome_rejected_witness :
  ("BP"%string = "BP"%string \/ "BP"%string = "FRAG"%string) /\
  String.prefix "http" "attr.hic" = false /\
  Forall attribute_ok [("software"%string, "juicer"%string)] /\
  Forall chromosome_ok sample_chrs /\
  attr_fs "attr.hic" = Some (attr_header ++ [x2a]) /\
  ~ In (loc_name "X:0:10") (map fst sample_chrs) /\
  straw inflate_stored attr_fs 0 "NONE" "attr.hic" "X:0:10" "B" "BP" 10
    = Ok ([msg_chr (loc_name "X:0:10")], []) /\
  straw inflate_stored attr_fs 0 "NONE" "attr.hic" "A:0:10" "X:0:10" "BP" 10
    = Ok ([msg_chr (loc_name "X:0:10")], []) /\
  parse_range (snd (sgetline (Some "A:x:y"%string))) chrA
    = Fault (Thrown "std::invalid_argument") /\
  straw inflate_stored attr_fs 0 "NONE" "attr.hic" "A:x:y" "X:0:10" "BP" 10
    = Fault (Thrown "std::invalid_argument").
Proof.
  assert (Hu : "BP"%string = "BP"%string \/ "BP"%string = "FRAG"%string)
    by (left; reflexivity).
  assert (H1 : no_nul "") by wf.
  assert (H2 : is_int 8) by wf.
  assert (H3 : 6 <= 8) by lia.
  assert (H4 : is_long 195) by wf.
  assert (H5 : no_nul "hg19") by wf.
  assert (H6 : Forall attribute_ok [("software"%string, "juicer"%string)]) by wf.
  assert (H7 : Z.of_nat (List.length [("software"%string, "juicer"%string)]) <= INT_MAX)
    by wf.
  assert (H8 : Forall chromosome_ok sample_chrs) by wf.
  assert (H9 : Z.of_nat (List.length sample_chrs) <= INT_MAX) by wf.
  assert (Hx : ~ In (loc_name "X:0:10") (map fst sample_chrs)) by wf.
  assert (Hr : parse_range (snd (sgetline (Some "A:x:y"%string))) chrA
               = Fault (Thrown "std::invalid_argument")) by reflexivity.
  split; [exact Hu|]. split; [reflexivity|].
  split; [exact H6|]. split; [exact H8|]. split; [reflexivity|].
  split; [exact Hx|].
  split; [|split; [|split; [exact Hr|]]].
  - exact (proj1 (proj1 (unknown_chromosome_rejected inflate_stored attr_fs "" 8 195
                           "hg19" [("software"%string, "juicer"%string)] sample_chrs
                           [x2a] 0 "NONE" "attr.hic" "X:0:10" "B" "BP" 10
                           Hu eq_refl H1 H2 H3 H4 H5 H6 H7 H8 H9 eq_refl) Hx)).
  - exact (proj1 (proj1 (proj2
             (unknown_chromosome_rejected inflate_stored attr_fs "" 8 195
                "hg19" [("software"%string, "juicer"%string)] sample_chrs
                [x2a] 0 "NONE" "attr.hic" "A:0:10" "X:0:10" "BP" 10
                Hu eq_refl H1 H2 H3 H4 H5 H6 H7 H8 H9 eq_refl))
             chrA 0 10 eq_refl eq_refl Hx)).
  - exact (proj1 (proj2 (proj2
             (unknown_chromosome_rejected inflate_stored attr_fs "" 8 195
                "hg19" [("software"%string, "juicer"%string)] sample_chrs
                [x2a] 0 "NONE" "attr.hic" "A:x:y" "X:0:10" "BP" 10
                Hu eq_refl H1 H2 H3 H4 H5 H6 H7 H8 H9 eq_refl))
             chrA (Thrown "std::invalid_argument") eq_refl Hr)).
Defined.

Lemma region_string_fields_witness :
  no_colon "chr1" /\ no_colon "10" /\ no_colon "20" /\
  parse_range (snd (sgetline (Some "chr1:10:20:30"%string))) chrA = Ok (10, 20) /\
  loc_name "chr1:10:20:30" = "chr1"%string.
Proof.
  assert (H1 : no_colon "chr1") by wf.
  assert (H2 : no_colon "10") by wf.
  assert (H3 : no_colon "20") by wf.
  split; [exact H1|]. split; [exact H2|]. split; [exact H3|].
  destruct (region_string_fields "chr1" "10" "20" "30" chrA H1 H2 H3)
    as (_ & _ & _ & Hname & Hrange).
  split; [exact Hrange | exact Hname].
Defined.

Lemma footer_round_trip_witness :
  is_int 0 /\ Forall footer_entry_ok full_footer_entries /\
  Forall expected_ok full_footer_expected /\
  Forall norm_entry_ok full_footer_norms /\
  last_match (footer_key 0 1) full_footer_entries = Some 200 /\
  readFooter (enc_full_footer 0 full_footer_entries full_footer_expected
                full_footer_expected full_footer_norms ++ [])
    0 0 1 "VC" "BP" 10
  = Ok {| foundFooter := true; myFilePos := Some 200;
          c1NormEntry := Some {| size := 20; position := 300 |};
          c2NormEntry := None;
          footer_log := [msg_no_norm "VC" 10 "BP"] |}.
Proof.
  assert (H1 : is_int 0) by wf.
  assert (H2 : Forall footer_entry_ok full_footer_entries) by wf.
  assert (H3 : Z.of_nat (List.length full_footer_entries) <= INT_MAX) by wf.
  assert (H4 : Forall expected_ok full_footer_expected) by wf.
  assert (H5 : Z.of_nat (List.length full_footer_expected) <= INT_MAX) by wf.
  assert (H6 : Forall norm_entry_ok full_footer_norms) by wf.
  assert (H7 : Z.of_nat (List.length full_footer_norms) <= INT_MAX) by wf.
  assert (H8 : last_match (footer_key 0 1) full_footer_entries = Some 200)
    by reflexivity.
  split; [exact H1|]. split; [exact H2|]. split; [exact H4|]. split; [exact H6|].
  split; [exact H8|].
  exact (footer_round_trip 0 full_footer_entries full_footer_expected
           full_footer_expected full_footer_norms [] 0 0 1 "VC" "BP" 10 200
           H1 H2 H3 H4 H5 H4 H5 H6 H7 H8).
Defined.

Lemma matrix_zoom_selected_witness :
  skipn (Z.to_nat 2) zoom_file
    = enc_int 0 ++ enc_int 1 ++ enc_int 2
        ++ flat_map enc_zoom_level [zoom_coarse] ++ enc_zoom_level zoom_fine ++ [] /\
  zoom_ok zoom_coarse /\ zoom_ok zoom_fine /\
  zoom_matches "BP" 10 zoom_coarse = false /\
  zoom_matches "BP" 10 zoom_fine = true /\
  exists blockMap,
    readMatrix zoom_file 2 "BP" 10 = Ok (blockMap, Some (7, 4), []) /\
    block_entry blockMap 0 = {| size := 14; position := 80 |} /\
    block_entry blockMap 5 = {| size := 0; position := 0 |}.
Proof.
  assert (H0 : 0 <= 2) by lia.
  assert (H1 : skipn (Z.to_nat 2) zoom_file
               = enc_int 0 ++ enc_int 1 ++ enc_int 2
                   ++ flat_map enc_zoom_level [zoom_coarse]
                   ++ enc_zoom_level zoom_fine ++ []) by reflexivity.
  assert (H2 : is_int 0) by wf.
  assert (H3 : is_int 1) by wf.
  assert (H4 : is_int 2) by wf.
  assert (H5 : Z.of_nat (List.length [zoom_coarse]) < 2) by wf.
  assert (H6 : zoom_ok zoom_coarse) by wf.
  assert (H7 : zoom_ok zoom_fine) by wf.
  assert (H8 : Forall (fun z' => zoom_matches "BP" 10 z' = false) [zoom_coarse])
    by (repeat constructor).
  split; [exact H1|]. split; [exact H6|]. split; [exact H7|].
  split; [reflexivity|]. split; [reflexivity|].
  destruct (matrix_zoom_selected zoom_file 2 0 1 2 [zoom_coarse] zoom_fine [] "BP" 10
              H0 H1 H2 H3 H4 H5 (Forall_cons _ H6 (Forall_nil _)) H7 H8 eq_refl)
    as (blockMap & Hread & Hentry).
  exists blockMap. split; [exact Hread|]. split; rewrite Hentry; reflexivity.
Defined.

Lemma matrix_zoom_missing_witness :
  skipn (Z.to_nat 2) zoom_file
    = enc_int 0 ++ enc_int 1 ++ enc_int 2
        ++ flat_map enc_zoom_level [zoom_coarse; zoom_fine] ++ [] /\
  Forall zoom_ok [zoom_coarse; zoom_fine] /\
  Forall (fun z => zoom_matches "BP" 25 z = false) [zoom_coarse; zoom_fine] /\
  readMatrix zoom_file 2 "BP" 25 = Ok ([], None, [msg_no_blocks]).
Proof.
  assert (H0 : 0 <= 2) by lia.
  assert (H1 : skipn (Z.to_nat 2) zoom_file
               = enc_int 0 ++ enc_int 1 ++ enc_int 2
                   ++ flat_map enc_zoom_level [zoom_coarse; zoom_fine] ++ [])
    by reflexivity.
  assert (H2 : is_int 0) by wf.
  assert (H3 : is_int 1) by wf.
  assert (H4 : is_int 2) by wf.
  assert (H6 : Forall zoom_ok [zoom_coarse; zoom_fine]) by wf.
  assert (H8 : Forall (fun z => zoom_matches "BP" 25 z = false) [zoom_coarse; zoom_fine])
    by (repeat constructor).
  split; [exact H1|]. split; [exact H6|]. split; [exact H8|].
  exact (matrix_zoom_missing zoom_file 2 0 1 2 [zoom_coarse; zoom_fine] [] "BP" 25
           H0 H1 H2 H3 H4 eq_refl H6 H8).
Defined.

Lemma old_block_round_trip_witness :
  size (stored_entry (enc_block_v6 old_records)) <> 0 /\
  inflate_block inflate_stored (zlib_store (enc_block_v6 old_records))
    (stored_entry (enc_block_v6 old_records))
    = Ok (enc_block_v6 old_records ++ []) /\
  Forall record_v6_ok old_records /\
  readBlock inflate_stored (zlib_store (enc_block_v6 old_records)) 6
    (stored_entry (enc_block_v6 old_records))
    = Ok [{| binX := 1; binY := 2; counts := S754_finite false 8388608 (-23) |};
          {| binX := 3; binY := 4; counts := S754_finite false 8388608 (-22) |}].
Proof.
  assert (H1 : size (stored_entry (enc_block_v6 old_records)) <> 0)
    by (vm_compute; discriminate).
  assert (H2 : inflate_block inflate_stored (zlib_store (enc_block_v6 old_records))
                 (stored_entry (enc_block_v6 old_records))
               = Ok (enc_block_v6 old_records ++ [])) by (vm_compute; reflexivity).
  assert (H3 : 6 < 7) by lia.
  assert (H4 : Forall record_v6_ok old_records) by wf.
  assert (H5 : Z.of_nat (List.length old_records) <= INT_MAX) by wf.
  split; [exact H1|]. split; [exact H2|]. split; [exact H4|].
  exact (old_block_round_trip inflate_stored _ 6 _ old_records [] H1 H2 H3 H4 H5).
Defined.

Lemma rows_block_round_trip_witness :
  size (stored_entry (enc_block_rows 3 10 20 0 sample_rows)) <> 0 /\
  inflate_block inflate_stored (zlib_store (enc_block_rows 3 10 20 0 sample_rows))
    (stored_entry (enc_block_rows 3 10 20 0 sample_rows))
    = Ok (enc_block_rows 3 10 20 0 sample_rows ++ []) /\
  Forall (row_ok 0) sample_rows /\
  readBlock inflate_stored (zlib_store (enc_block_rows 3 10 20 0 sample_rows)) 8
    (stored_entry (enc_block_rows 3 10 20 0 sample_rows))
    = Ok [{| binX := 11; binY := 22; counts := float_of_short 5 |};
          {| binX := 14; binY := 22; counts := float_of_short (-32768) |};
          {| binX := 13; binY := 24; counts := float_of_short 7 |}].
Proof.
  assert (H1 : size (stored_entry (enc_block_rows 3 10 20 0 sample_rows)) <> 0)
    by (vm_compute; discriminate).
  assert (H2 : inflate_block inflate_stored
                 (zlib_store (enc_block_rows 3 10 20 0 sample_rows))
                 (stored_entry (enc_block_rows 3 10 20 0 sample_rows))
               = Ok (enc_block_rows 3 10 20 0 sample_rows ++ []))
    by (vm_compute; reflexivity).
  assert (H3 : 7 <= 8) by lia.
  assert (H4 : is_int 3) by wf.
  assert (H5 : is_int 10) by wf.
  assert (H6 : is_int 20) by wf.
  assert (H7 : - 128 <= 0 < 128) by lia.
  assert (H8 : Forall (row_ok 0) sample_rows) by wf.
  assert (H9 : Z.of_nat (List.length sample_rows) < 2 ^ 15) by wf.
  assert (H10 : Z.of_nat (List.length (type1_records 10 20 0 sample_rows)) <= 3) by wf.
  split; [exact H1|]. split; [exact H2|]. split; [exact H8|].
  exact (proj2 (rows_block_round_trip inflate_stored _ 8 _ 3 10 20 0 sample_rows []
                  H1 H2 H3 H4 H5 H6 H7 H8 H9 H10) eq_refl).
Defined.

Lemma unknown_block_type_witness :
  size (stored_entry odd_block) <> 0 /\
  inflate_block inflate_stored (zlib_store odd_block) (stored_entry odd_block)
    = Ok (enc_int 2 ++ enc_int 0 ++ enc_int 0 ++ enc_char 0 ++ enc_char 3 ++ []) /\
  3 <> 1 /\ 3 <> 2 /\
  readBlock inflate_stored (zlib_store odd_block) 8 (stored_entry odd_block)
    = Ok [zero_record; zero_record].
Proof.
  assert (H1 : size (stored_entry odd_block) <> 0) by (vm_compute; discriminate).
  assert (H2 : inflate_block inflate_stored (zlib_store odd_block) (stored_entry odd_block)
               = Ok (enc_int 2 ++ enc_int 0 ++ enc_int 0 ++ enc_char 0 ++ enc_char 3 ++ []))
    by (vm_compute; reflexivity).
  assert (H3 : 7 <= 8) by lia.
  assert (H4 : is_int 2) by wf.
  assert (H5 : 0 <= 2) by lia.
  assert (H6 : is_int 0) by wf.
  assert (H7 : - 128 <= 0 < 128) by lia.
  assert (H8 : - 128 <= 3 < 128) by lia.
  assert (H9 : 3 <> 1) by discriminate.
  assert (H10 : 3 <> 2) by discriminate.
  split; [exact H1|]. split; [exact H2|]. split; [exact H9|]. split; [exact H10|].
  exact (unknown_block_type inflate_stored _ 8 _ 2 0 0 0 3 [] H1 H2 H3 H4 H5 H6 H6
           H7 H8 H9 H10).
Defined.

(** ** Normalization vectors *)

Lemma read_doubles_enc (values : list Z) (rest : list byte) :
  read_doubles (List.length values) (flat_map enc_long values ++ rest)
  = Ok (norm_values values).
Proof.
  induction values as [|v values IH]; [reflexivity|].
  cbn [List.length flat_map read_doubles]. rewrite <- app_assoc.
  rewrite read_double_enc. cbn [bind]. rewrite IH. reflexivity.
Qed.

Lemma load_norm_at (file : list byte) (values : list Z) (pad post : list byte)
    (e : indexEntry) :
  0 <= position e ->
  skipn (Z.to_nat (position e)) file = (enc_norm_vector values ++ pad) ++ post ->
  size e = len (enc_norm_vector values ++ pad) ->
  Z.of_nat (List.length values) <= INT_MAX ->
  load_norm file (Some e) = Ok (norm_values values).
Proof.
  intros Hpos Hfile Hsize Hlen.
  unfold load_norm, len in *. rewrite Hsize.
  replace (Z.of_nat (List.length (enc_norm_vector values ++ pad)) <? 0) with false
    by (symmetry; apply Z.ltb_ge; lia).
  unfold seekg.
  replace (position e <? 0) with false by (symmetry; apply Z.ltb_ge; exact Hpos).
  cbn [bind]. rewrite Hfile, Nat2Z.id.
  rewrite read_bytes_app. cbn [bind].
  unfold readNormalizationVector, enc_norm_vector. rewrite <- app_assoc.
  rewrite read_int_enc by (unfold is_int, INT_MIN; lia). cbn [bind].
  replace (Z.of_nat (List.length values) <? 0) with false
    by (symmetry; apply Z.ltb_ge; lia).
  rewrite Nat2Z.id. apply read_doubles_enc.
Qed.

(** A normalization vector that is written as the format says is read back:
    from the [size] bytes at [position] of its index entry, the query loads
    the [nValues] doubles in their order; bytes of the buffer that follow
    the vector are ignored. *)
Theorem norm_vector_round_trip :
  forall (pre post pad : list byte) (values : list Z) (e : indexEntry),
    position e = len pre ->
    size e = len (enc_norm_vector values ++ pad) ->
    Z.of_nat (List.length values) <= INT_MAX ->
    load_norm (pre ++ (enc_norm_vector values ++ pad) ++ post) (Some e)
    = Ok (norm_values values).
Proof.
  intros pre post pad values e Hpos Hsize Hlen.
  unfold load_norm, len in *. rewrite Hsize, Hpos.
  replace (Z.of_nat (List.length (enc_norm_vector values ++ pad)) <? 0) with false
    by (symmetry; apply Z.ltb_ge; lia).
  unfold seekg.
  replace (Z.of_nat (List.length pre) <? 0) with false
    by (symmetry; apply Z.ltb_ge; lia).
  cbn [bind]. rewrite !Nat2Z.id.
  rewrite skipn_app, skipn_all, Nat.sub_diag. cbn [skipn app].
  rewrite read_bytes_app. cbn [bind].
  unfold readNormalizationVector, enc_norm_vector. rewrite <- app_assoc.
  rewrite read_int_enc by (unfold is_int, INT_MIN; lia). cbn [bind].
  replace (Z.of_nat (List.length values) <? 0) with false
    by (symmetry; apply Z.ltb_ge; lia).
  rewrite Nat2Z.id. apply read_doubles_enc.
Qed.

Lemma norm_vector_round_trip_witness :
  position {| size := 22; position := 3 |} = len [x00; x01; x02] /\
  size {| size := 22; position := 3 |}
    = len (enc_norm_vector [4611686018427387904; 4611686018427387904] ++ [xff; xff]) /\
  load_norm norm_file (Some {| size := 22; position := 3 |})
    = Ok [S754_finite false 4503599627370496 (-51);
          S754_finite false 4503599627370496 (-51)].
Proof.
  assert (H1 : position {| size := 22; position := 3 |} = len [x00; x01; x02])
    by reflexivity.
  assert (H2 : size {| size := 22; position := 3 |}
               = len (enc_norm_vector [4611686018427387904; 4611686018427387904]
                        ++ [xff; xff])) by reflexivity.
  assert (H3 : Z.of_nat (List.length [4611686018427387904; 4611686018427387904])
               <= INT_MAX) by wf.
  split; [exact H1|]. split; [exact H2|].
  exact (norm_vector_round_trip [x00; x01; x02] [x2a] [xff; xff]
           [4611686018427387904; 4611686018427387904]
           {| size := 22; position := 3 |} H1 H2 H3).
Defined.

(** ** Positions in region strings *)

Lemma uint_value_of_lu (d r : Decimal.uint) :
  uint_value d (Z.of_N (DecimalPos.Unsigned.of_lu r))
  = Z.of_N (DecimalPos.Unsigned.of_lu (Decimal.revapp d r)).
Proof.
  revert r. induction d; intros r; cbn [uint_value Decimal.revapp];
    [reflexivity | rewrite <- IHd; f_equal; cbn [DecimalPos.Unsigned.of_lu]; lia ..].
Qed.

Lemma uint_value_of_uint (d : Decimal.uint) : uint_value d 0 = Z.of_uint d.
Proof.
  unfold Z.of_uint. rewrite DecimalPos.Unsigned.of_uint_alt.
  exact (uint_value_of_lu d Decimal.Nil).
Qed.

Lemma digits_uint (d : Decimal.uint) (a : Z) :
  digits (NilEmpty.string_of_uint d) (Some a) = Some (uint_value d a).
Proof.
  revert a. induction d; intros a; cbn [NilEmpty.string_of_uint uint_value];
    [reflexivity | exact (IHd _) ..].
Qed.

Lemma digits_uint_start (d : Decimal.uint) :
  d <> Decimal.Nil ->
  digits (NilEmpty.string_of_uint d) None = Some (uint_value d 0).
Proof.
  destruct d; intros Hd; [congruence | exact (digits_uint d _) ..].
Qed.

Lemma stoi_unsigned (d : Decimal.uint) :
  d <> Decimal.Nil -> is_int (Z.of_uint d) ->
  stoi (NilEmpty.string_of_uint d) = Ok (Z.of_uint d).
Proof.
  intros Hd [Hlo Hhi]. pose proof (digits_uint_start d Hd) as E.
  rewrite uint_value_of_uint in E.
  assert (Hb : (INT_MIN <=? Z.of_uint d) && (Z.of_uint d <=? INT_MAX) = true).
  { apply andb_true_intro. split; apply Z.leb_le; assumption. }
  destruct d; [congruence | unfold stoi; cbn [NilEmpty.string_of_uint] in E |- *;
                            cbn [skip_spaces is_space]; simpl; simpl in E;
                            rewrite E, Hb; reflexivity ..].
Qed.

Lemma of_uint_to_uint (p : positive) : Z.of_uint (Pos.to_uint p) = Z.pos p.
Proof.
  unfold Z.of_uint. rewrite DecimalPos.Unsigned.of_to. reflexivity.
Qed.

Lemma stoi_dec (z : Z) : is_int z -> stoi (dec z) = Ok z.
Proof.
  intros Hz. destruct z as [|p|p]; unfold dec; cbn [Z.to_int NilEmpty.string_of_int].
  - reflexivity.
  - pose proof (stoi_unsigned (Pos.to_uint p)
                  (DecimalPos.Unsigned.to_uint_nonnil p)) as E.
    rewrite of_uint_to_uint in E. exact (E Hz).
  - pose proof (digits_uint_start (Pos.to_uint p)
                  (DecimalPos.Unsigned.to_uint_nonnil p)) as E.
    rewrite uint_value_of_uint, of_uint_to_uint in E.
    destruct Hz as [Hlo Hhi].
    assert (Hb : (INT_MIN <=? Z.neg p) && (Z.neg p <=? INT_MAX) = true).
    { apply andb_true_intro. split; apply Z.leb_le; assumption. }
    unfold stoi. cbn [skip_spaces]. change (is_space "-") with false. cbv iota.
    change (Ascii.eqb "-" "-") with true. cbv iota beta.
    rewrite E. change (- Z.pos p) with (Z.neg p). rewrite Hb. reflexivity.
Qed.

Lemma no_colon_uint (d : Decimal.uint) : no_colon (NilEmpty.string_of_uint d).
Proof.
  induction d; cbn [NilEmpty.string_of_uint no_colon];
    [exact I | split; [discriminate | exact IHd] ..].
Qed.

Lemma no_colon_dec (z : Z) : no_colon (dec z).
Proof.
  destruct z as [|p|p]; unfold dec; cbn [Z.to_int NilEmpty.string_of_int].
  - split; [discriminate | exact I].
  - apply no_colon_uint.
  - split; [discriminate | apply no_colon_uint].
Qed.

Lemma dec_not_empty (z : Z) : String.eqb (dec z) "" = false.
Proof.
  destruct z as [|p|p]; unfold dec; cbn [Z.to_int NilEmpty.string_of_int];
    try reflexivity.
  pose proof (DecimalPos.Unsigned.to_uint_nonnil p) as Hp.
  destruct (Pos.to_uint p); [congruence | reflexivity ..].
Qed.

(** The positions of a region string are read as they are written: for a
    chromosome name without a colon and two [int]s [a] and [b], negative
    ones too, the string [name:a:b] with the numbers in decimal gives the
    name and the range from [a] to [b]. *)
Theorem region_positions_read_back :
  forall (nm : string) (a b : Z) (chr : chromosome),
    no_colon nm -> is_int a -> is_int b ->
    let loc := (nm ++ ":" ++ dec a ++ ":" ++ dec b)%string in
    loc_name loc = nm /\
    parse_range (snd (sgetline (Some loc))) chr = Ok (a, b).
Proof.
  intros nm a b chr Hn Ha Hb loc. unfold loc, loc_name, parse_range, sgetline.
  rewrite (split_colon_app nm _ Hn). cbn [fst snd]. split; [reflexivity|].
  rewrite (split_colon_app (dec a) _ (no_colon_dec a)).
  rewrite (split_colon_none (dec b) (no_colon_dec b)).
  rewrite dec_not_empty. cbn [negb].
  rewrite (stoi_dec a Ha), (stoi_dec b Hb). reflexivity.
Qed.

Lemma region_positions_read_back_witness :
  no_colon "chr1" /\ is_int (-5) /\ is_int 2500 /\
  loc_name "chr1:-5:2500" = "chr1"%string /\
  parse_range (snd (sgetline (Some "chr1:-5:2500"%string))) chrA = Ok (-5, 2500).
Proof.
  assert (H1 : no_colon "chr1") by wf.
  assert (H2 : is_int (-5)) by wf.
  assert (H3 : is_int 2500) by wf.
  split; [exact H1|]. split; [exact H2|]. split; [exact H3|].
  exact (region_positions_read_back "chr1" (-5) 2500 chrA H1 H2 H3).
Defined.

(** ** Normalization and the selection of records *)

Lemma readFooter_none (fin : stream) (master c1 c2 : Z) (norm unit : string)
    (resolution : Z) (ft : footer) :
  readFooter fin master c1 c2 norm unit resolution = Ok ft ->
  exists ft0,
    readFooter fin master c1 c2 "NONE" unit resolution = Ok ft0 /\
    foundFooter ft0 = foundFooter ft /\ myFilePos ft0 = myFilePos ft.
Proof.
  intros H. unfold readFooter in *.
  destruct (read_int fin) as [[nBytes fin1]|]; cbn [bind] in *; [|discriminate].
  destruct (read_int fin1) as [[nEntries fin2]|]; cbn [bind] in *; [|discriminate].
  destruct (footer_entries _ _ _ _ _) as [[[pos found] fin3]|]; cbn [bind] in *;
    [|discriminate].
  destruct found; cbn [negb] in *.
  - change (String.eqb "NONE" "NONE") with true. cbv iota.
    eexists. split; [reflexivity|]. cbn [foundFooter myFilePos].
    destruct (String.eqb norm "NONE").
    + injection H as <-. split; reflexivity.
    + destruct (read_int fin3) as [[n1 fin4]|]; cbn [bind] in H; [|discriminate].
      destruct (skip_expected false _ _) as [fin5|]; cbn [bind] in H; [|discriminate].
      destruct (read_int fin5) as [[n2 fin6]|]; cbn [bind] in H; [|discriminate].
      destruct (skip_expected true _ _) as [fin7|]; cbn [bind] in H; [|discriminate].
      destruct (read_int fin7) as [[n3 fin8]|]; cbn [bind] in H; [|discriminate].
      destruct (norm_entries _ _ _ _ _ _ _ _ _) as [[[e1 e2] fin9]|];
        cbn [bind] in H; [|discriminate].
      injection H as <-. split; reflexivity.
  - eexists. split; [reflexivity|]. injection H as <-. split; reflexivity.
Qed.

Lemma query_blocks_none (file : list byte) (version master : Z) (log : list string)
    (norm unit : string) (binsize c1 c2 : Z) (orig regionIndices : Z * Z * Z * Z)
    (s : setup) :
  query_blocks file version master log norm unit binsize c1 c2 orig regionIndices
    = Ok s ->
  exists s0,
    query_blocks file version master log "NONE" unit binsize c1 c2 orig regionIndices
      = Ok s0 /\
    same_selection s s0.
Proof.
  intros H. unfold query_blocks in *.
  destruct (seekg file master) as [fin|]; cbn [bind] in *; [|discriminate].
  destruct (readFooter fin master c1 c2 norm unit binsize) as [ft|] eqn:Eft;
    cbn [bind] in H; [|discriminate].
  destruct (readFooter_none _ _ _ _ _ _ _ _ Eft) as (ft0 & E0 & Hf & Hp).
  rewrite E0. cbn [bind]. rewrite Hf, Hp.
  destruct (foundFooter ft); cbn [negb] in *.
  - change (negb (String.eqb "NONE" "NONE")) with false. cbv iota. cbn [bind].
    match type of H with
    | bind ?r _ = _ => destruct r as [[n1 n2]|]; cbn [bind] in H; [|discriminate]
    end.
    destruct (assigned (myFilePos ft)) as [pos|]; cbn [bind] in *; [|discriminate].
    destruct (readMatrix file pos unit binsize) as [[[blockMap counts] mlog]|];
      cbn [bind] in *; [|discriminate].
    destruct (assigned counts) as [[bbc bcc]|]; cbn [bind] in *; [|discriminate].
    destruct (getBlockNumbersForRegionFromBinPosition _ _ _ _) as [blocks|];
      cbn [bind] in *; [|discriminate].
    injection H as <-. eexists. split; [reflexivity|]. cbn. repeat split.
  - injection H as <-. eexists. split; [reflexivity|exact I].
Qed.

Lemma query_setup_none (fs : string -> option (list byte)) (version : Z)
    (norm fname chr1loc chr2loc unit : string) (binsize : Z) (s : setup) :
  query_setup fs version norm fname chr1loc chr2loc unit binsize = Ok s ->
  exists s0,
    query_setup fs version "NONE" fname chr1loc chr2loc unit binsize = Ok s0 /\
    same_selection s s0.
Proof.
  intros H. unfold query_setup in *.
  destruct (negb _).
  { injection H as <-. eexists. split; [reflexivity|exact I]. }
  destruct (String.prefix "http" fname); [discriminate|].
  destruct (fs fname) as [file|].
  2: { injection H as <-. eexists. split; [reflexivity|exact I]. }
  destruct (readHeader file version) as [[[[[chromosomeMap master] version'] log] fin]|];
    cbn [bind] in *; [|discriminate].
  destruct (sgetline (Some chr1loc)) as [[ok1 chr1] ss].
  destruct (map_find String.eqb chr1 chromosomeMap) as [chrom1|].
  2: { injection H as <-. eexists. split; [reflexivity|exact I]. }
  destruct (parse_range ss chrom1) as [[c1pos1 c1pos2]|]; cbn [bind] in *;
    [|discriminate].
  destruct (sgetline (Some chr2loc)) as [[ok2 chr2] ss1].
  destruct (map_find String.eqb chr2 chromosomeMap) as [chrom2|].
  2: { injection H as <-. eexists. split; [reflexivity|exact I]. }
  destruct (parse_range ss1 chrom2) as [[c2pos1 c2pos2]|]; cbn [bind] in *;
    [|discriminate].
  unfold query_region in *.
  destruct (region_indices _ _ _ _ _ _ _) as [[orig regionIndices]|];
    cbn [bind] in *; [|discriminate].
  exact (query_blocks_none _ _ _ _ _ _ _ _ _ _ _ _ H).
Qed.

Lemma emit_none (norm : string) (binsize : Z) (q q0 : query) (rec : contactRecord)
    (out : list contactRecord) :
  origRegionIndices q0 = origRegionIndices q -> q_intra q0 = q_intra q ->
  emit norm binsize q rec = Ok out ->
  exists out0, emit "NONE" binsize q0 rec = Ok out0 /\
               map coords out0 = map coords out.
Proof.
  intros Ho Hi. unfold emit. rewrite Ho, Hi.
  change (negb (String.eqb "NONE" "NONE")) with false. cbv iota. cbn [bind].
  match goal with
  | |- bind ?r _ = _ -> _ => destruct r as [c|]; cbn [bind]; [|discriminate]
  end.
  destruct (in_region _ _ _ _); intros [= <-]; eexists; split; reflexivity.
Qed.

Lemma emit_all_none (norm : string) (binsize : Z) (q q0 : query) :
  origRegionIndices q0 = origRegionIndices q -> q_intra q0 = q_intra q ->
  forall tmp records records0 recs,
    map coords records0 = map coords records ->
    emit_all norm binsize q tmp records = Ok recs ->
    exists recs0, emit_all "NONE" binsize q0 tmp records0 = Ok recs0 /\
                  map coords recs0 = map coords recs.
Proof.
  intros Ho Hi. induction tmp as [|rec rest IH]; intros records records0 recs Hm;
    cbn [emit_all].
  - intros [= <-]. eexists. split; [reflexivity|exact Hm].
  - destruct (emit norm binsize q rec) as [out|] eqn:E; cbn [bind]; [|discriminate].
    destruct (emit_none norm binsize q q0 rec out Ho Hi E) as (out0 & E0 & Hout).
    rewrite E0. cbn [bind]. apply IH. rewrite !map_app, Hm, Hout. reflexivity.
Qed.

Section Normalization.

Variable inflate : list byte -> Z -> list byte.

Lemma straw_blocks_none (norm : string) (binsize : Z) (q q0 : query) :
  q_file q0 = q_file q -> q_version q0 = q_version q ->
  origRegionIndices q0 = origRegionIndices q -> q_intra q0 = q_intra q ->
  q_blockMap q0 = q_blockMap q ->
  forall blocks records records0 recs,
    map coords records0 = map coords records ->
    straw_blocks inflate norm binsize q blocks records = Ok recs ->
    exists recs0, straw_blocks inflate "NONE" binsize q0 blocks records0 = Ok recs0 /\
                  map coords recs0 = map coords recs.
Proof.
  intros Hf Hv Ho Hi Hb. induction blocks as [|b rest IH];
    intros records records0 recs Hm; cbn [straw_blocks].
  - intros [= <-]. eexists. split; [reflexivity|exact Hm].
  - rewrite Hf, Hv, Hb.
    destruct (readBlock inflate _ _ _) as [tmp|]; cbn [bind]; [|discriminate].
    destruct (emit_all norm binsize q tmp records) as [records'|] eqn:E;
      cbn [bind]; [|discriminate].
    destruct (emit_all_none norm binsize q q0 Ho Hi tmp records records0 records' Hm E)
      as (records0' & E0 & Hm').
    rewrite E0. cbn [bind]. apply IH. exact Hm'.
Qed.

Lemma size_blocks_same (q q0 : query) :
  q_file q0 = q_file q -> q_blockMap q0 = q_blockMap q ->
  forall blocks count, size_blocks inflate q0 blocks count
                       = size_blocks inflate q blocks count.
Proof.
  intros Hf Hb. induction blocks as [|b rest IH]; intros count; cbn [size_blocks];
    [reflexivity|].
  rewrite Hf, Hb. destruct (readSize inflate _ _); cbn [bind]; [apply IH|reflexivity].
Qed.

(** Normalization changes the counts only.  When [straw] returns with a
    norm, it also returns with the norm "NONE" on the same arguments, and
    the two results have the same coordinates, record by record: the same
    number of records in the same order.  When [getSize] returns with a
    norm, it returns the same count with the norm "NONE". *)
Theorem normalization_keeps_coordinates :
  forall (fs : string -> option (list byte)) (version : Z)
         (norm fname chr1loc chr2loc unit : string) (binsize : Z),
    (forall log records,
       straw inflate fs version norm fname chr1loc chr2loc unit binsize
         = Ok (log, records) ->
       exists log0 records0,
         straw inflate fs version "NONE" fname chr1loc chr2loc unit binsize
           = Ok (log0, records0) /\
         map coords records0 = map coords records) /\
    (forall log count,
       getSize inflate fs version norm fname chr1loc chr2loc unit binsize
         = Ok (log, count) ->
       exists log0,
         getSize inflate fs version "NONE" fname chr1loc chr2loc unit binsize
           = Ok (log0, count)).
Proof.
  intros fs version norm fname chr1loc chr2loc unit binsize. split.
  - intros log records H. unfold straw in *.
    destruct (query_setup fs version norm fname chr1loc chr2loc unit binsize)
      as [s|] eqn:Es; cbn [bind] in H; [|discriminate].
    destruct (query_setup_none _ _ _ _ _ _ _ _ _ Es) as (s0 & Es0 & Hsel).
    rewrite Es0. cbn [bind].
    destruct s as [l|q]; destruct s0 as [l0|q0]; cbn [same_selection] in Hsel;
      try contradiction; cbn [straw_result] in *.
    + injection H as <- <-. eexists _, _. split; reflexivity.
    + destruct Hsel as (Hf & Hv & Ho & Hi & Hb & Hn). rewrite Hn.
      destruct (straw_blocks inflate norm binsize q (blockNumbers q) []) as [recs|] eqn:E;
        cbn [bind] in H; [|discriminate].
      injection H as <- <-.
      destruct (straw_blocks_none norm binsize q q0 Hf Hv Ho Hi Hb
                  (blockNumbers q) [] [] recs eq_refl E) as (recs0 & E0 & Hm).
      rewrite E0. cbn [bind]. eexists _, _. split; [reflexivity|exact Hm].
  - intros log count H. unfold getSize in *.
    destruct (query_setup fs version norm fname chr1loc chr2loc unit binsize)
      as [s|] eqn:Es; cbn [bind] in H; [|discriminate].
    destruct (query_setup_none _ _ _ _ _ _ _ _ _ Es) as (s0 & Es0 & Hsel).
    rewrite Es0. cbn [bind].
    destruct s as [l|q]; destruct s0 as [l0|q0]; cbn [same_selection] in Hsel;
      try contradiction; cbn [getSize_result] in *.
    + injection H as <- <-. eexists. reflexivity.
    + destruct Hsel as (Hf & Hv & Ho & Hi & Hb & Hn). rewrite Hn.
      rewrite (size_blocks_same q q0 Hf Hb).
      destruct (size_blocks inflate q (blockNumbers q) 0) as [n|];
        cbn [bind] in *; [|discriminate].
      injection H as <- <-. eexists. reflexivity.
Qed.

End Normalization.

Lemma normalization_keeps_coordinates_witness :
  straw inflate_stored sample_fs 0 "VC" "sample.hic" "A:0:15" "A:0:25" "BP" 10
    = Ok ([], [{| binX := 10; binY := 20;
                  counts := S754_finite false 10485760 (-23) |}]) /\
  exists log0 records0,
    straw inflate_stored sample_fs 0 "NONE" "sample.hic" "A:0:15" "A:0:25" "BP" 10
      = Ok (log0, records0) /\
    map coords records0 = [(10, 20)].
Proof.
  assert (H : straw inflate_stored sample_fs 0 "VC" "sample.hic" "A:0:15" "A:0:25" "BP" 10
              = Ok ([], [{| binX := 10; binY := 20;
                            counts := S754_finite false 10485760 (-23) |}]))
    by (vm_compute; reflexivity).
  split; [exact H|].
  exact (proj1 (normalization_keeps_coordinates inflate_stored sample_fs 0 "VC"
                  "sample.hic" "A:0:15" "A:0:25" "BP" 10) _ _ H).
Defined.

(** ** The records of a query without normalization *)

Section RawQueries.

Variable inflate : list byte -> Z -> list byte.

(** What [straw] returns with the norm "NONE" once the query has reached the
    loop over the blocks: the selected blocks are read in the order of their
    numbers, and the result is made of their records, block after block and
    in the order of each block, that pass the region test, with the bins
    multiplied by [binsize] and the counts as they are in the file.  Nothing
    else is returned and nothing is merged or sorted. *)
Theorem straw_none_records :
  forall (fs : string -> option (list byte)) (version : Z)
         (fname chr1loc chr2loc unit : string) (binsize : Z)
         (q : query) (tmps : list (list contactRecord)),
    query_setup fs version "NONE" fname chr1loc chr2loc unit binsize = Ok (Ready q) ->
    Forall2 (fun b tmp => readBlock inflate (q_file q) (q_version q)
                            (block_entry (q_blockMap q) b) = Ok tmp)
            (blockNumbers q) tmps ->
    straw inflate fs version "NONE" fname chr1loc chr2loc unit binsize
    = Ok (q_log q,
          map (scaled binsize) (filter (kept binsize q) (List.concat tmps))).
Proof.
  intros fs version fname chr1loc chr2loc unit binsize q tmps Hq Hblocks.
  unfold straw. rewrite Hq. cbn [bind straw_result].
  rewrite (straw_blocks_none_records inflate binsize q (blockNumbers q) tmps []
             Hblocks).
  reflexivity.
Qed.

(** A local file that cannot be opened ends the query with the message that
    names it: [straw] returns no record and [getSize] returns 0. *)
Theorem missing_file_reported :
  forall (fs : string -> option (list byte)) (version : Z)
         (norm fname chr1loc chr2loc unit : string) (binsize : Z),
    unit = "BP"%string \/ unit = "FRAG"%string ->
    String.prefix "http" fname = false ->
    fs fname = None ->
    straw inflate fs version norm fname chr1loc chr2loc unit binsize
      = Ok ([msg_open fname], []) /\
    getSize inflate fs version norm fname chr1loc chr2loc unit binsize
      = Ok ([msg_open fname], 0).
Proof.
  intros fs version norm fname chr1loc chr2loc unit binsize Hu Hp Hf.
  assert (Hunit : negb (String.eqb unit "BP" || String.eqb unit "FRAG") = false)
    by (destruct Hu as [-> | ->]; reflexivity).
  unfold straw, getSize, query_setup. rewrite Hunit, Hp, Hf. split; reflexivity.
Qed.

End RawQueries.

Lemma straw_none_records_witness :
  query_setup sample_fs 0 "NONE" "sample.hic" "A:0:15" "B:0:25" "BP" 10
    = Ok (Ready sample_query) /\
  Forall2 (fun b tmp => readBlock inflate_stored (q_file sample_query)
                          (q_version sample_query)
                          (block_entry (q_blockMap sample_query) b) = Ok tmp)
          (blockNumbers sample_query) [sample_records] /\
  straw inflate_stored sample_fs 0 "NONE" "sample.hic" "A:0:15" "B:0:25" "BP" 10
    = Ok ([], [{| binX := 10; binY := 20; counts := float_of_short 5 |}]).
Proof.
  assert (H1 : query_setup sample_fs 0 "NONE" "sample.hic" "A:0:15" "B:0:25" "BP" 10
               = Ok (Ready sample_query)) by (vm_compute; reflexivity).
  assert (H2 : Forall2 (fun b tmp => readBlock inflate_stored (q_file sample_query)
                                       (q_version sample_query)
                                       (block_entry (q_blockMap sample_query) b) = Ok tmp)
                       (blockNumbers sample_query) [sample_records]).
  { apply Forall2_cons; [vm_compute; reflexivity | apply Forall2_nil]. }
  split; [exact H1|]. split; [exact H2|].
  exact (straw_none_records inflate_stored sample_fs 0 "sample.hic" "A:0:15" "B:0:25"
           "BP" 10 sample_query [sample_records] H1 H2).
Defined.

Lemma missing_file_reported_witness :
  ("BP"%string = "BP"%string \/ "BP"%string = "FRAG"%string) /\
  String.prefix "http" "nothere.hic" = false /\
  sample_fs "nothere.hic" = None /\
  straw inflate_stored sample_fs 0 "KR" "nothere.hic" "A" "B" "BP" 10
    = Ok ([msg_open "nothere.hic"], []).
Proof.
  assert (Hu : "BP"%string = "BP"%string \/ "BP"%string = "FRAG"%string)
    by (left; reflexivity).
  split; [exact Hu|]. split; [reflexivity|]. split; [reflexivity|].
  exact (proj1 (missing_file_reported inflate_stored sample_fs 0 "KR" "nothere.hic"
                  "A" "B" "BP" 10 Hu eq_refl eq_refl)).
Defined.

(** ** Blocks that do not keep to their header *)

Lemma vec_set_full {A : Type} (done : list A) (x : A) :
  vec_set done (Z.of_nat (List.length done)) x = Fault OutOfBounds.
Proof.
  unfold vec_set. rewrite Z.ltb_irrefl, andb_false_r. reflexivity.
Qed.

Lemma row_cells_overflow (useShort xoff by_ : Z) (cells : list (Z * Z)) :
  Forall (fun xc => is_short (fst xc) /\ cell_ok useShort (snd xc)) cells ->
  forall (done : list contactRecord) (k : nat) (rest : list byte),
    (k < List.length cells)%nat ->
    row_cells (List.length cells) useShort xoff by_
      (flat_map (enc_row_cell useShort) cells ++ rest)
      (Z.of_nat (List.length done)) (done ++ repeat zero_record k)
    = Fault OutOfBounds.
Proof.
  induction 1 as [|[x c] cells [Hx Hc] Hcells IH]; intros done k rest Hk.
  - simpl in Hk. lia.
  - cbn [List.length] in Hk.
    cbn [List.length flat_map row_cells]. unfold enc_row_cell at 1.
    cbn [fst snd] in *. repeat rewrite <- app_assoc.
    rewrite read_short_enc by exact Hx. cbn [bind].
    rewrite read_count_enc by exact Hc. cbn [bind].
    destruct k as [|k]; cbn [repeat].
    + rewrite app_nil_r, vec_set_full. reflexivity.
    + rewrite vec_set_next. cbn [bind].
      set (r := {| binX := int_add xoff x; binY := by_;
                   counts := type1_count useShort c |}).
      replace (Z.of_nat (List.length done) + 1)
        with (Z.of_nat (List.length (done ++ [r])))
        by (rewrite length_app; simpl; lia).
      replace (done ++ r :: repeat zero_record k)
        with ((done ++ [r]) ++ repeat zero_record k)
        by (rewrite <- app_assoc; reflexivity).
      apply IH. lia.
Qed.

Lemma rows_overflow (useShort xoff yoff : Z) (rws : list (Z * list (Z * Z))) :
  Forall (row_ok useShort) rws ->
  forall (done : list contactRecord) (k : nat) (rest : list byte),
    (k < List.length (type1_records xoff yoff useShort rws))%nat ->
    rows (List.length rws) useShort xoff yoff
      (flat_map (enc_row_of useShort) rws ++ rest)
      (Z.of_nat (List.length done)) (done ++ repeat zero_record k)
    = Fault OutOfBounds.
Proof.
  induction 1 as [|[y cells] rws (Hy & Hn & Hcells) Hrws IH]; intros done k rest Hk.
  - simpl in Hk. lia.
  - unfold type1_records in Hk. cbn [flat_map] in Hk.
    unfold row_records at 1 in Hk. cbn [fst snd] in *.
    rewrite length_app, length_map in Hk.
    fold (type1_records xoff yoff useShort rws) in Hk.
    cbn [List.length rows flat_map]. unfold enc_row_of at 1.
    cbn [fst snd]. repeat rewrite <- app_assoc.
    rewrite read_short_enc by exact Hy. cbn [bind].
    rewrite read_short_enc by (unfold is_short; lia). cbn [bind].
    rewrite Nat2Z.id.
    destruct (Nat.le_gt_cases (List.length cells) k) as [Hle|Hgt].
    + rewrite (row_cells_enc useShort xoff (int_add y yoff) cells Hcells) by exact Hle.
      cbn [bind].
      set (rs := map (fun xc => {| binX := int_add xoff (fst xc);
                                   binY := int_add y yoff;
                                   counts := type1_count useShort (snd xc) |}) cells).
      replace (List.length done + List.length cells)%nat
        with (List.length (done ++ rs))
        by (unfold rs; rewrite length_app, length_map; reflexivity).
      apply IH. lia.
    + rewrite (row_cells_overflow useShort xoff (int_add y yoff) cells Hcells)
        by exact Hgt.
      reflexivity.
Qed.

Section BrokenBlocks.

Variable inflate : list byte -> Z -> list byte.

(** The field [nRecords] of a block is trusted.  When a list-of-rows block
    (type 1) of version 7 and later holds more cells than [nRecords],
    [readBlock] does not stop at the end of its vector: the record of the
    first cell in excess is written past the last slot. *)
Theorem rows_block_overflow :
  forall (file : list byte) (version : Z) (idx : indexEntry)
         (nRecords xoff yoff useShort : Z) (rws : list (Z * list (Z * Z)))
         (rest : list byte),
    size idx <> 0 ->
    inflate_block inflate file idx
      = Ok (enc_block_rows nRecords xoff yoff useShort rws ++ rest) ->
    7 <= version ->
    is_int nRecords -> is_int xoff -> is_int yoff -> - 128 <= useShort < 128 ->
    Forall (row_ok useShort) rws -> Z.of_nat (List.length rws) < 2 ^ 15 ->
    0 <= nRecords < Z.of_nat (List.length (type1_records xoff yoff useShort rws)) ->
    readBlock inflate file version idx = Fault OutOfBounds.
Proof.
  intros file version idx nRecords xoff yoff useShort rws rest
         Hsize Hinf Hv HnR Hx Hy Hu Hrws Hlen Hrecs.
  rewrite (readBlock_decoded inflate file version idx _ Hsize Hinf).
  unfold decode_block, enc_block_rows. repeat rewrite <- app_assoc.
  rewrite read_int_enc by exact HnR. cbn [bind].
  unfold vec_make.
  replace (nRecords <? 0) with false by (symmetry; apply Z.ltb_ge; lia).
  cbn [bind]. replace (version <? 7) with false by (symmetry; apply Z.ltb_ge; lia).
  rewrite read_int_enc by exact Hx. cbn [bind].
  rewrite read_int_enc by exact Hy. cbn [bind].
  rewrite read_char_enc by exact Hu. cbn [bind].
  rewrite read_char_enc by lia. cbn [bind].
  change (1 =? 1) with true. cbv iota.
  rewrite read_short_enc by (unfold is_short; lia). cbn [bind].
  rewrite Nat2Z.id.
  apply (rows_overflow useShort xoff yoff rws Hrws [] (Z.to_nat nRecords) rest).
  lia.
Qed.

(** A dense block (type 2) of version 7 and later with the width 0 and at
    least one cell makes [readBlock] divide by zero, in [i / w] for the
    first cell. *)
Theorem dense_block_zero_width :
  forall (file : list byte) (version : Z) (idx : indexEntry)
         (nRecords xoff yoff useShort : Z) (cells : list Z) (rest : list byte),
    size idx <> 0 ->
    inflate_block inflate file idx
      = Ok (enc_block_type2 nRecords xoff yoff useShort 0 cells ++ rest) ->
    7 <= version ->
    is_int nRecords -> 0 <= nRecords -> is_int xoff -> is_int yoff ->
    - 128 <= useShort < 128 ->
    cells <> [] -> Z.of_nat (List.length cells) <= INT_MAX ->
    readBlock inflate file version idx = Fault DivisionByZero.
Proof.
  intros file version idx nRecords xoff yoff useShort cells rest
         Hsize Hinf Hv HnR Hn0 Hx Hy Hu Hcells Hlen.
  rewrite (readBlock_decoded inflate file version idx _ Hsize Hinf).
  unfold decode_block, enc_block_type2. repeat rewrite <- app_assoc.
  rewrite read_int_enc by exact HnR. cbn [bind].
  unfold vec_make.
  replace (nRecords <? 0) with false by (symmetry; apply Z.ltb_ge; lia).
  cbn [bind]. replace (version <? 7) with false by (symmetry; apply Z.ltb_ge; lia).
  rewrite read_int_enc by exact Hx. cbn [bind].
  rewrite read_int_enc by exact Hy. cbn [bind].
  rewrite read_char_enc by exact Hu. cbn [bind].
  rewrite read_char_enc by lia. cbn [bind].
  change (2 =? 1) with false. change (2 =? 2) with true. cbv iota.
  rewrite read_int_enc by (unfold is_int, INT_MIN; lia). cbn [bind].
  rewrite read_short_enc by (unfold is_short; lia). cbn [bind].
  rewrite Nat2Z.id.
  destruct cells as [|c cells]; [congruence|]. reflexivity.
Qed.

End BrokenBlocks.

Lemma rows_block_overflow_witness :
  size (stored_entry (enc_block_rows 1 10 20 0 short_rows)) <> 0 /\
  inflate_block inflate_stored (zlib_store (enc_block_rows 1 10 20 0 short_rows))
    (stored_entry (enc_block_rows 1 10 20 0 short_rows))
    = Ok (enc_block_rows 1 10 20 0 short_rows ++ []) /\
  Forall (row_ok 0) short_rows /\
  0 <= 1 < Z.of_nat (List.length (type1_records 10 20 0 short_rows)) /\
  readBlock inflate_stored (zlib_store (enc_block_rows 1 10 20 0 short_rows)) 8
    (stored_entry (enc_block_rows 1 10 20 0 short_rows))
    = Fault OutOfBounds.
Proof.
  assert (H1 : size (stored_entry (enc_block_rows 1 10 20 0 short_rows)) <> 0)
    by (vm_compute; discriminate).
  assert (H2 : inflate_block inflate_stored
                 (zlib_store (enc_block_rows 1 10 20 0 short_rows))
                 (stored_entry (enc_block_rows 1 10 20 0 short_rows))
               = Ok (enc_block_rows 1 10 20 0 short_rows ++ []))
    by (vm_compute; reflexivity).
  assert (H3 : 7 <= 8) by lia.
  assert (H4 : is_int 1) by wf.
  assert (H5 : is_int 10) by wf.
  assert (H6 : is_int 20) by wf.
  assert (H7 : - 128 <= 0 < 128) by lia.
  assert (H8 : Forall (row_ok 0) short_rows) by wf.
  assert (H9 : Z.of_nat (List.length short_rows) < 2 ^ 15) by wf.
  assert (H10 : 0 <= 1 < Z.of_nat (List.length (type1_records 10 20 0 short_rows)))
    by wf.
  split; [exact H1|]. split; [exact H2|]. split; [exact H8|]. split; [exact H10|].
  exact (rows_block_overflow inflate_stored _ 8 _ 1 10 20 0 short_rows []
           H1 H2 H3 H4 H5 H6 H7 H8 H9 H10).
Defined.

Lemma dense_block_zero_width_witness :
  size (stored_entry flat_block) <> 0 /\
  inflate_block inflate_stored (zlib_store flat_block) (stored_entry flat_block)
    = Ok (enc_block_type2 1 0 0 0 0 [5] ++ []) /\
  [5] <> @nil Z /\
  readBlock inflate_stored (zlib_store flat_block) 8 (stored_entry flat_block)
    = Fault DivisionByZero.
Proof.
  assert (H1 : size (stored_entry flat_block) <> 0) by (vm_compute; discriminate).
  assert (H2 : inflate_block inflate_stored (zlib_store flat_block)
                 (stored_entry flat_block)
               = Ok (enc_block_type2 1 0 0 0 0 [5] ++ []))
    by (vm_compute; reflexivity).
  assert (H3 : 7 <= 8) by lia.
  assert (H4 : is_int 1) by wf.
  assert (H5 : 0 <= 1) by lia.
  assert (H6 : is_int 0) by wf.
  assert (H7 : - 128 <= 0 < 128) by lia.
  assert (H8 : [5] <> @nil Z) by discriminate.
  assert (H9 : Z.of_nat (List.length [5]) <= INT_MAX) by wf.
  split; [exact H1|]. split; [exact H2|]. split; [exact H8|].
  exact (dense_block_zero_width inflate_stored _ 8 _ 1 0 0 0 [5] []
           H1 H2 H3 H4 H5 H6 H6 H7 H8 H9).
Defined.

(** ** The records of a normalized query *)

Section NormalizedQueries.

Variable inflate : list byte -> Z -> list byte.

(** What [straw] returns with a norm other than "NONE" once the query has
    reached the loop over the blocks.  The count of every record of the
    selected blocks is divided by [c1Norm[binX] * c2Norm[binY]], with the
    bins of the record as indices and the vector of the chromosome of lower
    index as [c1Norm]; the division is done in [double] and the result
    stored in a [float].  The division comes before the region test: when
    every record of the selected blocks has its bins inside the two vectors,
    the result is made of the records that pass the region test, in the
    order of the blocks; when a single record has not, be it outside the
    region, a vector is read out of its bounds. *)
Theorem straw_normalized_records :
  forall (fs : string -> option (list byte)) (version : Z)
         (norm fname chr1loc chr2loc unit : string) (binsize : Z)
         (q : query) (tmps : list (list contactRecord)),
    norm <> "NONE"%string ->
    query_setup fs version norm fname chr1loc chr2loc unit binsize = Ok (Ready q) ->
    Forall2 (fun b tmp => readBlock inflate (q_file q) (q_version q)
                            (block_entry (q_blockMap q) b) = Ok tmp)
            (blockNumbers q) tmps ->
    straw inflate fs version norm fname chr1loc chr2loc unit binsize
    = if forallb (norm_defined q) (List.concat tmps)
      then Ok (q_log q,
               map (normalized_scaled binsize q)
                   (filter (kept binsize q) (List.concat tmps)))
      else Fault OutOfBounds.
Proof.
  intros fs version norm fname chr1loc chr2loc unit binsize q tmps Hn Hq Hblocks.
  unfold straw. rewrite Hq. cbn [bind straw_result].
  rewrite (straw_blocks_normalized inflate norm binsize q Hn (blockNumbers q) tmps []
             Hblocks).
  destruct (forallb (norm_defined q) (List.concat tmps)); reflexivity.
Qed.

End NormalizedQueries.

Lemma straw_normalized_records_witness :
  "VC"%string <> "NONE"%string /\
  query_setup sample_fs 0 "VC" "sample.hic" "A:0:15" "A:0:25" "BP" 10
    = Ok (Ready sample_query_vc) /\
  Forall2 (fun b tmp => readBlock inflate_stored (q_file sample_query_vc)
                          (q_version sample_query_vc)
                          (block_entry (q_blockMap sample_query_vc) b) = Ok tmp)
          (blockNumbers sample_query_vc) [sample_records] /\
  straw inflate_stored sample_fs 0 "VC" "sample.hic" "A:0:15" "A:0:25" "BP" 10
    = Ok ([], [{| binX := 10; binY := 20;
                  counts := S754_finite false 10485760 (-23) |}]).
Proof.
  assert (H0 : "VC"%string <> "NONE"%string) by discriminate.
  assert (H1 : query_setup sample_fs 0 "VC" "sample.hic" "A:0:15" "A:0:25" "BP" 10
               = Ok (Ready sample_query_vc)) by (vm_compute; reflexivity).
  assert (H2 : Forall2 (fun b tmp => readBlock inflate_stored (q_file sample_query_vc)
                                       (q_version sample_query_vc)
                                       (block_entry (q_blockMap sample_query_vc) b)
                                     = Ok tmp)
                       (blockNumbers sample_query_vc) [sample_records]).
  { apply Forall2_cons; [vm_compute; reflexivity | apply Forall2_nil]. }
  split; [exact H0|]. split; [exact H1|]. split; [exact H2|].
  exact (straw_normalized_records inflate_stored sample_fs 0 "VC" "sample.hic"
           "A:0:15" "A:0:25" "BP" 10 sample_query_vc [sample_records] H0 H1 H2).
Defined.

(** ** A query on a well-formed file *)

Lemma readFooter_none_enc (nBytes : Z) (entries : list (string * Z * Z))
    (rest : list byte) (master c1 c2 : Z) (unit : string) (resolution pos : Z) :
  is_int nBytes -> Forall footer_entry_ok entries ->
  Z.of_nat (List.length entries) <= INT_MAX ->
  last_match (footer_key c1 c2) entries = Some pos ->
  readFooter (enc_master_index nBytes entries ++ rest) master c1 c2 "NONE" unit
    resolution
  = Ok {| foundFooter := true; myFilePos := Some pos; c1NormEntry := None;
          c2NormEntry := None; footer_log := [] |}.
Proof.
  intros HnB Hes Hne Hpos. unfold readFooter, enc_master_index.
  repeat rewrite <- app_assoc.
  rewrite read_int_enc by exact HnB. cbn [bind].
  rewrite read_int_enc by (unfold is_int, INT_MIN; lia). cbn [bind].
  rewrite Nat2Z.id, footer_entries_enc by exact Hes. cbn [bind orb].
  rewrite Hpos. reflexivity.
Qed.

Lemma getBlockNumbers_returns (r0 r1 r2 r3 blockBinCount blockColumnCount : Z)
    (intra : bool) :
  0 < blockBinCount ->
  Z.quot (int_add r1 1) blockBinCount < INT_MAX ->
  Z.quot (int_add r3 1) blockBinCount < INT_MAX ->
  exists blocks,
    getBlockNumbersForRegionFromBinPosition (r0, r1, r2, r3) blockBinCount
      blockColumnCount intra = Ok blocks.
Proof.
  intros Hpos H1 H3.
  unfold getBlockNumbersForRegionFromBinPosition.
  rewrite !int_div_pos by exact Hpos. cbn [bind].
  rewrite block_loops_ok by lia. cbn [bind].
  destruct intra; [|eexists; reflexivity].
  rewrite block_loops_ok by lia. eexists. reflexivity.
Qed.

Section WellFormedFile.

Variable inflate : list byte -> Z -> list byte.

(** The arguments of the query and the file that [fname] names. *)
Variable fs : string -> option (list byte).
Variables fname chr1loc chr2loc unit : string.
Variable binsize version0 : Z.
Variable file : list byte.

(** The header. *)
Variables tail genome : string.
Variables version master : Z.
Variable attrs : list (string * string).
Variable chrs : list (string * Z).
Variable body : list byte.

(** The two regions. *)
Variables chrom1 chrom2 : chromosome.
Variables c1pos1 c1pos2 c2pos1 c2pos2 : Z.

(** The master index, at [master]. *)
Variable nBytes : Z.
Variable entries : list (string * Z * Z).
Variable after_index : list byte.

(** The matrix of the chromosome pair, at [pos], and its zoom level [z]. *)
Variables pos mc1 mc2 nRes : Z.
Variable before : list zoomLevel.
Variable z : zoomLevel.
Variable after_zoom : list byte.

Hypothesis unit_ok : unit = "BP"%string \/ unit = "FRAG"%string.
Hypothesis local_file : String.prefix "http" fname = false.
Hypothesis opened : fs fname = Some file.
Hypothesis binsize_pos : 0 < binsize.

Hypothesis header_at_start :
  file = enc_full_header ("HIC" ++ tail) version master genome attrs chrs ++ body.
Hypothesis header_ok :
  no_nul tail /\ is_int version /\ 6 <= version /\ is_long master /\ no_nul genome /\
  Forall attribute_ok attrs /\ Z.of_nat (List.length attrs) <= INT_MAX /\
  Forall chromosome_ok chrs /\ Z.of_nat (List.length chrs) <= INT_MAX.

Hypothesis region1 :
  find_chromosome (loc_name chr1loc) 0 chrs = Some chrom1 /\
  parse_range (snd (sgetline (Some chr1loc))) chrom1 = Ok (c1pos1, c1pos2).
Hypothesis region2 :
  find_chromosome (loc_name chr2loc) 0 chrs = Some chrom2 /\
  parse_range (snd (sgetline (Some chr2loc))) chrom2 = Ok (c2pos1, c2pos2).

Hypothesis index_at_master :
  0 <= master /\
  skipn (Z.to_nat master) file = enc_master_index nBytes entries ++ after_index.
Hypothesis index_ok :
  is_int nBytes /\ Forall footer_entry_ok entries /\
  Z.of_nat (List.length entries) <= INT_MAX.
Hypothesis pair_in_index :
  last_match (footer_key (Z.min (index chrom1) (index chrom2))
                         (Z.max (index chrom1) (index chrom2))) entries = Some pos.

Hypothesis matrix_at_pos :
  0 <= pos /\
  skipn (Z.to_nat pos) file
    = enc_int mc1 ++ enc_int mc2 ++ enc_int nRes
        ++ flat_map enc_zoom_level before ++ enc_zoom_level z ++ after_zoom.
Hypothesis matrix_ok :
  is_int mc1 /\ is_int mc2 /\ is_int nRes /\
  Z.of_nat (List.length before) < nRes /\ Forall zoom_ok before /\ zoom_ok z.
Hypothesis zoom_found :
  Forall (fun z' => zoom_matches unit binsize z' = false) before /\
  zoom_matches unit binsize z = true.
Hypothesis blockBinCount_pos : 0 < z_blockBinCount z.
Hypothesis block_indices_bounded :
  Z.quot (int_add (Z.quot c1pos2 binsize) 1) (z_blockBinCount z) < INT_MAX /\
  Z.quot (int_add (Z.quot c2pos2 binsize) 1) (z_blockBinCount z) < INT_MAX.

(** Up to the footer: header and regions, for every norm. *)
Lemma query_setup_reaches_footer (norm0 : string) :
  let swap := index chrom1 >? index chrom2 in
  let orig := if swap then (c2pos1, c2pos2, c1pos1, c1pos2)
              else (c1pos1, c1pos2, c2pos1, c2pos2) in
  let bin (p : Z) := Z.quot p binsize in
  let regionIndices :=
    if swap then (bin c2pos1, bin c2pos2, bin c1pos1, bin c1pos2)
    else (bin c1pos1, bin c1pos2, bin c2pos1, bin c2pos2) in
  query_setup fs version0 norm0 fname chr1loc chr2loc unit binsize
  = query_blocks file version master [] norm0 unit binsize
      (Z.min (index chrom1) (index chrom2)) (Z.max (index chrom1) (index chrom2))
      orig regionIndices.
Proof.
  intros swap orig bin regionIndices.
  destruct header_ok as (Ht & Hv & Hv6 & Hm & Hg & Hattrs & Hna & Hchrs & Hnc).
  destruct region1 as [Hc1 Hr1]. destruct region2 as [Hc2 Hr2].
  destruct (header_round_trip_lemma tail version master genome attrs chrs body version0
              Ht Hv Hv6 Hm Hg Hattrs Hna Hchrs Hnc) as (cmap & Hh & Hfind & _).
  rewrite <- header_at_start in Hh.
  rewrite (query_setup_opened fs file version0 norm0 fname chr1loc chr2loc unit
             binsize cmap master version [] body unit_ok local_file opened Hh).
  rewrite !Hfind, Hc1, Hr1. cbn [bind]. rewrite Hc2, Hr2. cbn [bind].
  unfold query_region, region_indices. fold swap.
  assert (Hri : (if swap
                 then r0 <- int_div c2pos1 binsize ;;
                      r1 <- int_div c2pos2 binsize ;;
                      r2 <- int_div c1pos1 binsize ;;
                      r3 <- int_div c1pos2 binsize ;;
                      Ok ((c2pos1, c2pos2, c1pos1, c1pos2), (r0, r1, r2, r3))
                 else r0 <- int_div c1pos1 binsize ;;
                      r1 <- int_div c1pos2 binsize ;;
                      r2 <- int_div c2pos1 binsize ;;
                      r3 <- int_div c2pos2 binsize ;;
                      Ok ((c1pos1, c1pos2, c2pos1, c2pos2), (r0, r1, r2, r3)))
                = Ok (orig, regionIndices)).
  { unfold orig, regionIndices, bin. rewrite !int_div_pos by exact binsize_pos.
    destruct swap; reflexivity. }
  rewrite Hri. reflexivity.
Qed.

(** Up to the matrix, with the norm "NONE". *)
Lemma query_setup_reaches_matrix :
  let swap := index chrom1 >? index chrom2 in
  let orig := if swap then (c2pos1, c2pos2, c1pos1, c1pos2)
              else (c1pos1, c1pos2, c2pos1, c2pos2) in
  let bin (p : Z) := Z.quot p binsize in
  let regionIndices :=
    if swap then (bin c2pos1, bin c2pos2, bin c1pos1, bin c1pos2)
    else (bin c1pos1, bin c1pos2, bin c2pos1, bin c2pos2) in
  let intra := Z.min (index chrom1) (index chrom2)
               =? Z.max (index chrom1) (index chrom2) in
  query_setup fs version0 "NONE" fname chr1loc chr2loc unit binsize
  = ('(blockMap, blockCounts, mlog) <- readMatrix file pos unit binsize ;;
     '(blockBinCount, blockColumnCount) <- assigned blockCounts ;;
     blocks <- getBlockNumbersForRegionFromBinPosition regionIndices
                 blockBinCount blockColumnCount intra ;;
     Ok (Ready {| q_log := mlog; q_file := file; q_version := version;
                  origRegionIndices := orig; q_intra := intra;
                  c1Norm := []; c2Norm := [];
                  q_blockMap := blockMap; blockNumbers := blocks |})).
Proof.
  intros swap orig bin regionIndices intra.
  destruct index_at_master as [Hmaster Hindex].
  destruct index_ok as (HnB & Hes & Hne).
  rewrite (query_setup_reaches_footer "NONE"). cbv zeta.
  unfold query_blocks, seekg.
  replace (master <? 0) with false by (symmetry; apply Z.ltb_ge; exact Hmaster).
  cbn [bind]. rewrite Hindex.
  rewrite (readFooter_none_enc nBytes entries after_index master _ _ unit binsize pos
             HnB Hes Hne pair_in_index).
  cbn [bind foundFooter negb footer_log myFilePos assigned].
  change (negb (String.eqb "NONE" "NONE")) with false. cbv iota. cbn [bind app].
  destruct (readMatrix file pos unit binsize) as [[[blockMap counts] mlog]|];
    reflexivity.
Qed.

(** The whole reader on a file that is written as the format says.  With
    the norm "NONE", two regions whose chromosomes are in the header, a
    positive bin size, a master index that has the key of the chromosome
    pair, a matrix that has a zoom level with the unit and the bin size of
    the query, and region ends whose block indices are below [INT_MAX], up
    to which the loops of the block selector can count, the query reaches
    the loop over the blocks and prints nothing.  The region is given with the chromosome of lower index first,
    the blocks are those that the block selector gives for the bins of that
    region, and the block index is the one of the zoom level.  [straw] then
    returns the records of these blocks that pass the region test. *)
Theorem query_on_well_formed_file :
  let swap := index chrom1 >? index chrom2 in
  let orig := if swap then (c2pos1, c2pos2, c1pos1, c1pos2)
              else (c1pos1, c1pos2, c2pos1, c2pos2) in
  let bin (p : Z) := Z.quot p binsize in
  let regionIndices :=
    if swap then (bin c2pos1, bin c2pos2, bin c1pos1, bin c1pos2)
    else (bin c1pos1, bin c1pos2, bin c2pos1, bin c2pos2) in
  let intra := Z.min (index chrom1) (index chrom2)
               =? Z.max (index chrom1) (index chrom2) in
  exists q,
    query_setup fs version0 "NONE" fname chr1loc chr2loc unit binsize
      = Ok (Ready q) /\
    q_log q = [] /\ q_file q = file /\ q_version q = version /\
    origRegionIndices q = orig /\ q_intra q = intra /\
    getBlockNumbersForRegionFromBinPosition regionIndices
      (z_blockBinCount z) (z_blockColumnCount z) intra = Ok (blockNumbers q) /\
    (forall b, block_entry (q_blockMap q) b =
               match last_block b (z_blocks z) with
               | Some e => e
               | None => {| size := 0; position := 0 |}
               end) /\
    (forall tmps,
       Forall2 (fun b tmp => readBlock inflate file version
                               (block_entry (q_blockMap q) b) = Ok tmp)
               (blockNumbers q) tmps ->
       straw inflate fs version0 "NONE" fname chr1loc chr2loc unit binsize
       = Ok ([], map (scaled binsize)
                     (filter (kept binsize q) (List.concat tmps)))).
Proof.
  intros swap orig bin regionIndices intra.
  pose proof query_setup_reaches_matrix as Hsetup. cbv zeta in Hsetup.
  fold swap in Hsetup. fold orig in Hsetup. fold intra in Hsetup.
  destruct matrix_at_pos as [Hpos Hmatrix].
  destruct matrix_ok as (Hmc1 & Hmc2 & HnRes & Hlen & Hbefore & Hz).
  destruct zoom_found as [Hno Hyes].
  destruct (readMatrix_selected file pos mc1 mc2 nRes before z after_zoom unit binsize
              Hpos Hmatrix Hmc1 Hmc2 HnRes Hlen Hbefore Hz Hno Hyes)
    as (blockMap & HreadM & Hfind).
  assert (Hentry : forall b, block_entry blockMap b =
                             match last_block b (z_blocks z) with
                             | Some e => e
                             | None => {| size := 0; position := 0 |}
                             end).
  { intros b. unfold block_entry. rewrite Hfind. reflexivity. }
  assert (Hreturns : exists blocks,
            getBlockNumbersForRegionFromBinPosition regionIndices
              (z_blockBinCount z) (z_blockColumnCount z) intra = Ok blocks).
  { destruct block_indices_bounded as [Hb1 Hb2].
    unfold regionIndices, bin. destruct swap;
      apply getBlockNumbers_returns; assumption. }
  destruct Hreturns as (blocks & Hblocks).
  pose (q := {| q_log := []; q_file := file; q_version := version;
                origRegionIndices := orig; q_intra := intra;
                c1Norm := []; c2Norm := [];
                q_blockMap := blockMap; blockNumbers := blocks |}).
  rewrite HreadM in Hsetup. cbn [bind assigned] in Hsetup.
  change (getBlockNumbersForRegionFromBinPosition regionIndices (z_blockBinCount z)
            (z_blockColumnCount z) intra = Ok blocks) in Hblocks.
  unfold regionIndices, bin in Hblocks. rewrite Hblocks in Hsetup.
  cbn [bind] in Hsetup. fold q in Hsetup.
  exists q. split; [exact Hsetup|].
  repeat (split; [reflexivity|]).
  split; [exact Hblocks|]. split; [exact Hentry|].
  intros tmps Htmps. unfold straw. rewrite Hsetup. cbn [bind straw_result].
  rewrite (straw_blocks_none_records inflate binsize q (blockNumbers q) tmps [] Htmps).
  reflexivity.
Qed.

(** The same file when its matrix has no zoom level for the query. *)
Variable zooms : list zoomLevel.
Variable after_zooms : list byte.

Hypothesis matrix_without_zoom :
  0 <= pos /\
  skipn (Z.to_nat pos) file
    = enc_int mc1 ++ enc_int mc2 ++ enc_int nRes
        ++ flat_map enc_zoom_level zooms ++ after_zooms.
Hypothesis zooms_ok :
  is_int mc1 /\ is_int mc2 /\ is_int nRes /\
  Z.to_nat nRes = List.length zooms /\ Forall zoom_ok zooms.
Hypothesis no_zoom : Forall (fun z' => zoom_matches unit binsize z' = false) zooms.

(** Asking for a unit and bin size that the matrix of the chromosome pair
    does not have does not end the query.  After "Error finding block data"
    [readMatrix] returns with [blockBinCount] and [blockColumnCount] never
    assigned, and [straw] and [getSize] go on to select the blocks with
    them: the query reads two variables that have no value. *)
Theorem missing_resolution_unassigned :
  readMatrix file pos unit binsize = Ok ([], None, [msg_no_blocks]) /\
  straw inflate fs version0 "NONE" fname chr1loc chr2loc unit binsize
    = Fault Uninitialised /\
  getSize inflate fs version0 "NONE" fname chr1loc chr2loc unit binsize
    = Fault Uninitialised.
Proof.
  pose proof query_setup_reaches_matrix as Hsetup. cbv zeta in Hsetup.
  destruct matrix_without_zoom as [Hpos Hmatrix].
  destruct zooms_ok as (Hmc1 & Hmc2 & HnRes & Hlen & Hzooms).
  assert (HreadM : readMatrix file pos unit binsize = Ok ([], None, [msg_no_blocks])).
  { unfold readMatrix, seekg.
    replace (pos <? 0) with false by (symmetry; apply Z.ltb_ge; exact Hpos).
    cbn [bind]. rewrite Hmatrix.
    rewrite read_int_enc by exact Hmc1. cbn [bind].
    rewrite read_int_enc by exact Hmc2. cbn [bind].
    rewrite read_int_enc by exact HnRes. cbn [bind].
    rewrite Hlen. rewrite <- (Nat.add_0_r (List.length zooms)).
    rewrite (zoom_levels_skip unit binsize zooms Hzooms no_zoom). reflexivity. }
  rewrite HreadM in Hsetup. cbn [bind assigned] in Hsetup.
  split; [exact HreadM|].
  unfold straw, getSize. rewrite Hsetup. split; reflexivity.
Qed.

(** The same file read with a norm: the rest of the footer and the two
    normalization vectors. *)
Variable norm : string.
Variables ev1 ev2 : list (string * string * Z * list Z * list (Z * Z)).
Variable norms : list (string * Z * string * Z * Z * Z).
Variable after_footer : list byte.
Variables e1 e2 : indexEntry.
Variables values1 values2 : list Z.
Variables pad1 post1 pad2 post2 : list byte.

Hypothesis with_norm : norm <> "NONE"%string.
Hypothesis footer_rest :
  after_index
  = enc_expected_map false ev1 ++ enc_expected_map true ev2
      ++ enc_int (Z.of_nat (List.length norms)) ++ flat_map enc_norm_entry norms
      ++ after_footer.
Hypothesis footer_rest_ok :
  Forall expected_ok ev1 /\ Z.of_nat (List.length ev1) <= INT_MAX /\
  Forall expected_ok ev2 /\ Z.of_nat (List.length ev2) <= INT_MAX /\
  Forall norm_entry_ok norms /\ Z.of_nat (List.length norms) <= INT_MAX.
Hypothesis vectors_in_index :
  last_norm_entry norm unit binsize (Z.min (index chrom1) (index chrom2)) norms
    = Some e1 /\
  last_norm_entry norm unit binsize (Z.max (index chrom1) (index chrom2)) norms
    = Some e2.
Hypothesis vector1 :
  0 <= position e1 /\
  skipn (Z.to_nat (position e1)) file = (enc_norm_vector values1 ++ pad1) ++ post1 /\
  size e1 = len (enc_norm_vector values1 ++ pad1) /\
  Z.of_nat (List.length values1) <= INT_MAX.
Hypothesis vector2 :
  0 <= position e2 /\
  skipn (Z.to_nat (position e2)) file = (enc_norm_vector values2 ++ pad2) ++ post2 /\
  size e2 = len (enc_norm_vector values2 ++ pad2) /\
  Z.of_nat (List.length values2) <= INT_MAX.

(** The whole reader on a well-formed file with a norm other than "NONE".
    When the index of normalization vectors has an entry for each of the two
    chromosomes at the norm, unit and bin size of the query, the query
    prints nothing and reaches the loop over the blocks with the vector of
    the chromosome of lower index as [c1Norm] and the one of the chromosome
    of higher index as [c2Norm], whatever the order of the two regions;
    region, blocks and block index are those of the query without norm, under
    the same bound on the block indices of the region ends.
    [straw] then returns the records of the selected blocks that pass the
    region test with their counts divided by [c1Norm[binX] * c2Norm[binY]],
    provided that every record of these blocks has its bins inside the two
    vectors. *)
Theorem normalized_query_on_well_formed_file :
  let swap := index chrom1 >? index chrom2 in
  let orig := if swap then (c2pos1, c2pos2, c1pos1, c1pos2)
              else (c1pos1, c1pos2, c2pos1, c2pos2) in
  let bin (p : Z) := Z.quot p binsize in
  let regionIndices :=
    if swap then (bin c2pos1, bin c2pos2, bin c1pos1, bin c1pos2)
    else (bin c1pos1, bin c1pos2, bin c2pos1, bin c2pos2) in
  let intra := Z.min (index chrom1) (index chrom2)
               =? Z.max (index chrom1) (index chrom2) in
  exists q,
    query_setup fs version0 norm fname chr1loc chr2loc unit binsize
      = Ok (Ready q) /\
    q_log q = [] /\ q_file q = file /\ q_version q = version /\
    origRegionIndices q = orig /\ q_intra q = intra /\
    c1Norm q = norm_values values1 /\ c2Norm q = norm_values values2 /\
    getBlockNumbersForRegionFromBinPosition regionIndices
      (z_blockBinCount z) (z_blockColumnCount z) intra = Ok (blockNumbers q) /\
    (forall b, block_entry (q_blockMap q) b =
               match last_block b (z_blocks z) with
               | Some e => e
               | None => {| size := 0; position := 0 |}
               end) /\
    (forall tmps,
       Forall2 (fun b tmp => readBlock inflate file version
                               (block_entry (q_blockMap q) b) = Ok tmp)
               (blockNumbers q) tmps ->
       forallb (norm_defined q) (List.concat tmps) = true ->
       straw inflate fs version0 norm fname chr1loc chr2loc unit binsize
       = Ok ([], map (normalized_scaled binsize q)
                     (filter (kept binsize q) (List.concat tmps)))).
Proof.
  intros swap orig bin regionIndices intra.
  destruct index_at_master as [Hmaster Hindex].
  destruct index_ok as (HnB & Hes & Hne).
  destruct footer_rest_ok as (Hev1 & Hn1 & Hev2 & Hn2 & Hnorms & Hnn).
  destruct vectors_in_index as [He1 He2].
  destruct vector1 as (Hp1 & Hf1 & Hs1 & Hl1).
  destruct vector2 as (Hp2 & Hf2 & Hs2 & Hl2).
  destruct matrix_at_pos as [Hpos Hmatrix].
  destruct matrix_ok as (Hmc1 & Hmc2 & HnRes & Hlen & Hbefore & Hz).
  destruct zoom_found as [Hno Hyes].
  destruct (readMatrix_selected file pos mc1 mc2 nRes before z after_zoom unit binsize
              Hpos Hmatrix Hmc1 Hmc2 HnRes Hlen Hbefore Hz Hno Hyes)
    as (blockMap & HreadM & Hfind).
  assert (Hentry : forall b, block_entry blockMap b =
                             match last_block b (z_blocks z) with
                             | Some e => e
                             | None => {| size := 0; position := 0 |}
                             end).
  { intros b. unfold block_entry. rewrite Hfind. reflexivity. }
  assert (Hreturns : exists blocks,
            getBlockNumbersForRegionFromBinPosition regionIndices
              (z_blockBinCount z) (z_blockColumnCount z) intra = Ok blocks).
  { destruct block_indices_bounded as [Hb1 Hb2].
    unfold regionIndices, bin. destruct swap;
      apply getBlockNumbers_returns; assumption. }
  destruct Hreturns as (blocks & Hblocks).
  pose (q := {| q_log := []; q_file := file; q_version := version;
                origRegionIndices := orig; q_intra := intra;
                c1Norm := norm_values values1; c2Norm := norm_values values2;
                q_blockMap := blockMap; blockNumbers := blocks |}).
  assert (Hn : String.eqb norm "NONE" = false) by (apply String.eqb_neq; exact with_norm).
  assert (Hfooter :
    skipn (Z.to_nat master) file
    = enc_full_footer nBytes entries ev1 ev2 norms ++ after_footer).
  { rewrite Hindex, footer_rest. unfold enc_full_footer.
    repeat rewrite <- app_assoc. reflexivity. }
  pose proof (load_norm_at file values1 pad1 post1 e1 Hp1 Hf1 Hs1 Hl1) as Hload1.
  pose proof (load_norm_at file values2 pad2 post2 e2 Hp2 Hf2 Hs2 Hl2) as Hload2.
  assert (Hsetup :
    query_setup fs version0 norm fname chr1loc chr2loc unit binsize = Ok (Ready q)).
  { rewrite (query_setup_reaches_footer norm). cbv zeta.
    unfold query_blocks, seekg.
    replace (master <? 0) with false by (symmetry; apply Z.ltb_ge; exact Hmaster).
    cbn [bind]. rewrite Hfooter.
    rewrite (readFooter_norm_enc nBytes entries ev1 ev2 norms after_footer master _ _
               norm unit binsize pos e1 e2 HnB Hes Hne Hev1 Hn1 Hev2 Hn2 Hnorms Hnn
               pair_in_index Hn He1 He2).
    rewrite Hn.
    cbn [bind foundFooter negb footer_log myFilePos assigned c1NormEntry c2NormEntry
         is_some andb app].
    rewrite Hload1. cbn [bind]. rewrite Hload2. cbn [bind].
    rewrite HreadM. cbn [bind assigned]. fold intra.
    change (getBlockNumbersForRegionFromBinPosition regionIndices (z_blockBinCount z)
              (z_blockColumnCount z) intra = Ok blocks) in Hblocks.
    unfold regionIndices, bin, swap in Hblocks. rewrite Hblocks. reflexivity. }
  exists q. split; [exact Hsetup|].
  repeat (split; [reflexivity|]).
  split; [exact Hblocks|]. split; [exact Hentry|].
  intros tmps Htmps Hdefined. unfold straw. rewrite Hsetup. cbn [bind straw_result].
  rewrite (straw_blocks_normalized inflate norm binsize q with_norm
             (blockNumbers q) tmps [] Htmps).
  rewrite Hdefined. reflexivity.
Qed.

End WellFormedFile.

Lemma query_on_well_formed_file_witness :
  sample_file
    = enc_full_header ("HIC" ++ "") 8 sample_master "hg19" [] sample_chrs ++ sample_body /\
  skipn (Z.to_nat sample_master) sample_file
    = enc_master_index (footer_size sample_index sample_norms) sample_index
        ++ enc_norm_index sample_norms /\
  skipn (Z.to_nat sample_matrix_pos) sample_file
    = enc_int 0 ++ enc_int 1 ++ enc_int 1
        ++ flat_map enc_zoom_level [] ++ enc_zoom_level sample_zoom
        ++ enc_footer sample_index sample_norms /\
  (Z.quot (int_add (Z.quot 15 10) 1) (z_blockBinCount sample_zoom) < INT_MAX /\
   Z.quot (int_add (Z.quot 25 10) 1) (z_blockBinCount sample_zoom) < INT_MAX) /\
  exists q,
    query_setup sample_fs 0 "NONE" "sample.hic" "A:0:15" "B:0:25" "BP" 10
      = Ok (Ready q) /\
    blockNumbers q = [0] /\
    straw inflate_stored sample_fs 0 "NONE" "sample.hic" "A:0:15" "B:0:25" "BP" 10
      = Ok ([], [{| binX := 10; binY := 20; counts := float_of_short 5 |}]).
Proof.
  assert (Hu : "BP"%string = "BP"%string \/ "BP"%string = "FRAG"%string)
    by (left; reflexivity).
  assert (Hb : 0 < 10) by lia.
  assert (Hfile : sample_file
                  = enc_full_header ("HIC" ++ "") 8 sample_master "hg19" [] sample_chrs
                      ++ sample_body) by (vm_compute; reflexivity).
  assert (Hheader :
    no_nul "" /\ is_int 8 /\ 6 <= 8 /\ is_long sample_master /\ no_nul "hg19" /\
    Forall attribute_ok [] /\
    Z.of_nat (List.length (@nil (string * string))) <= INT_MAX /\
    Forall chromosome_ok sample_chrs /\ Z.of_nat (List.length sample_chrs) <= INT_MAX)
    by wf.
  assert (Hr1 : find_chromosome (loc_name "A:0:15") 0 sample_chrs = Some chrA /\
                parse_range (snd (sgetline (Some "A:0:15"%string))) chrA = Ok (0, 15))
    by (split; reflexivity).
  assert (Hr2 : find_chromosome (loc_name "B:0:25") 0 sample_chrs = Some chrB /\
                parse_range (snd (sgetline (Some "B:0:25"%string))) chrB = Ok (0, 25))
    by (split; reflexivity).
  assert (Hindex : 0 <= sample_master /\
                   skipn (Z.to_nat sample_master) sample_file
                   = enc_master_index (footer_size sample_index sample_norms) sample_index
                       ++ enc_norm_index sample_norms).
  { split; [vm_compute; discriminate | vm_compute; reflexivity]. }
  assert (Hiok : is_int (footer_size sample_index sample_norms) /\
                 Forall footer_entry_ok sample_index /\
                 Z.of_nat (List.length sample_index) <= INT_MAX) by wf.
  assert (Hpair : last_match (footer_key (Z.min (index chrA) (index chrB))
                                         (Z.max (index chrA) (index chrB))) sample_index
                  = Some sample_matrix_pos) by reflexivity.
  assert (Hmatrix : 0 <= sample_matrix_pos /\
                    skipn (Z.to_nat sample_matrix_pos) sample_file
                    = enc_int 0 ++ enc_int 1 ++ enc_int 1
                        ++ flat_map enc_zoom_level [] ++ enc_zoom_level sample_zoom
                        ++ enc_footer sample_index sample_norms).
  { split; [vm_compute; discriminate | vm_compute; reflexivity]. }
  assert (Hmok : is_int 0 /\ is_int 1 /\ is_int 1 /\
                 Z.of_nat (List.length (@nil zoomLevel)) < 1 /\
                 Forall zoom_ok [] /\ zoom_ok sample_zoom) by wf.
  assert (Hzoom : Forall (fun z' => zoom_matches "BP" 10 z' = false) [] /\
                  zoom_matches "BP" 10 sample_zoom = true)
    by (split; [constructor | reflexivity]).
  assert (Hbbc : 0 < z_blockBinCount sample_zoom) by reflexivity.
  assert (Hbound :
    Z.quot (int_add (Z.quot 15 10) 1) (z_blockBinCount sample_zoom) < INT_MAX /\
    Z.quot (int_add (Z.quot 25 10) 1) (z_blockBinCount sample_zoom) < INT_MAX)
    by (split; reflexivity).
  split; [exact Hfile|]. split; [exact (proj2 Hindex)|]. split; [exact (proj2 Hmatrix)|].
  split; [exact Hbound|].
  destruct (query_on_well_formed_file inflate_stored sample_fs
              "sample.hic" "A:0:15" "B:0:25" "BP" 10 0 sample_file
              "" "hg19" 8 sample_master [] sample_chrs sample_body
              chrA chrB 0 15 0 25
              (footer_size sample_index sample_norms) sample_index
              (enc_norm_index sample_norms)
              sample_matrix_pos 0 1 1 [] sample_zoom
              (enc_footer sample_index sample_norms)
              Hu eq_refl eq_refl Hb Hfile Hheader Hr1 Hr2 Hindex Hiok Hpair
              Hmatrix Hmok Hzoom Hbbc Hbound)
    as (q & Hs & _ & _ & _ & Ho & Hi & Hbn & Hentry & Hstraw).
  assert (Hblocks : blockNumbers q = [0]).
  { vm_compute in Hbn. injection Hbn as Hbn. symmetry. exact Hbn. }
  exists q. split; [exact Hs|]. split; [exact Hblocks|].
  rewrite (Hstraw [sample_records]).
  - unfold kept. rewrite Ho, Hi. reflexivity.
  - rewrite Hblocks. apply Forall2_cons; [|apply Forall2_nil].
    rewrite Hentry. vm_compute. reflexivity.
Defined.

Lemma missing_resolution_unassigned_witness :
  skipn (Z.to_nat sample_matrix_pos) sample_file
    = enc_int 0 ++ enc_int 1 ++ enc_int 1
        ++ flat_map enc_zoom_level [sample_zoom]
        ++ enc_footer sample_index sample_norms /\
  Forall (fun z' => zoom_matches "BP" 25 z' = false) [sample_zoom] /\
  readMatrix sample_file sample_matrix_pos "BP" 25 = Ok ([], None, [msg_no_blocks]) /\
  straw inflate_stored sample_fs 0 "NONE" "sample.hic" "A:0:15" "B:0:25" "BP" 25
    = Fault Uninitialised.
Proof.
  assert (Hu : "BP"%string = "BP"%string \/ "BP"%string = "FRAG"%string)
    by (left; reflexivity).
  assert (Hb : 0 < 25) by lia.
  assert (Hfile : sample_file
                  = enc_full_header ("HIC" ++ "") 8 sample_master "hg19" [] sample_chrs
                      ++ sample_body) by (vm_compute; reflexivity).
  assert (Hheader :
    no_nul "" /\ is_int 8 /\ 6 <= 8 /\ is_long sample_master /\ no_nul "hg19" /\
    Forall attribute_ok [] /\
    Z.of_nat (List.length (@nil (string * string))) <= INT_MAX /\
    Forall chromosome_ok sample_chrs /\ Z.of_nat (List.length sample_chrs) <= INT_MAX)
    by wf.
  assert (Hr1 : find_chromosome (loc_name "A:0:15") 0 sample_chrs = Some chrA /\
                parse_range (snd (sgetline (Some "A:0:15"%string))) chrA = Ok (0, 15))
    by (split; reflexivity).
  assert (Hr2 : find_chromosome (loc_name "B:0:25") 0 sample_chrs = Some chrB /\
                parse_range (snd (sgetline (Some "B:0:25"%string))) chrB = Ok (0, 25))
    by (split; reflexivity).
  assert (Hindex : 0 <= sample_master /\
                   skipn (Z.to_nat sample_master) sample_file
                   = enc_master_index (footer_size sample_index sample_norms) sample_index
                       ++ enc_norm_index sample_norms).
  { split; [vm_compute; discriminate | vm_compute; reflexivity]. }
  assert (Hiok : is_int (footer_size sample_index sample_norms) /\
                 Forall footer_entry_ok sample_index /\
                 Z.of_nat (List.length sample_index) <= INT_MAX) by wf.
  assert (Hpair : last_match (footer_key (Z.min (index chrA) (index chrB))
                                         (Z.max (index chrA) (index chrB))) sample_index
                  = Some sample_matrix_pos) by reflexivity.
  assert (Hmatrix : 0 <= sample_matrix_pos /\
                    skipn (Z.to_nat sample_matrix_pos) sample_file
                    = enc_int 0 ++ enc_int 1 ++ enc_int 1
                        ++ flat_map enc_zoom_level [sample_zoom]
                        ++ enc_footer sample_index sample_norms).
  { split; [vm_compute; discriminate | vm_compute; reflexivity]. }
  assert (Hmok : is_int 0 /\ is_int 1 /\ is_int 1 /\
                 Z.to_nat 1 = List.length [sample_zoom] /\
                 Forall zoom_ok [sample_zoom]) by wf.
  assert (Hzoom : Forall (fun z' => zoom_matches "BP" 25 z' = false) [sample_zoom])
    by (repeat constructor).
  split; [exact (proj2 Hmatrix)|]. split; [exact Hzoom|].
  destruct (missing_resolution_unassigned inflate_stored sample_fs
              "sample.hic" "A:0:15" "B:0:25" "BP" 25 0 sample_file
              "" "hg19" 8 sample_master [] sample_chrs sample_body
              chrA chrB 0 15 0 25
              (footer_size sample_index sample_norms) sample_index
              (enc_norm_index sample_norms)
              sample_matrix_pos 0 1 1
              Hu eq_refl eq_refl Hb Hfile Hheader Hr1 Hr2 Hindex Hiok Hpair
              [sample_zoom] (enc_footer sample_index sample_norms)
              Hmatrix Hmok Hzoom)
    as (HreadM & Hstraw & _).
  split; [exact HreadM | exact Hstraw].
Defined.

Lemma normalized_query_on_well_formed_file_witness :
  "VC"%string <> "NONE"%string /\
  last_norm_entry "VC" "BP" 10 0 sample_norms = Some sample_norm_entry /\
  skipn (Z.to_nat (position sample_norm_entry)) sample_file
    = (enc_norm_vector sample_norm_values ++ []) ++ after_sample_norm /\
  (Z.quot (int_add (Z.quot 15 10) 1) (z_blockBinCount sample_zoom) < INT_MAX /\
   Z.quot (int_add (Z.quot 25 10) 1) (z_blockBinCount sample_zoom) < INT_MAX) /\
  exists q,
    query_setup sample_fs 0 "VC" "sample.hic" "A:0:15" "A:0:25" "BP" 10
      = Ok (Ready q) /\
    c1Norm q = norm_values sample_norm_values /\
    c2Norm q = norm_values sample_norm_values /\
    straw inflate_stored sample_fs 0 "VC" "sample.hic" "A:0:15" "A:0:25" "BP" 10
      = Ok ([], [{| binX := 10; binY := 20;
                    counts := S754_finite false 10485760 (-23) |}]).
Proof.
  assert (Hu : "BP"%string = "BP"%string \/ "BP"%string = "FRAG"%string)
    by (left; reflexivity).
  assert (Hb : 0 < 10) by lia.
  assert (Hfile : sample_file
                  = enc_full_header ("HIC" ++ "") 8 sample_master "hg19" [] sample_chrs
                      ++ sample_body) by (vm_compute; reflexivity).
  assert (Hheader :
    no_nul "" /\ is_int 8 /\ 6 <= 8 /\ is_long sample_master /\ no_nul "hg19" /\
    Forall attribute_ok [] /\
    Z.of_nat (List.length (@nil (string * string))) <= INT_MAX /\
    Forall chromosome_ok sample_chrs /\ Z.of_nat (List.length sample_chrs) <= INT_MAX)
    by wf.
  assert (Hr1 : find_chromosome (loc_name "A:0:15") 0 sample_chrs = Some chrA /\
                parse_range (snd (sgetline (Some "A:0:15"%string))) chrA = Ok (0, 15))
    by (split; reflexivity).
  assert (Hr2 : find_chromosome (loc_name "A:0:25") 0 sample_chrs = Some chrA /\
                parse_range (snd (sgetline (Some "A:0:25"%string))) chrA = Ok (0, 25))
    by (split; reflexivity).
  assert (Hindex : 0 <= sample_master /\
                   skipn (Z.to_nat sample_master) sample_file
                   = enc_master_index (footer_size sample_index sample_norms) sample_index
                       ++ enc_norm_index sample_norms).
  { split; [vm_compute; discriminate | vm_compute; reflexivity]. }
  assert (Hiok : is_int (footer_size sample_index sample_norms) /\
                 Forall footer_entry_ok sample_index /\
                 Z.of_nat (List.length sample_index) <= INT_MAX) by wf.
  assert (Hpair : last_match (footer_key (Z.min (index chrA) (index chrA))
                                         (Z.max (index chrA) (index chrA))) sample_index
                  = Some sample_matrix_pos) by reflexivity.
  assert (Hmatrix : 0 <= sample_matrix_pos /\
                    skipn (Z.to_nat sample_matrix_pos) sample_file
                    = enc_int 0 ++ enc_int 1 ++ enc_int 1
                        ++ flat_map enc_zoom_level [] ++ enc_zoom_level sample_zoom
                        ++ enc_footer sample_index sample_norms).
  { split; [vm_compute; discriminate | vm_compute; reflexivity]. }
  assert (Hmok : is_int 0 /\ is_int 1 /\ is_int 1 /\
                 Z.of_nat (List.length (@nil zoomLevel)) < 1 /\
                 Forall zoom_ok [] /\ zoom_ok sample_zoom) by wf.
  assert (Hzoom : Forall (fun z' => zoom_matches "BP" 10 z' = false) [] /\
                  zoom_matches "BP" 10 sample_zoom = true)
    by (split; [constructor | reflexivity]).
  assert (Hbbc : 0 < z_blockBinCount sample_zoom) by reflexivity.
  assert (Hbound :
    Z.quot (int_add (Z.quot 15 10) 1) (z_blockBinCount sample_zoom) < INT_MAX /\
    Z.quot (int_add (Z.quot 25 10) 1) (z_blockBinCount sample_zoom) < INT_MAX)
    by (split; reflexivity).
  assert (Hnorm : "VC"%string <> "NONE"%string) by discriminate.
  assert (Hrest : enc_norm_index sample_norms
                  = enc_expected_map false [] ++ enc_expected_map true []
                      ++ enc_int (Z.of_nat (List.length sample_norms))
                      ++ flat_map enc_norm_entry sample_norms ++ []).
  { unfold enc_norm_index. rewrite app_nil_r. reflexivity. }
  assert (Hrok : Forall expected_ok [] /\
                 Z.of_nat (List.length
                             (@nil (string * string * Z * list Z * list (Z * Z))))
                 <= INT_MAX /\
                 Forall expected_ok [] /\
                 Z.of_nat (List.length
                             (@nil (string * string * Z * list Z * list (Z * Z))))
                 <= INT_MAX /\
                 Forall norm_entry_ok sample_norms /\
                 Z.of_nat (List.length sample_norms) <= INT_MAX) by wf.
  assert (Hentry : last_norm_entry "VC" "BP" 10 0 sample_norms = Some sample_norm_entry)
    by reflexivity.
  assert (Hentries :
    last_norm_entry "VC" "BP" 10 (Z.min (index chrA) (index chrA)) sample_norms
      = Some sample_norm_entry /\
    last_norm_entry "VC" "BP" 10 (Z.max (index chrA) (index chrA)) sample_norms
      = Some sample_norm_entry) by (split; reflexivity).
  assert (Hsplit : skipn (Z.to_nat (position sample_norm_entry)) sample_file
                   = (enc_norm_vector sample_norm_values ++ []) ++ after_sample_norm)
    by (vm_compute; reflexivity).
  assert (Hvector :
    0 <= position sample_norm_entry /\
    skipn (Z.to_nat (position sample_norm_entry)) sample_file
      = (enc_norm_vector sample_norm_values ++ []) ++ after_sample_norm /\
    size sample_norm_entry = len (enc_norm_vector sample_norm_values ++ []) /\
    Z.of_nat (List.length sample_norm_values) <= INT_MAX).
  { split; [vm_compute; discriminate|]. split; [exact Hsplit|].
    split; [reflexivity|]. wf. }
  split; [exact Hnorm|]. split; [exact Hentry|]. split; [exact Hsplit|].
  split; [exact Hbound|].
  destruct (normalized_query_on_well_formed_file inflate_stored sample_fs
              "sample.hic" "A:0:15" "A:0:25" "BP" 10 0 sample_file
              "" "hg19" 8 sample_master [] sample_chrs sample_body
              chrA chrA 0 15 0 25
              (footer_size sample_index sample_norms) sample_index
              (enc_norm_index sample_norms)
              sample_matrix_pos 0 1 1 [] sample_zoom
              (enc_footer sample_index sample_norms)
              Hu eq_refl eq_refl Hb Hfile Hheader Hr1 Hr2 Hindex Hiok Hpair
              Hmatrix Hmok Hzoom Hbbc Hbound
              "VC" [] [] sample_norms [] sample_norm_entry sample_norm_entry
              sample_norm_values sample_norm_values
              [] after_sample_norm [] after_sample_norm
              Hnorm Hrest Hrok Hentries Hvector Hvector)
    as (q & Hs & _ & _ & _ & Ho & Hi & Hn1 & Hn2 & Hbn & Hblock & Hstraw).
  assert (Hblocks : blockNumbers q = [0]).
  { vm_compute in Hbn. injection Hbn as Hbn. symmetry. exact Hbn. }
  exists q. split; [exact Hs|]. split; [exact Hn1|]. split; [exact Hn2|].
  rewrite (Hstraw [sample_records]).
  - unfold kept, normalized_scaled. rewrite Ho, Hi, Hn1, Hn2. vm_compute. reflexivity.
  - rewrite Hblocks. apply Forall2_cons; [|apply Forall2_nil].
    rewrite Hblock. vm_compute. reflexivity.
  - unfold norm_defined. rewrite Hn1, Hn2. reflexivity.
Defined.
